(** * KISS-GP additive regression notebook: a verification development

    The source is the notebook
    [examples/05_Scalable_GP_Regression_Multidimensional/KISSGP_Additive_Regression_CUDA.ipynb].
    Its code cells are embedded in three layers.

    - [Numeric layer]: the tensors the notebook builds itself (the training
      and test grids, the targets, the error surface) as lists of real
      numbers, with the loops, index updates and elementwise operations
      written as in the cells.  Float entries are modelled by the real
      numbers they approximate; rounding to binary32/64 is not modelled.
      The one exception is the covariance that [forward] scales: the factor
      [log_outputscale.exp()] leaves the binary32 range for parameters of
      moderate size (it is 0.0 below about -104 and infinite above about
      88.7), so the factor and the entries of the covariance are binary32
      values with their infinities and NaN.
      What Python or torch raise (IndexError, ZeroDivisionError, a shape
      mismatch) is [None].
    - [Recorded output]: the twenty lines the training cell printed, as the
      notebook file stores them.
    - [Script layer]: the cells as sequences of calls into the tensor, GP and
      plotting libraries, in a state-and-exception monad over an arbitrary
      library behaviour; every call and its outcome is logged. *)

From Stdlib Require Import Reals Lra Lia ZArith String.
From stdpp Require Import base option list strings pretty.

(* ================================================================== *)
(** * Numeric layer: tensors as lists of reals                          *)
(* ================================================================== *)

(** [torch.zeros(rows, cols)] *)
Definition zeros (rows cols : nat) : list (list R) :=
  replicate rows (replicate cols 0%R).

(** [t[r][c] = v]: [t[r]] is a view of row [r], the assignment writes through
    it.  An index out of range raises IndexError. *)
Definition setitem2 (t : list (list R)) (r c : nat) (v : R) : option (list (list R)) :=
  row ← t !! r;
  if decide (c < length row) then Some (<[r := <[c := v]> row]> t) else None.

(** [float(a) / d] for Python ints [a >= 0] and [d]: ZeroDivisionError when
    [d = 0]. *)
Definition float_div (a : nat) (d : Z) : option R :=
  if decide (d = 0%Z) then None else Some (INR a / IZR d)%R.

(** [for i in range(n): s = body(i, s)], stopping at the first exception. *)
Fixpoint for_from {St : Type} (start count : nat) (body : nat → St → option St) (s : St)
  : option St :=
  match count with
  | O => Some s
  | S count' => s' ← body start s; for_from (S start) count' body s'
  end.

Definition for_range {St : Type} (n : nat) (body : nat → St → option St) (s : St)
  : option St :=
  for_from 0 n body s.

(** The two nested loops of cells 2 and 5:
<<
    for i in range(n):
        for j in range(n):
            t[i * n + j][0] = float(i) / (n-1)
            t[i * n + j][1] = float(j) / (n-1)
>> *)
Definition fill_grid (n : nat) (t : list (list R)) : option (list (list R)) :=
  for_range n (λ i t,
    for_range n (λ j t,
      x0 ← float_div i (Z.of_nat n - 1);
      t ← setitem2 t (i * n + j) 0 x0;
      x1 ← float_div j (Z.of_nat n - 1);
      setitem2 t (i * n + j) 1 x1) t) t.

(** Cell 2: [n = 100; train_x = torch.zeros(pow(n, 2), 2)] and the loops.
    [Variable(...)] and [.cuda()] leave the entries as they are. *)
Definition train_x : option (list (list R)) :=
  let n := 100 in fill_grid n (zeros (n ^ 2) 2).

(** Cell 5: [n = 10; test_x = Variable(torch.zeros(int(pow(n, 2)), 2)).cuda()]
    and the same loops over [test_x.data]. *)
Definition test_x : option (list (list R)) :=
  let n := 10 in fill_grid n (zeros (n ^ 2) 2).

(** [x[:, c]]: column [c] of a two-dimensional tensor with at least one
    row, IndexError when [c] is not a column.  (The list of rows of a tensor
    without rows has lost the number of columns, which decides whether torch
    raises there; the cells take columns of the 10000-row and the 100-row
    tensor only, and what is proved of [column] on any tensor is proved for
    tensors with a row.) *)
Definition column (c : nat) (x : list (list R)) : option (list R) :=
  mapM (λ row : list R, row !! c) x.

(** Elementwise binary operation on one-dimensional tensors with torch's
    broadcasting: equal sizes, or one operand of size 1; any other pair of
    sizes raises. *)
Definition broadcast (f : R → R → R) (a b : list R) : option (list R) :=
  if decide (length a = length b) then Some (zip_with f a b)
  else match a, b with
       | [x], _ => Some (map (f x) b)
       | _, [y] => Some (map (λ x, f x y) a)
       | _, _ => None
       end.

Definition tensor_sin (a : list R) : list R := map sin a.
Definition tensor_cos (a : list R) : list R := map cos a.
Definition tensor_add (a b : list R) : option (list R) := broadcast Rplus a b.
Definition tensor_scale (a : list R) (k : R) : list R := map (λ v, v * k)%R a.

(** The right-hand side shared by [train_y] (cell 2) and [test_y_actual]
    (cell 5):
    [(torch.sin(x.data[:, 0]) + torch.cos(x.data[:, 1])) * (2 * math.pi)].
    (The comment above it in cell 2 reads [y=sin(x0) + 2*pi*cos(x1)]; the
    expression is what the cells compute.)  Like [column], it stands for the
    code on tensors with at least one row. *)
Definition target (x : list (list R)) : option (list R) :=
  c0 ← column 0 x;
  c1 ← column 1 x;
  s ← tensor_add (tensor_sin c0) (tensor_cos c1);
  Some (tensor_scale s (2 * PI)%R).

Definition train_y : option (list R) := train_x ≫= target.

(** A real is in the range of finite binary32 values: rounding it does not
    overflow to an infinity. *)
Definition float32_max : R := ((2 - / 2 ^ 23) * 2 ^ 127)%R.
Definition is_finite (v : R) : Prop := (Rabs v <= float32_max)%R.

(** Closed form of the grid: row [k] holds the coordinates of point
    [(k / n, k mod n)] of the [n] by [n] lattice on the unit square. *)
Definition coord (n i : nat) : R := (INR i / IZR (Z.of_nat n - 1))%R.
Definition grid_point (n k : nat) : list R := [coord n (k / n); coord n (k mod n)].
Definition grid (n : nat) : list (list R) := map (grid_point n) (seq 0 (n * n)).

(** The formula of the targets at one input row. *)
Definition formula (x0 x1 : R) : R := ((sin x0 + cos x1) * (2 * PI))%R.

(** The tensor while the loops of [fill_grid] run: rows below [m] hold their
    grid point, the rows from [m] on are still zero. *)
Definition filled (n m : nat) (t : list (list R)) : Prop :=
  length t = n * n ∧
  ∀ k, k < n * n → t !! k = Some (if decide (k < m) then grid_point n k else [0%R; 0%R]).

(** A two-dimensional tensor has [rows] rows of [cols] entries. *)
Definition shape (rows cols : nat) (m : list (list R)) : Prop :=
  length m = rows ∧ Forall (λ r, length r = cols) m.

(** No point of [test] is a point of [train]. *)
Definition held_out (test train : list (list R)) : Prop :=
  ∀ p, p ∈ test → p ∉ train.

(* ------------------------------------------------------------------ *)
(** ** Cell 3: the model class                                          *)
(* ------------------------------------------------------------------ *)

(** Library objects are represented by the constructor call that builds
    them. *)
Inductive mean_module_t : Type :=
  | ConstantMean.

Inductive kernel : Type :=
  | RBFKernel
  | AdditiveGridInterpolationKernel
      (base : kernel) (grid_size : Z) (grid_bounds : list (Z * Z)) (n_components : Z).

Inductive likelihood_t : Type :=
  | GaussianLikelihood.

(** The state the base class keeps:
    [super(GPRegressionModel, self).__init__(train_x, train_y, likelihood)]. *)
Record ExactGP : Type := {
  train_inputs : list (list R);
  train_targets : list R;
  likelihood : likelihood_t
}.

(** [class GPRegressionModel(gpytorch.models.ExactGP)]: the base-class part
    and the attributes [__init__] sets.  [log_outputscale] is the one-entry
    parameter tensor [torch.Tensor([0])], represented by its entry. *)
Record GPRegressionModel : Type := {
  base_class : ExactGP;
  mean_module : mean_module_t;
  base_covar_module : kernel;
  covar_module : kernel;
  log_outputscale : R
}.



(** [GPRegressionModel.__init__(self, train_x, train_y, likelihood)] *)
Definition __init__ (train_x : list (list R)) (train_y : list R) (likelihood : likelihood_t)
  : GPRegressionModel :=
  let super := {| train_inputs := train_x; train_targets := train_y;
                  likelihood := likelihood |} in
  let mean_module := ConstantMean in
  let base_covar_module := RBFKernel in
  let covar_module :=
    AdditiveGridInterpolationKernel base_covar_module 400 [(0, 1)%Z] 2 in
  {| base_class := super;
     mean_module := mean_module;
     base_covar_module := base_covar_module;
     covar_module := covar_module;
     log_outputscale := 0%R |}.

(** A binary32 value where the special values matter: a real number, an
    infinity, or NaN.  (The sign of a zero is not modelled.) *)
Inductive float32 : Type := Number (v : R) | PlusInf | MinusInf | NaN.

(** [t.exp()] for a one-entry float tensor holding the finite value [x]: the
    exponential rounded to binary32.  A result of at most [2^-150], half the
    smallest positive value [2^-149], rounds to 0.0; a result of at least
    [(2 - 2^-24) * 2^127], halfway between the largest finite value and
    [2^128], rounds to infinity; in between the rounding is not modelled. *)
Definition float32_exp (x : R) : float32 :=
  if Rle_dec (exp x) (/ 2 ^ 150) then Number 0
  else if Rle_dec ((2 - / 2 ^ 24) * 2 ^ 127) (exp x) then PlusInf
  else Number (exp x).

(** The product of two binary32 values: IEEE 754 on the special values (an
    infinity times zero is NaN), the real product otherwise. *)
Definition float32_mul (a b : float32) : float32 :=
  match a, b with
  | NaN, _ | _, NaN => NaN
  | Number v, Number w => Number (v * w)
  | Number v, PlusInf | PlusInf, Number v =>
    if Rlt_dec 0 v then PlusInf else if Rlt_dec v 0 then MinusInf else NaN
  | Number v, MinusInf | MinusInf, Number v =>
    if Rlt_dec 0 v then MinusInf else if Rlt_dec v 0 then PlusInf else NaN
  | PlusInf, PlusInf | MinusInf, MinusInf => PlusInf
  | PlusInf, MinusInf | MinusInf, PlusInf => MinusInf
  end.

(** Strictly positive, strictly negative. *)
Definition is_positive (a : float32) : Prop :=
  match a with Number v => (0 < v)%R | PlusInf => True | _ => False end.

Definition is_negative (a : float32) : Prop :=
  match a with Number v => (v < 0)%R | MinusInf => True | _ => False end.

(** [GaussianRandomVariable(mean, covar)] with its accessors [mean()] and
    [covar()]. *)
Record GaussianRandomVariable : Type := {
  mean : list R;
  covar : list (list float32)
}.

(** [covar_x.mul(s)] for a one-entry tensor [s]: every entry of the
    covariance matrix is multiplied by it. *)
Definition mul (covar_x : list (list float32)) (s : float32) : list (list float32) :=
  map (map (λ c, float32_mul c s)) covar_x.

(** The factor [self.log_outputscale.exp()] of [forward]. *)
Definition outputscale (self : GPRegressionModel) : float32 :=
  float32_exp (log_outputscale self).

(** Entry [(i, j)] of a matrix, and whether a coordinate lies inside every
    interval of a list of grid bounds. *)
Definition entry2 {A : Type} (m : list (list A)) (i j : nat) : option A :=
  m !! i ≫= (.!! j).

Definition within_bounds (bounds : list (Z * Z)) (v : R) : Prop :=
  Forall (λ b : Z * Z, (IZR b.1 <= v <= IZR b.2)%R) bounds.

(** The grid bounds a kernel was constructed with ([RBFKernel] has none). *)
Definition declared_bounds (k : kernel) : list (Z * Z) :=
  match k with
  | RBFKernel => []
  | AdditiveGridInterpolationKernel _ _ bounds _ => bounds
  end.


(** [view(n, m)] / [reshape(n, m)] of a one-dimensional tensor: its entries
    in row-major order, a size mismatch raises. *)
Fixpoint chunks (rows cols : nat) (a : list R) : list (list R) :=
  match rows with
  | O => []
  | S rows' => take cols a :: chunks rows' cols (drop cols a)
  end.

Definition view (rows cols : nat) (a : list R) : option (list (list R)) :=
  if decide (length a = rows * cols) then Some (chunks rows cols a) else None.

(** numpy's elementwise operations on two-dimensional arrays, with
    broadcasting along either axis. *)
Definition broadcast_opt {A : Type} (f : A → A → option A) (a b : list A) : option (list A) :=
  if decide (length a = length b) then mapM (λ p : A * A, f p.1 p.2) (zip a b)
  else match a, b with
       | [x], _ => mapM (f x) b
       | _, [y] => mapM (λ x, f x y) a
       | _, _ => None
       end.

Definition numpy_sub (a b : list (list R)) : option (list (list R)) :=
  broadcast_opt (broadcast Rminus) a b.

Definition numpy_absolute (a : list (list R)) : list (list R) := map (map Rabs) a.

Section Library.

(** What the GP library computes, as the notebook sees it: the value of a
    mean module and of a kernel on an input tensor (at their current
    parameters), the model called in eval mode (the library's
    [ExactGP.__call__], which conditions on the training data), and the
    likelihood applied to a distribution. *)
Variable mean_call : mean_module_t → list (list R) → list R.
Variable kernel_call : kernel → list (list R) → list (list float32).
Variable model_call : GPRegressionModel → list (list R) → GaussianRandomVariable.
Variable likelihood_call : likelihood_t → GaussianRandomVariable → GaussianRandomVariable.

(** [GPRegressionModel.forward(self, x)] *)
Definition forward (self : GPRegressionModel) (x : list (list R)) : GaussianRandomVariable :=
  let mean_x := mean_call (mean_module self) x in
  let covar_x := kernel_call (covar_module self) x in
  let covar_x := mul covar_x (float32_exp (log_outputscale self)) in
  {| mean := mean_x; covar := covar_x |}.

(** Cell 5, for the trained [model] and its likelihood [lik]. *)
Variable model : GPRegressionModel.
Variable lik : likelihood_t.

(** [observed_pred = likelihood(model(test_x))] *)
Definition observed_pred : option GaussianRandomVariable :=
  x ← test_x; Some (likelihood_call lik (model_call model x)).

(** [pred_labels = observed_pred.mean().view(n, n).data.cpu().numpy()],
    with [n = 10] *)
Definition pred_labels : option (list (list R)) :=
  let n := 10 in p ← observed_pred; view n n (mean p).

(** [test_y_actual = (...).cpu().numpy().reshape(n, n)] *)
Definition test_y_actual : option (list (list R)) :=
  let n := 10 in x ← test_x; y ← target x; view n n y.

(** [delta_y = numpy.absolute(pred_labels - test_y_actual)] *)
Definition delta_y : option (list (list R)) :=
  p ← pred_labels; a ← test_y_actual; d ← numpy_sub p a; Some (numpy_absolute d).

End Library.

(* ------------------------------------------------------------------ *)
(** ** Predicates on the tensors the loops of [fill_grid] work on       *)
(* ------------------------------------------------------------------ *)

(** The tensor has every row the loops write to, [0 .. n*n - 1], each with
    columns 0 and 1. *)
Definition fits (n : nat) (t : list (list R)) : Prop :=
  ∀ k, k < n * n → ∃ row, t !! k = Some row ∧ 2 ≤ length row.

(** Row [k] once the loops have passed it: columns 0 and 1 overwritten. *)
Definition written (n k : nat) (row : list R) : list R :=
  <[1 := coord n (k mod n)]> (<[0 := coord n (k / n)]> row).

(** The tensor while the loops run on a start tensor [t0]: the rows below [m]
    are written, the others are as in [t0]. *)
Definition filled_on (t0 : list (list R)) (n m : nat) (t : list (list R)) : Prop :=
  length t = length t0 ∧
  ∀ k, t !! k = if decide (k < m) then written n k <$> t0 !! k else t0 !! k.

(** The rows from [m] on are as in [t0]. *)
Definition agree_from (t0 : list (list R)) (m : nat) (t : list (list R)) : Prop :=
  ∀ k, m ≤ k → t !! k = t0 !! k.

(** Row [k] of [t] is missing or has no column 1: writing it raises
    IndexError. *)
Definition bad_row (t : list (list R)) (k : nat) : Prop :=
  ∀ row, t !! k = Some row → length row < 2.

(* ================================================================== *)
(** * Recorded output of the training cell                              *)
(* ================================================================== *)

(** [num_iter = 20] *)
Definition num_iter : nat := 20.

(** ['%.3f' % v] for a value [v] given in thousandths.  (A negative value
    that rounds to zero, which Python shows as [-0.000], is not such a
    value; none of the stored lines shows one.) *)
Definition format_f3 (milli : Z) : string :=
  let a := Z.abs milli in
  (if decide (milli < 0)%Z then "-" else "")
  +:+ pretty (Z.div a 1000) +:+ "."
  +:+ pretty (Z.modulo (Z.div a 100) 10)
  +:+ pretty (Z.modulo (Z.div a 10) 10)
  +:+ pretty (Z.modulo a 10).

(** ['Iter %d/%d - Loss: %.3f' % (i + 1, num_iter, loss.data[0])] *)
Definition format_iter (i num_iter : nat) (milli : Z) : string :=
  "Iter " +:+ pretty (i + 1) +:+ "/" +:+ pretty num_iter +:+ " - Loss: " +:+ format_f3 milli.

(** The stdout stream the notebook file stores for the training cell. *)
Definition recorded_stdout : list string := [
  "Iter 1/20 - Loss: 0.924";
  "Iter 2/20 - Loss: 0.825";
  "Iter 3/20 - Loss: 0.726";
  "Iter 4/20 - Loss: 0.626";
  "Iter 5/20 - Loss: 0.527";
  "Iter 6/20 - Loss: 0.429";
  "Iter 7/20 - Loss: 0.330";
  "Iter 8/20 - Loss: 0.230";
  "Iter 9/20 - Loss: 0.131";
  "Iter 10/20 - Loss: 0.032";
  "Iter 11/20 - Loss: -0.066";
  "Iter 12/20 - Loss: -0.166";
  "Iter 13/20 - Loss: -0.263";
  "Iter 14/20 - Loss: -0.362";
  "Iter 15/20 - Loss: -0.460";
  "Iter 16/20 - Loss: -0.559";
  "Iter 17/20 - Loss: -0.657";
  "Iter 18/20 - Loss: -0.753";
  "Iter 19/20 - Loss: -0.849";
  "Iter 20/20 - Loss: -0.945"
].

(** The losses of those lines, in thousandths, in the order printed. *)
Definition printed_losses : list Z :=
  [924; 825; 726; 626; 527; 429; 330; 230; 131; 32;
   -66; -166; -263; -362; -460; -559; -657; -753; -849; -945]%Z.


(* ================================================================== *)
(** * Script layer: the cells as sequences of library calls             *)
(* ================================================================== *)

Set Implicit Arguments.
Set Contextual Implicit.

Section Script.

(** Objects and exceptions of the Python run, and the state of the world
    outside the notebook (the libraries, the device, the display). *)
Variables Obj Exn LibState : Type.

(** What the notebook passes to a call: objects it got from earlier calls,
    literals, tuples, lists, dicts and keyword arguments of them, the full
    slice [:], and the exception handed to [__exit__]. *)
#[warnings="-register-all"]
Inductive arg : Type :=
  | Ob (o : Obj)
  | Int (z : Z)
  | Flt (r : R)
  | Str (s : string)
  | Bool (b : bool)
  | PyNone
  | Slice
  | Tup (l : list arg)
  | Lst (l : list arg)
  | Dict (l : list (string * arg))
  | Kw (name : string) (a : arg)
  | Exc (e : Exn).

Record call : Type := Call { callee : string; args : list arg }.

Inductive outcome (A : Type) : Type :=
  | Returned (a : A)
  | Raised (e : Exn).

(** The behaviour of everything the notebook calls: a call either returns
    an object or raises, and changes the outside state. *)
Variable lib : call → LibState → outcome Obj * LibState.

(** Python's truth value of an object (used on the result of [__exit__]). *)
Variable truthy : Obj → bool.

Record world : Type := World {
  lib_state : LibState;
  log : list (call * outcome Obj)
}.

(** A piece of notebook code: from a world to its outcome and the world
    after it. *)
Definition py (A : Type) : Type := world → outcome A * world.

#[local] Instance py_ret : MRet py := λ A a w, (Returned a, w).

#[local] Instance py_bind : MBind py := λ A B k m w,
  match m w with
  | (Returned a, w') => k a w'
  | (Raised e, w') => (Raised e, w')
  end.

(** One call into a library, logged with its outcome. *)
Definition invoke (f : string) (a : list arg) : py Obj := λ w,
  let c := Call f a in
  let r := lib c (lib_state w) in
  (r.1, {| lib_state := r.2; log := log w ++ [(c, r.1)] |}).

(** [for i in range(n): body(i)] *)
Fixpoint loop_from (start count : nat) (body : nat → py unit) : py unit :=
  match count with
  | 0 => mret ()
  | S count' => body start;; loop_from (S start) count' body
  end.

Definition loop_range (n : nat) (body : nat → py unit) : py unit := loop_from 0 n body.

(** [with mgr: body].  [__exit__] runs on both ways out of the body: with
    [None] after a body that returned, and with the exception [e] (for the
    triple of its type, value and traceback) after a body that raised [e];
    then [e] is raised again unless [__exit__] returns a true value or raises
    itself. *)
Definition with_ (mgr : Obj) (body : py unit) : py unit := λ w,
  match invoke "__enter__" [Ob mgr] w with
  | (Raised e, w1) => (Raised e, w1)
  | (Returned _, w1) =>
    match body w1 with
    | (Returned _, w2) =>
      match invoke "__exit__" [Ob mgr; PyNone] w2 with
      | (Returned _, w3) => (Returned (), w3)
      | (Raised e, w3) => (Raised e, w3)
      end
    | (Raised e, w2) =>
      match invoke "__exit__" [Ob mgr; Exc e] w2 with
      | (Returned r, w3) => if truthy r then (Returned (), w3) else (Raised e, w3)
      | (Raised e', w3) => (Raised e', w3)
      end
    end
  end.

(** Attribute reads, item reads and writes, calls of callable objects. *)
Definition getattr (o : Obj) (name : string) : py Obj := invoke "getattr" [Ob o; Str name].
Definition setattr (o : Obj) (name : string) (v : Obj) : py Obj :=
  invoke "setattr" [Ob o; Str name; Ob v].
Definition getitem (o : Obj) (key : arg) : py Obj := invoke "__getitem__" [Ob o; key].
Definition setitem (o : Obj) (key : arg) (v : arg) : py Obj :=
  invoke "__setitem__" [Ob o; key; v].
Definition call_object (f : Obj) (a : list arg) : py Obj := invoke "__call__" (Ob f :: a).
Definition method (name : string) (self : Obj) (a : list arg) : py Obj :=
  invoke name (Ob self :: a).

(** [(torch.sin(x.data[:, 0]) + torch.cos(x.data[:, 1])) * (2 * math.pi)] *)
Definition target_expression (x : Obj) : py Obj :=
  d ← getattr x "data";
  c0 ← getitem d (Tup [Slice; Int 0]);
  s ← invoke "torch.sin" [Ob c0];
  d ← getattr x "data";
  c1 ← getitem d (Tup [Slice; Int 1]);
  c ← invoke "torch.cos" [Ob c1];
  sum ← method "__add__" s [Ob c];
  method "__mul__" sum [Flt (2 * PI)].

(** Cell 2.  Returns [(train_x, train_y)]. *)
Definition cell2 : py (Obj * Obj) :=
  let n := 100 in
  train_x ← invoke "torch.zeros" [Int (Z.of_nat (n ^ 2)); Int 2];
  loop_range n (λ i, loop_range n (λ j,
    row ← getitem train_x (Int (Z.of_nat (i * n + j)));
    setitem row (Int 0) (Flt (INR i / IZR (Z.of_nat n - 1)));;
    row ← getitem train_x (Int (Z.of_nat (i * n + j)));
    setitem row (Int 1) (Flt (INR j / IZR (Z.of_nat n - 1)));;
    mret ()));;
  v ← invoke "Variable" [Ob train_x];
  train_x ← method "cuda" v [];
  y ← target_expression train_x;
  v ← invoke "Variable" [Ob y];
  train_y ← method "cuda" v [];
  mret (train_x, train_y).

(** [GPRegressionModel.__init__(self, train_x, train_y, likelihood)] *)
Definition init_body (self train_x train_y likelihood : Obj) : py unit :=
  invoke "ExactGP.__init__" [Ob self; Ob train_x; Ob train_y; Ob likelihood];;
  m ← invoke "ConstantMean" [];
  setattr self "mean_module" m;;
  k ← invoke "RBFKernel" [];
  setattr self "base_covar_module" k;;
  base ← getattr self "base_covar_module";
  a ← invoke "AdditiveGridInterpolationKernel"
        [Ob base; Kw "grid_size" (Int 400); Kw "grid_bounds" (Lst [Tup [Int 0; Int 1]]);
         Kw "n_components" (Int 2)];
  setattr self "covar_module" a;;
  t ← invoke "torch.Tensor" [Lst [Int 0]];
  p ← invoke "nn.Parameter" [Ob t];
  method "register_parameter" self [Str "log_outputscale"; Ob p];;
  mret ().

(** [GPRegressionModel.forward(self, x)]; the library calls it back from
    inside [model(x)]. *)
Definition forward_body (self x : Obj) : py Obj :=
  mm ← getattr self "mean_module";
  mean_x ← call_object mm [Ob x];
  cm ← getattr self "covar_module";
  covar_x ← call_object cm [Ob x];
  l ← getattr self "log_outputscale";
  s ← method "exp" l [];
  covar_x ← method "mul" covar_x [Ob s];
  invoke "GaussianRandomVariable" [Ob mean_x; Ob covar_x].

(** Cell 3.  Returns [(likelihood, model)]. *)
Definition cell3 (train_x train_y : Obj) : py (Obj * Obj) :=
  cls ← invoke "__build_class__"
          [Str "GPRegressionModel"; Tup [Str "gpytorch.models.ExactGP"];
           Lst [Str "__init__"; Str "forward"]];
  l ← invoke "GaussianLikelihood" [];
  likelihood ← method "cuda" l [];
  tx ← getattr train_x "data";
  ty ← getattr train_y "data";
  self ← method "__new__" cls [];
  init_body self tx ty likelihood;;
  model ← method "cuda" self [];
  mret (likelihood, model).

(** One pass of the training loop of cell 4. *)
Definition training_iteration (optimizer model mll train_x train_y : Obj) (i : nat)
  : py unit :=
  method "zero_grad" optimizer [];;
  output ← call_object model [Ob train_x];
  v ← call_object mll [Ob output; Ob train_y];
  loss ← method "__neg__" v [];
  method "backward" loss [];;
  d ← getattr loss "data";
  x ← getitem d (Int 0);
  text ← invoke "__mod__"
           [Str "Iter %d/%d - Loss: %.3f";
            Tup [Int (Z.of_nat (i + 1)); Int (Z.of_nat num_iter); Ob x]];
  invoke "print" [Ob text];;
  method "step" optimizer [];;
  mret ().

(** Cell 4. *)
Definition cell4 (likelihood model train_x train_y : Obj) : py unit :=
  method "train" model [];;
  method "train" likelihood [];;
  params ← method "parameters" model [];
  optimizer ← invoke "torch.optim.Adam" [Lst [Dict [("params", Ob params)]]; Kw "lr" (Flt 0.2)];
  mll ← invoke "gpytorch.mlls.ExactMarginalLogLikelihood" [Ob likelihood; Ob model];
  mgr ← invoke "gpytorch.settings.use_toeplitz" [Bool false];
  with_ mgr
    (loop_range num_iter (training_iteration optimizer model mll train_x train_y)).

(** [ax_plot(f, ax, y_labels, title)] of cell 5. *)
Definition ax_plot (f ax y_labels : Obj) (title : string) : py unit :=
  im ← method "imshow" ax [Ob y_labels];
  method "set_title" ax [Str title];;
  method "colorbar" f [Ob im];;
  mret ().

(** [f, ax = plt.subplots(1, 1, figsize=(4, 3)); ax_plot(f, ax, y_labels, title)] *)
Definition plot (y_labels : Obj) (title : string) : py unit :=
  fa ← invoke "plt.subplots" [Int 1; Int 1; Kw "figsize" (Tup [Int 4; Int 3])];
  f ← invoke "unpack" [Ob fa; Int 0; Int 2];
  ax ← invoke "unpack" [Ob fa; Int 1; Int 2];
  ax_plot f ax y_labels title.

(** Cell 5.  Returns [delta_y]. *)
Definition cell5 (likelihood model : Obj) : py Obj :=
  method "eval" model [];;
  method "eval" likelihood [];;
  let n := 10 in
  z ← invoke "torch.zeros" [Int (Z.of_nat (n ^ 2)); Int 2];
  v ← invoke "Variable" [Ob z];
  test_x ← method "cuda" v [];
  loop_range n (λ i, loop_range n (λ j,
    d ← getattr test_x "data";
    row ← getitem d (Int (Z.of_nat (i * n + j)));
    setitem row (Int 0) (Flt (INR i / IZR (Z.of_nat n - 1)));;
    d ← getattr test_x "data";
    row ← getitem d (Int (Z.of_nat (i * n + j)));
    setitem row (Int 1) (Flt (INR j / IZR (Z.of_nat n - 1)));;
    mret ()));;
  out ← call_object model [Ob test_x];
  observed_pred ← call_object likelihood [Ob out];
  m ← method "mean" observed_pred [];
  m ← method "view" m [Int (Z.of_nat n); Int (Z.of_nat n)];
  m ← getattr m "data";
  m ← method "cpu" m [];
  pred_labels ← method "numpy" m [];
  y ← target_expression test_x;
  y ← method "cpu" y [];
  y ← method "numpy" y [];
  test_y_actual ← method "reshape" y [Int (Z.of_nat n); Int (Z.of_nat n)];
  diff ← method "__sub__" pred_labels [Ob test_y_actual];
  delta_y ← invoke "numpy.absolute" [Ob diff];
  plot pred_labels "Predicted Values (Likelihood)";;
  plot test_y_actual "Actual Values (Likelihood)";;
  plot delta_y "Absolute Error Surface";;
  mret delta_y.

(** The code cells in order, after the imports. *)
Definition notebook : py Obj :=
  '(train_x, train_y) ← cell2;
  '(likelihood, model) ← cell3 train_x train_y;
  cell4 likelihood model train_x train_y;;
  cell5 likelihood model.

(* ------------------------------------------------------------------ *)
(** ** Properties of runs                                               *)
(* ------------------------------------------------------------------ *)

Definition is_returned {A : Type} (r : outcome A) : bool :=
  match r with Returned _ => true | Raised _ => false end.

(** No call of a log segment raised. *)
Definition all_returned (t : list (call * outcome Obj)) : bool :=
  forallb (λ en, is_returned en.2) t.

(** [returns m Q]: a run of [m] adds a segment to the log, and when no call
    of the segment raised, [m] returned a value [a] with [Q a] of the
    segment. *)
Definition returns {A : Type} (m : py A) (Q : A → list (call * outcome Obj) → Prop) : Prop :=
  ∀ w, ∃ t, log (m w).2 = log w ++ t
            ∧ (all_returned t = true → ∃ a, (m w).1 = Returned a ∧ Q a t).

(** The shape of the segment of code without any handler: if the code
    returned, every call returned; if it raised [e], the last call of the
    segment raised [e] and every call before it returned. *)
Definition unwound {A : Type} (r : outcome A) (t : list (call * outcome Obj)) : Prop :=
  match r with
  | Returned _ => all_returned t = true
  | Raised e => ∃ t0 c, t = t0 ++ [(c, Raised e)] ∧ all_returned t0 = true
  end.

Definition unwinds {A : Type} (m : py A) : Prop :=
  ∀ w, ∃ t, log (m w).2 = log w ++ t ∧ unwound (m w).1 t.

(** The same with [with] blocks around: after the first call that raised
    (say [e0]) comes nothing, or the one [__exit__] call of the enclosing
    block; the code raises [e0], or what that [__exit__] raised. *)
Definition propagated {A : Type} (r : outcome A) (t : list (call * outcome Obj)) : Prop :=
  match r with
  | Returned _ => all_returned t = true
  | Raised e =>
    ∃ t0 c e0 t1, t = t0 ++ (c, Raised e0) :: t1 ∧ all_returned t0 = true
      ∧ (t1 = [] ∧ e = e0
         ∨ ∃ c' x, callee c' = "__exit__" ∧ t1 = [(c', x)]
                   ∧ e = match x with Raised e' => e' | Returned _ => e0 end)
  end.

Definition unhandled {A : Type} (m : py A) : Prop :=
  ∀ w, ∃ t, log (m w).2 = log w ++ t ∧ propagated (m w).1 t.

(** The library's context managers do not swallow exceptions: what their
    [__exit__] returns is never a true value. *)
Definition no_suppress : Prop :=
  ∀ c s, callee c = "__exit__" →
         match (lib c s).1 with Returned r => truthy r = false | Raised _ => True end.

(** The log of one pass of the training loop in which every call returned. *)
Definition iteration_log (optimizer model mll train_x train_y : Obj) (i : nat)
    (t : list (call * outcome Obj)) : Prop :=
  ∃ r1 output v loss r2 d x text r3 r4,
    t = [ (Call "zero_grad" [Ob optimizer], Returned r1);
          (Call "__call__" [Ob model; Ob train_x], Returned output);
          (Call "__call__" [Ob mll; Ob output; Ob train_y], Returned v);
          (Call "__neg__" [Ob v], Returned loss);
          (Call "backward" [Ob loss], Returned r2);
          (Call "getattr" [Ob loss; Str "data"], Returned d);
          (Call "__getitem__" [Ob d; Int 0], Returned x);
          (Call "__mod__" [Str "Iter %d/%d - Loss: %.3f";
                           Tup [Int (Z.of_nat i + 1); Int 20; Ob x]], Returned text);
          (Call "print" [Ob text], Returned r3);
          (Call "step" [Ob optimizer], Returned r4) ].

(** The log of cell 4 when every call returned: the set-up, which builds the
    optimizer once, the passes of the loop inside the [with] block, and the
    block's [__exit__]. *)
Definition training_log (likelihood model train_x train_y : Obj)
    (t : list (call * outcome Obj)) : Prop :=
  ∃ r1 r2 params optimizer mll mgr r3 (passes : list (list (call * outcome Obj))) r4,
    t = [ (Call "train" [Ob model], Returned r1);
          (Call "train" [Ob likelihood], Returned r2);
          (Call "parameters" [Ob model], Returned params);
          (Call "torch.optim.Adam"
                [Lst [Dict [("params", Ob params)]]; Kw "lr" (Flt 0.2)], Returned optimizer);
          (Call "gpytorch.mlls.ExactMarginalLogLikelihood" [Ob likelihood; Ob model],
           Returned mll);
          (Call "gpytorch.settings.use_toeplitz" [Bool false], Returned mgr);
          (Call "__enter__" [Ob mgr], Returned r3) ]
        ++ concat passes
        ++ [ (Call "__exit__" [Ob mgr; PyNone], Returned r4) ]
    ∧ length passes = 20
    ∧ ∀ i pass, passes !! i = Some pass →
                iteration_log optimizer model mll train_x train_y i pass.

(* ------------------------------------------------------------------ *)
(** ** Runs that raise, and the logs of the other cells                 *)
(* ------------------------------------------------------------------ *)

(** [traces m QR QE]: a run of [m] adds a segment [t] to the log, with
    [QR a t] when the run returned [a] and [QE e t] when it raised [e]. *)
Definition traces {A : Type} (m : py A)
    (QR : A → list (call * outcome Obj) → Prop)
    (QE : Exn → list (call * outcome Obj) → Prop) : Prop :=
  ∀ w, ∃ t, log (m w).2 = log w ++ t
            ∧ match (m w).1 with Returned a => QR a t | Raised e => QE e t end.

(** The names of the calls of a segment; how many calls of a segment have
    the name [f], and how many of them returned. *)
Definition names (t : list (call * outcome Obj)) : list string :=
  map (λ en, callee en.1) t.

Definition count_calls (f : string) (t : list (call * outcome Obj)) : nat :=
  length (List.filter (λ en, String.eqb (callee en.1) f) t).

Definition completed (f : string) (t : list (call * outcome Obj)) : nat :=
  length (List.filter (λ en, String.eqb (callee en.1) f && is_returned en.2) t).

(** Every call of the segment has a name accepted by [P]. *)
Definition calls_only (P : string → bool) (t : list (call * outcome Obj)) : bool :=
  forallb P (names t).

Definition only_calls {A : Type} (P : string → bool) (m : py A) : Prop :=
  ∀ w, ∃ t, log (m w).2 = log w ++ t ∧ calls_only P t = true.

(** A segment that ends in the one call that raised, [e]. *)
Definition broken (e : Exn) (t : list (call * outcome Obj)) : Prop :=
  ∃ t0 c, t = t0 ++ [(c, Raised e)] ∧ all_returned t0 = true.

(** The names of the calls of one pass of the training loop. *)
Definition pass_names : list string :=
  ["zero_grad"; "__call__"; "__call__"; "__neg__"; "backward";
   "getattr"; "__getitem__"; "__mod__"; "print"; "step"].

(** A pass of the training loop that raised [e]: its calls are the first
    calls of a pass, in order, the last of them raised, and
    [optimizer.step()] did not complete. *)
Definition broken_pass (e : Exn) (t : list (call * outcome Obj)) : Prop :=
  broken e t ∧ names t `prefix_of` pass_names ∧ completed "step" t = 0.

(** The log of [ax_plot(f, ax, y_labels, title)], for each way it ends. *)
Definition ax_plot_log (f ax y_labels : Obj) (title : string) (r : outcome unit)
    (t : list (call * outcome Obj)) : Prop :=
  match r with
  | Returned _ =>
    ∃ im r1 r2,
      t = [ (Call "imshow" [Ob ax; Ob y_labels], Returned im);
            (Call "set_title" [Ob ax; Str title], Returned r1);
            (Call "colorbar" [Ob f; Ob im], Returned r2) ]
  | Raised e =>
    t = [ (Call "imshow" [Ob ax; Ob y_labels], Raised e) ]
    ∨ (∃ im, t = [ (Call "imshow" [Ob ax; Ob y_labels], Returned im);
                   (Call "set_title" [Ob ax; Str title], Raised e) ])
    ∨ (∃ im r1, t = [ (Call "imshow" [Ob ax; Ob y_labels], Returned im);
                      (Call "set_title" [Ob ax; Str title], Returned r1);
                      (Call "colorbar" [Ob f; Ob im], Raised e) ])
  end.

(** The log of one figure of cell 5 when every call returned. *)
Definition plot_log (y_labels : Obj) (title : string)
    (t : list (call * outcome Obj)) : Prop :=
  ∃ fa f ax im r1 r2,
    t = [ (Call "plt.subplots" [Int 1; Int 1; Kw "figsize" (Tup [Int 4; Int 3])],
           Returned fa);
          (Call "unpack" [Ob fa; Int 0; Int 2], Returned f);
          (Call "unpack" [Ob fa; Int 1; Int 2], Returned ax);
          (Call "imshow" [Ob ax; Ob y_labels], Returned im);
          (Call "set_title" [Ob ax; Str title], Returned r1);
          (Call "colorbar" [Ob f; Ob im], Returned r2) ].

(** The log of the target expression on [x] with value [y]. *)
Definition target_log (x y : Obj) (t : list (call * outcome Obj)) : Prop :=
  ∃ d c0 s d' c1 c sum,
    t = [ (Call "getattr" [Ob x; Str "data"], Returned d);
          (Call "__getitem__" [Ob d; Tup [Slice; Int 0]], Returned c0);
          (Call "torch.sin" [Ob c0], Returned s);
          (Call "getattr" [Ob x; Str "data"], Returned d');
          (Call "__getitem__" [Ob d'; Tup [Slice; Int 1]], Returned c1);
          (Call "torch.cos" [Ob c1], Returned c);
          (Call "__add__" [Ob s; Ob c], Returned sum);
          (Call "__mul__" [Ob sum; Flt (2 * PI)], Returned y) ].

(** The log of the pass for point [(i, j)] of the loops of cell 2: two item
    writes through a row view, with the coordinates of the point. *)
Definition train_point_log (train_x : Obj) (i j : nat)
    (t : list (call * outcome Obj)) : Prop :=
  ∃ row r1 row' r2,
    t = [ (Call "__getitem__" [Ob train_x; Int (Z.of_nat (i * 100 + j))], Returned row);
          (Call "__setitem__" [Ob row; Int 0; Flt (coord 100 i)], Returned r1);
          (Call "__getitem__" [Ob train_x; Int (Z.of_nat (i * 100 + j))], Returned row');
          (Call "__setitem__" [Ob row'; Int 1; Flt (coord 100 j)], Returned r2) ].

(** The log of cell 2 when every call returned.  [passes] are the passes of
    the outer loop; each is made of the 100 passes of the inner loop. *)
Definition cell2_log (train_x train_y : Obj) (t : list (call * outcome Obj)) : Prop :=
  ∃ x0 (passes : list (list (call * outcome Obj))) v y v' ty_log,
    t = [ (Call "torch.zeros" [Int 10000; Int 2], Returned x0) ]
        ++ concat passes
        ++ [ (Call "Variable" [Ob x0], Returned v);
             (Call "cuda" [Ob v], Returned train_x) ]
        ++ ty_log
        ++ [ (Call "Variable" [Ob y], Returned v');
             (Call "cuda" [Ob v'], Returned train_y) ]
    ∧ length passes = 100
    ∧ (∀ i pass, passes !! i = Some pass →
         ∃ points : list (list (call * outcome Obj)),
           pass = concat points ∧ length points = 100
           ∧ ∀ j p, points !! j = Some p → train_point_log x0 i j p)
    ∧ target_log train_x y ty_log.

(** The log of [__init__] when every call returned. *)
Definition init_log (self train_x train_y likelihood : Obj)
    (t : list (call * outcome Obj)) : Prop :=
  ∃ r0 m r1 k r2 base a r3 tensor p r4,
    t = [ (Call "ExactGP.__init__" [Ob self; Ob train_x; Ob train_y; Ob likelihood],
           Returned r0);
          (Call "ConstantMean" [], Returned m);
          (Call "setattr" [Ob self; Str "mean_module"; Ob m], Returned r1);
          (Call "RBFKernel" [], Returned k);
          (Call "setattr" [Ob self; Str "base_covar_module"; Ob k], Returned r2);
          (Call "getattr" [Ob self; Str "base_covar_module"], Returned base);
          (Call "AdditiveGridInterpolationKernel"
                [Ob base; Kw "grid_size" (Int 400);
                 Kw "grid_bounds" (Lst [Tup [Int 0; Int 1]]); Kw "n_components" (Int 2)],
           Returned a);
          (Call "setattr" [Ob self; Str "covar_module"; Ob a], Returned r3);
          (Call "torch.Tensor" [Lst [Int 0]], Returned tensor);
          (Call "nn.Parameter" [Ob tensor], Returned p);
          (Call "register_parameter" [Ob self; Str "log_outputscale"; Ob p],
           Returned r4) ].

(** The log of [forward] when every call returned, with its value [d]. *)
Definition forward_log (self x d : Obj) (t : list (call * outcome Obj)) : Prop :=
  ∃ mm mean_x cm covar_x l s covar_x',
    t = [ (Call "getattr" [Ob self; Str "mean_module"], Returned mm);
          (Call "__call__" [Ob mm; Ob x], Returned mean_x);
          (Call "getattr" [Ob self; Str "covar_module"], Returned cm);
          (Call "__call__" [Ob cm; Ob x], Returned covar_x);
          (Call "getattr" [Ob self; Str "log_outputscale"], Returned l);
          (Call "exp" [Ob l], Returned s);
          (Call "mul" [Ob covar_x; Ob s], Returned covar_x');
          (Call "GaussianRandomVariable" [Ob mean_x; Ob covar_x'], Returned d) ].

(** The names of the calls of [forward]. *)
Definition forward_names : list string :=
  ["getattr"; "__call__"; "getattr"; "__call__"; "getattr"; "exp"; "mul";
   "GaussianRandomVariable"].

(** The log of cell 3 when every call returned. *)
Definition cell3_log (train_x train_y likelihood model : Obj)
    (t : list (call * outcome Obj)) : Prop :=
  ∃ cls l tx ty self t_init,
    t = [ (Call "__build_class__"
                [Str "GPRegressionModel"; Tup [Str "gpytorch.models.ExactGP"];
                 Lst [Str "__init__"; Str "forward"]], Returned cls);
          (Call "GaussianLikelihood" [], Returned l);
          (Call "cuda" [Ob l], Returned likelihood);
          (Call "getattr" [Ob train_x; Str "data"], Returned tx);
          (Call "getattr" [Ob train_y; Str "data"], Returned ty);
          (Call "__new__" [Ob cls], Returned self) ]
        ++ t_init
        ++ [ (Call "cuda" [Ob self], Returned model) ]
    ∧ init_log self tx ty likelihood t_init.

(** The log of the pass for point [(i, j)] of the loops of cell 5. *)
Definition test_point_log (test_x : Obj) (i j : nat)
    (t : list (call * outcome Obj)) : Prop :=
  ∃ d row r1 d' row' r2,
    t = [ (Call "getattr" [Ob test_x; Str "data"], Returned d);
          (Call "__getitem__" [Ob d; Int (Z.of_nat (i * 10 + j))], Returned row);
          (Call "__setitem__" [Ob row; Int 0; Flt (coord 10 i)], Returned r1);
          (Call "getattr" [Ob test_x; Str "data"], Returned d');
          (Call "__getitem__" [Ob d'; Int (Z.of_nat (i * 10 + j))], Returned row');
          (Call "__setitem__" [Ob row'; Int 1; Flt (coord 10 j)], Returned r2) ].

(** The log of cell 5 when every call returned, with its value [delta_y]. *)
Definition evaluation_log (likelihood model delta_y : Obj)
    (t : list (call * outcome Obj)) : Prop :=
  ∃ r1 r2 z v test_x (passes : list (list (call * outcome Obj)))
    out observed_pred m1 m2 m3 m4 pred_labels y ty_log y1 y2 test_y_actual diff
    plot1 plot2 plot3,
    t = [ (Call "eval" [Ob model], Returned r1);
          (Call "eval" [Ob likelihood], Returned r2);
          (Call "torch.zeros" [Int 100; Int 2], Returned z);
          (Call "Variable" [Ob z], Returned v);
          (Call "cuda" [Ob v], Returned test_x) ]
        ++ concat passes
        ++ [ (Call "__call__" [Ob model; Ob test_x], Returned out);
             (Call "__call__" [Ob likelihood; Ob out], Returned observed_pred);
             (Call "mean" [Ob observed_pred], Returned m1);
             (Call "view" [Ob m1; Int 10; Int 10], Returned m2);
             (Call "getattr" [Ob m2; Str "data"], Returned m3);
             (Call "cpu" [Ob m3], Returned m4);
             (Call "numpy" [Ob m4], Returned pred_labels) ]
        ++ ty_log
        ++ [ (Call "cpu" [Ob y], Returned y1);
             (Call "numpy" [Ob y1], Returned y2);
             (Call "reshape" [Ob y2; Int 10; Int 10], Returned test_y_actual);
             (Call "__sub__" [Ob pred_labels; Ob test_y_actual], Returned diff);
             (Call "numpy.absolute" [Ob diff], Returned delta_y) ]
        ++ plot1 ++ plot2 ++ plot3
    ∧ length passes = 10
    ∧ (∀ i pass, passes !! i = Some pass →
         ∃ points : list (list (call * outcome Obj)),
           pass = concat points ∧ length points = 10
           ∧ ∀ j p, points !! j = Some p → test_point_log test_x i j p)
    ∧ target_log test_x y ty_log
    ∧ plot_log pred_labels "Predicted Values (Likelihood)" plot1
    ∧ plot_log test_y_actual "Actual Values (Likelihood)" plot2
    ∧ plot_log delta_y "Absolute Error Surface" plot3.

(** The names of the calls of [__init__]. *)
Definition init_names : list string :=
  ["ExactGP.__init__"; "ConstantMean"; "setattr"; "RBFKernel"; "setattr"; "getattr";
   "AdditiveGridInterpolationKernel"; "setattr"; "torch.Tensor"; "nn.Parameter";
   "register_parameter"].

(** The calls that train: they change gradients, parameters or the mode. *)
Definition is_training_call (f : string) : bool :=
  existsb (String.eqb f)
    ["zero_grad"; "backward"; "step"; "train"; "register_parameter"; "setattr"].

Definition not_a_training_call (f : string) : bool := negb (is_training_call f).

(** Neither [__enter__] nor [__exit__]; not [eval]. *)
Definition not_a_block_call (f : string) : bool :=
  negb (existsb (String.eqb f) ["__enter__"; "__exit__"]).

Definition not_eval (f : string) : bool := negb (String.eqb f "eval").

(** A segment of cell 4 that entered the [with] block: it ends in the one
    [__exit__] call of the manager it entered. *)
Definition entered_and_left (t : list (call * outcome Obj)) : Prop :=
  ∃ t0 mgr r tb a x,
    t = t0 ++ (Call "__enter__" [Ob mgr], Returned r) :: tb
           ++ [(Call "__exit__" [Ob mgr; a], x)]
    ∧ calls_only not_a_block_call t0 = true
    ∧ calls_only not_a_block_call tb = true.

(** A segment of cell 4 that did not enter the block: no [__exit__], and at
    most a last [__enter__] that raised. *)
Definition never_entered (t : list (call * outcome Obj)) : Prop :=
  calls_only not_a_block_call t = true
  ∨ ∃ t0 mgr e, t = t0 ++ [(Call "__enter__" [Ob mgr], Raised e)]
                ∧ calls_only not_a_block_call t0 = true.

(* ------------------------------------------------------------------ *)
(** ** What the training cell shows                                     *)
(* ------------------------------------------------------------------ *)




End Script.

Unset Implicit Arguments.
Unset Contextual Implicit.

(* ------------------------------------------------------------------ *)
(** ** Concrete libraries, to run the cells on                          *)
(* ------------------------------------------------------------------ *)

(** Every call returns a fresh object (numbered by the state). *)
Definition fresh_lib (c : call nat string) (s : nat) : outcome string nat * nat :=
  (Returned s, S s).

(** The same on a machine without CUDA: every [.cuda()] raises. *)
Definition no_cuda_lib (c : call nat string) (s : nat) : outcome string nat * nat :=
  if String.eqb (callee c) "cuda" then (Raised "CUDA unavailable", s)
  else (Returned s, S s).

(** A library in which [loss.backward()] raises. *)
Definition failing_backward_lib (c : call nat string) (s : nat) : outcome string nat * nat :=
  if String.eqb (callee c) "backward" then (Raised "out of memory", s)
  else (Returned s, S s).

(** Two truth values of objects: no object is true, every object is true. *)
Definition never_true (o : nat) : bool := false.
Definition always_true (o : nat) : bool := true.

(** A model whose predictive mean is zero everywhere, and a likelihood that
    leaves a distribution as it is. *)
Definition zero_model (_ : GPRegressionModel) (x : list (list R)) : GaussianRandomVariable :=
  {| mean := map (λ _, 0%R) x; covar := [] |}.

Definition same_distribution (_ : likelihood_t) (p : GaussianRandomVariable)
  : GaussianRandomVariable := p.

(** The model of cell 3 once training has moved [log_outputscale] to [l]; a
    mean module that is 0 everywhere and a kernel whose value is the 1 by 1
    matrix [[1.0]]. *)
Definition trained_model (l : R) : GPRegressionModel :=
  {| base_class := base_class (__init__ [] [] GaussianLikelihood);
     mean_module := ConstantMean;
     base_covar_module := RBFKernel;
     covar_module := AdditiveGridInterpolationKernel RBFKernel 400 [(0, 1)%Z] 2;
     log_outputscale := l |}.



Definition zero_mean (_ : mean_module_t) (x : list (list R)) : list R :=
  map (λ _, 0%R) x.

Definition unit_kernel (_ : kernel) (x : list (list R)) : list (list float32) :=
  [[Number 1]].

(** A model whose predictive mean has no entry at all. *)
Definition empty_model (_ : GPRegressionModel) (x : list (list R)) : GaussianRandomVariable :=
  {| mean := []; covar := [] |}.

(* ================================================================== *)
(** * Theorems: numeric layer                                           *)
(* ================================================================== *)

(** ** The grids of cells 2 and 5 *)

(** The loop rule: an invariant [P i s] that holds before the first pass and
    that every pass carries from [i] to [i + 1] holds after the last pass,
    and the loop raises nothing. *)
Lemma for_from_invariant {St : Type} (P : nat → St → Prop) (body : nat → St → option St)
    (count : nat) :
  ∀ (start : nat) (s : St),
    P start s →
    (∀ i s, start ≤ i < start + count → P i s →
            ∃ s', body i s = Some s' ∧ P (S i) s') →
    ∃ s', for_from start count body s = Some s' ∧ P (start + count) s'.
Proof.
  induction count as [|count IH]; intros start s Hs Hbody; simpl.
  - exists s. by rewrite Nat.add_0_r.
  - destruct (Hbody start s) as (s1 & -> & Hs1); [lia|done|]. simpl.
    destruct (IH (S start) s1) as (s2 & -> & Hs2); [done| |].
    + intros i s' Hi. apply Hbody. lia.
    + exists s2. split; [done|].
      by replace (start + S count) with (S start + count) by lia.
Qed.

Lemma for_range_invariant {St : Type} (P : nat → St → Prop) (body : nat → St → option St)
    (n : nat) (s : St) :
  P 0 s →
  (∀ i s, i < n → P i s → ∃ s', body i s = Some s' ∧ P (S i) s') →
  ∃ s', for_range n body s = Some s' ∧ P n s'.
Proof.
  intros H0 Hbody.
  destruct (for_from_invariant P body n 0 s H0) as (s' & ? & ?); [|by exists s'].
  intros i s1 Hi. apply Hbody. lia.
Qed.

Lemma setitem2_Some (t : list (list R)) (r c : nat) (v : R) (row : list R) :
  t !! r = Some row → c < length row →
  setitem2 t r c v = Some (<[r := <[c := v]> row]> t).
Proof. intros Hr Hc. unfold setitem2. rewrite Hr. simpl. by rewrite decide_True. Qed.

Lemma float_div_Some (a : nat) (d : Z) : d ≠ 0%Z → float_div a d = Some (INR a / IZR d)%R.
Proof. intros Hd. unfold float_div. by rewrite decide_False. Qed.

(** [torch.zeros(pow(n, 2), 2)] is the tensor before the first pass. *)
Lemma filled_zeros (n : nat) : filled n 0 (zeros (n ^ 2) 2).
Proof.
  unfold zeros. replace (n ^ 2) with (n * n) by (simpl; lia). split.
  - by rewrite length_replicate.
  - intros k Hk. rewrite decide_False by lia. by apply lookup_replicate_2.
Qed.

(** Row [i * n + j] is point [(i, j)] of the lattice. *)
Lemma grid_index (n i j : nat) : j < n → (i * n + j) / n = i ∧ (i * n + j) mod n = j.
Proof.
  intros Hj. split.
  - rewrite Nat.div_add_l by lia. rewrite Nat.div_small by lia. lia.
  - rewrite Nat.add_comm, Nat.Div0.mod_add. by apply Nat.mod_small.
Qed.

(** One pass of the inner loop fills row [i * n + j]; [n = 1] is excluded,
    where [float(i) / (n-1)] raises ZeroDivisionError. *)
Lemma fill_point (n i j : nat) (t : list (list R)) :
  n ≠ 1 → i < n → j < n → filled n (i * n + j) t →
  ∃ t', (x0 ← float_div i (Z.of_nat n - 1);
         t ← setitem2 t (i * n + j) 0 x0;
         x1 ← float_div j (Z.of_nat n - 1);
         setitem2 t (i * n + j) 1 x1) = Some t'
        ∧ filled n (i * n + j + 1) t'.
Proof.
  intros Hn Hi Hj [Hlen Ht].
  assert (Hm : i * n + j < n * n) by nia.
  assert (Hd : (Z.of_nat n - 1 ≠ 0)%Z) by lia.
  rewrite !float_div_Some by done. simpl.
  pose proof (Ht _ Hm) as Hrow. rewrite decide_False in Hrow by lia.
  rewrite (setitem2_Some _ _ _ _ _ Hrow) by (simpl; lia). simpl.
  erewrite setitem2_Some; [|by apply list_lookup_insert_eq; lia|simpl; lia].
  eexists; split; [done|]. split.
  - by rewrite !length_insert.
  - intros k Hk. rewrite list_insert_insert_eq.
    destruct (decide (k = i * n + j)) as [->|Hne].
    + rewrite list_lookup_insert_eq by lia. rewrite decide_True by lia.
      unfold grid_point, coord. destruct (grid_index n i j Hj) as [-> ->]. done.
    + rewrite list_lookup_insert_ne by done. rewrite Ht by done.
      destruct (decide (k < i * n + j));
        [rewrite decide_True by lia|rewrite decide_False by lia]; done.
Qed.

Lemma fill_grid_filled (n : nat) (t : list (list R)) :
  n ≠ 1 → filled n 0 t → ∃ t', fill_grid n t = Some t' ∧ filled n (n * n) t'.
Proof.
  intros Hn H0. unfold fill_grid.
  apply (for_range_invariant (λ i t, filled n (i * n) t)); [done|].
  intros i t1 Hi Hrow.
  destruct (for_range_invariant (λ j t, filled n (i * n + j) t)
    (λ j t, x0 ← float_div i (Z.of_nat n - 1);
            t ← setitem2 t (i * n + j) 0 x0;
            x1 ← float_div j (Z.of_nat n - 1);
            setitem2 t (i * n + j) 1 x1) n t1) as (t2 & Ht2 & Hf2).
  - by rewrite Nat.add_0_r.
  - intros j t' Hj Hf. destruct (fill_point n i j t' Hn Hi Hj Hf) as (t'' & ? & ?).
    exists t''. split; [done|].
    by replace (i * n + S j) with (i * n + j + 1) by lia.
  - exists t2. split; [done|]. by replace (S i * n) with (i * n + n) by lia.
Qed.

Lemma filled_grid (n : nat) (t : list (list R)) : filled n (n * n) t → t = grid n.
Proof.
  intros [Hlen Ht]. apply list_eq. intros k. unfold grid.
  destruct (decide (k < n * n)) as [Hk|Hk].
  - rewrite Ht by done. rewrite decide_True by done.
    rewrite list_lookup_fmap, lookup_seq_lt by done. done.
  - rewrite !lookup_ge_None_2; [done| |lia].
    rewrite length_map, length_seq. lia.
Qed.

(** The loops terminate without an exception and leave the grid. *)
Lemma fill_grid_spec (n : nat) : n ≠ 1 → fill_grid n (zeros (n ^ 2) 2) = Some (grid n).
Proof.
  intros Hn. destruct (fill_grid_filled n _ Hn (filled_zeros n)) as (t & Ht & Hf).
  by rewrite Ht, (filled_grid n t Hf).
Qed.

Lemma train_x_grid : train_x = Some (grid 100).
Proof. by apply fill_grid_spec. Qed.

Lemma test_x_grid : test_x = Some (grid 10).
Proof. by apply fill_grid_spec. Qed.

(** On two points per side the loops give the corners of the unit square;
    on one point per side the division raises. *)
Example fill_grid_2 :
  fill_grid 2 (zeros (2 ^ 2) 2) = Some [[0; 0]; [0; 1]; [1; 0]; [1; 1]]%R.
Proof.
  rewrite fill_grid_spec by lia. unfold grid, grid_point, coord. simpl.
  change (Z.of_nat 2 - 1)%Z with 1%Z. repeat f_equal; lra.
Qed.

Example fill_grid_1_raises : fill_grid 1 (zeros (1 ^ 2) 2) = None.
Proof. reflexivity. Qed.

(** ** The targets *)

Lemma column_rows {A : Type} (f g : A → R) (l : list A) :
  column 0 (map (λ a, [f a; g a]) l) = Some (map f l)
  ∧ column 1 (map (λ a, [f a; g a]) l) = Some (map g l).
Proof.
  unfold column. induction l as [|a l [IH0 IH1]]; [done|].
  simpl. rewrite IH0, IH1. done.
Qed.

Lemma broadcast_same_length (f : R → R → R) (a b : list R) :
  length a = length b → broadcast f a b = Some (zip_with f a b).
Proof. intros H. unfold broadcast. by rewrite decide_True. Qed.

Lemma target_rows {A : Type} (f g : A → R) (l : list A) :
  target (map (λ a, [f a; g a]) l) = Some (map (λ a, formula (f a) (g a)) l).
Proof.
  unfold target. destruct (column_rows f g l) as [-> ->]. simpl.
  unfold tensor_add, tensor_sin, tensor_cos.
  rewrite broadcast_same_length by (by rewrite !length_map). simpl.
  f_equal. unfold tensor_scale.
  induction l as [|a l IH]; [done|]. simpl. by rewrite IH.
Qed.

Lemma target_grid (n : nat) :
  target (grid n)
  = Some (map (λ k, formula (coord n (k / n)) (coord n (k mod n))) (seq 0 (n * n))).
Proof. unfold grid, grid_point. apply target_rows. Qed.

Lemma train_y_grid :
  train_y = Some (map (λ k, formula (coord 100 (k / 100)) (coord 100 (k mod 100)))
                      (seq 0 (100 * 100))).
Proof. unfold train_y. rewrite train_x_grid. simpl mbind. apply (target_grid 100). Qed.

(** ** Coordinates and bounds *)

Lemma coord_range (n i : nat) : n ≠ 1 → i < n → (0 <= coord n i <= 1)%R.
Proof.
  intros Hn Hi. unfold coord. rewrite INR_IZR_INZ.
  assert (Hd : (0 < IZR (Z.of_nat n - 1))%R) by (apply IZR_lt; lia).
  assert (H0 : (0 <= IZR (Z.of_nat i))%R) by (apply IZR_le; lia).
  assert (H1 : (IZR (Z.of_nat i) <= IZR (Z.of_nat n - 1))%R) by (apply IZR_le; lia).
  split.
  - apply Rmult_le_pos; [done|]. left. by apply Rinv_0_lt_compat.
  - apply (Rmult_le_reg_r (IZR (Z.of_nat n - 1))); [done|].
    unfold Rdiv. rewrite Rmult_assoc, Rinv_l by lra. lra.
Qed.

Lemma coord_first (n : nat) : coord n 0 = 0%R.
Proof. unfold coord. simpl. unfold Rdiv. apply Rmult_0_l. Qed.

Lemma coord_last (n : nat) : 1 < n → coord n (n - 1) = 1%R.
Proof.
  intros Hn. unfold coord. rewrite INR_IZR_INZ.
  replace (Z.of_nat (n - 1)) with (Z.of_nat n - 1)%Z by lia.
  apply Rdiv_diag. apply not_0_IZR. lia.
Qed.

(** Equal quotients give equal coordinates: point [i] of the lattice with
    [n] points per side is point [c * i] of the lattice with
    [c * (n - 1) + 1] points per side. *)
Lemma coord_refine (n c i : nat) :
  1 < n → 0 < c → coord n i = coord (c * (n - 1) + 1) (c * i).
Proof.
  intros Hn Hc. unfold coord. rewrite !INR_IZR_INZ.
  replace (Z.of_nat (c * (n - 1) + 1) - 1)%Z with (Z.of_nat c * (Z.of_nat n - 1))%Z by lia.
  rewrite Nat2Z.inj_mul, !mult_IZR.
  assert (IZR (Z.of_nat c) ≠ 0%R) by (apply not_0_IZR; lia).
  assert (IZR (Z.of_nat n - 1) ≠ 0%R) by (apply not_0_IZR; lia).
  by field.
Qed.

(** The two quotients are one real number, so they stay equal under whatever
    rounding [fl] to a float format is applied to them. *)
Lemma coord_refine_rounded (fl : R → R) (n c i : nat) :
  1 < n → 0 < c → fl (coord n i) = fl (coord (c * (n - 1) + 1) (c * i)).
Proof. intros Hn Hc. f_equal. by apply coord_refine. Qed.

Lemma grid_lookup (n k : nat) : k < n * n → grid n !! k = Some (grid_point n k).
Proof. intros Hk. unfold grid. by rewrite list_lookup_fmap, lookup_seq_lt. Qed.

Lemma grid_lookup_ij (n i j : nat) :
  i < n → j < n → grid n !! (i * n + j) = Some [coord n i; coord n j].
Proof.
  intros Hi Hj. rewrite grid_lookup by nia.
  unfold grid_point. by destruct (grid_index n i j Hj) as [-> ->].
Qed.

Lemma grid_length (n : nat) : length (grid n) = n * n.
Proof. unfold grid. by rewrite length_map, length_seq. Qed.

Lemma grid_index_range (n k : nat) : k < n * n → k / n < n ∧ k mod n < n.
Proof.
  intros Hk. assert (0 < n) by nia. split.
  - apply Nat.Div0.div_lt_upper_bound. lia.
  - apply Nat.mod_upper_bound. lia.
Qed.

Lemma grid_rows_unit (n : nat) :
  n ≠ 1 → Forall (Forall (λ v, (0 <= v <= 1)%R)) (grid n).
Proof.
  intros Hn. unfold grid. rewrite Forall_fmap. apply Forall_seq. intros k Hk. simpl.
  destruct (grid_index_range n k) as [? ?]; [lia|].
  unfold grid_point. repeat apply Forall_cons_2; [by apply coord_range..|constructor].
Qed.

Lemma float32_max_ge_16 : (16 <= float32_max)%R.
Proof.
  unfold float32_max.
  assert (H23 : (1 <= 2 ^ 23)%R) by (apply pow_R1_Rle; lra).
  assert (Hi : (/ 2 ^ 23 <= 1)%R).
  { rewrite <- Rinv_1. apply Rinv_le_contravar; lra. }
  assert (H123 : (1 <= 2 ^ 123)%R) by (apply pow_R1_Rle; lra).
  replace 127 with (4 + 123) by done. rewrite pow_add.
  replace (2 ^ 4)%R with 16%R by (simpl; lra).
  nra.
Qed.

Lemma unit_is_finite (v : R) : (0 <= v <= 1)%R → is_finite v.
Proof.
  intros Hv. unfold is_finite. rewrite Rabs_pos_eq by lra.
  pose proof float32_max_ge_16. lra.
Qed.

Lemma formula_bound (x0 x1 : R) : (Rabs (formula x0 x1) <= 4 * PI)%R.
Proof.
  unfold formula. pose proof (SIN_bound x0). pose proof (COS_bound x1).
  pose proof PI_RGT_0. apply Rabs_le. split; nra.
Qed.

(** The expression of the cells is not the one of the comment in cell 2:
    at [(pi/2, 0)] the first is [4 * pi], the second [1 + 2 * pi]. *)
Remark formula_is_not_the_comment :
  formula (PI / 2) 0 ≠ (sin (PI / 2) + 2 * PI * cos 0)%R.
Proof.
  unfold formula. rewrite sin_PI2, cos_0. pose proof PI2_3_2. lra.
Qed.

Lemma formula_is_finite (x0 x1 : R) : is_finite (formula x0 x1).
Proof.
  unfold is_finite. pose proof (formula_bound x0 x1).
  pose proof PI_4. pose proof float32_max_ge_16. lra.
Qed.

(** ** Reshaping and elementwise operations *)

Lemma chunks_shape (rows cols : nat) : ∀ a : list R,
  length a = rows * cols → shape rows cols (chunks rows cols a).
Proof.
  induction rows as [|rows IH]; intros a Ha; simpl.
  - split; [done|constructor].
  - destruct (IH (drop cols a)) as [Hl Hr]; [rewrite length_drop; lia|].
    split; [simpl; lia|]. constructor; [|done]. rewrite length_take. lia.
Qed.

Lemma chunks_entry (rows cols : nat) : ∀ (a : list R) (i j : nat),
  i < rows → j < cols → entry2 (chunks rows cols a) i j = a !! (i * cols + j).
Proof.
  unfold entry2. induction rows as [|rows IH]; intros a i j Hi Hj; [lia|].
  destruct i as [|i]; simpl.
  - by rewrite lookup_take_lt.
  - rewrite IH by lia. rewrite lookup_drop. f_equal. lia.
Qed.

Lemma chunks_concat (rows cols : nat) : ∀ a : list R,
  length a = rows * cols → concat (chunks rows cols a) = a.
Proof.
  induction rows as [|rows IH]; intros a Ha; simpl.
  - destruct a; [done|simpl in Ha; lia].
  - rewrite IH by (rewrite length_drop; lia). apply take_drop.
Qed.

Lemma view_Some (rows cols : nat) (a : list R) :
  length a = rows * cols → view rows cols a = Some (chunks rows cols a).
Proof. intros Ha. unfold view. by rewrite decide_True. Qed.

Example view_2_2 : view 2 2 [1; 2; 3; 4]%R = Some [[1; 2]; [3; 4]]%R.
Proof. reflexivity. Qed.

Example view_size_mismatch : view 10 10 [1; 2; 3]%R = None.
Proof. reflexivity. Qed.

Lemma numpy_sub_same_shape (rows cols : nat) (a b : list (list R)) :
  shape rows cols a → shape rows cols b →
  numpy_sub a b = Some (zip_with (zip_with Rminus) a b).
Proof.
  intros [Ha Hra] [Hb Hrb]. unfold numpy_sub, broadcast_opt.
  rewrite decide_True by lia. apply mapM_Some.
  clear Ha Hb. revert b Hrb. induction Hra as [|r a Hr Hra IH]; intros b Hrb.
  - constructor.
  - destruct Hrb as [|r' b Hr' Hrb]; [constructor|]. simpl.
    constructor; [|by apply IH]. simpl. apply broadcast_same_length. lia.
Qed.

Lemma entry2_zip_with (f : R → R → R) (a b : list (list R)) (i j : nat) (x y : R) :
  entry2 a i j = Some x → entry2 b i j = Some y →
  entry2 (zip_with (zip_with f) a b) i j = Some (f x y).
Proof.
  unfold entry2. intros Hx Hy.
  destruct (a !! i) as [ra|] eqn:Ea; [|done].
  destruct (b !! i) as [rb|] eqn:Eb; [|done]. simpl in *.
  rewrite lookup_zip_with, Ea, Eb. simpl.
  rewrite lookup_zip_with, Hx, Hy. done.
Qed.

Lemma entry2_absolute (a : list (list R)) (i j : nat) :
  entry2 (numpy_absolute a) i j = Rabs <$> entry2 a i j.
Proof.
  unfold entry2, numpy_absolute. rewrite list_lookup_fmap.
  destruct (a !! i) as [r|]; [|done]. simpl. by rewrite list_lookup_fmap.
Qed.

Lemma entry2_mul (a : list (list float32)) (s : float32) (i j : nat) :
  entry2 (mul a s) i j = (λ c, float32_mul c s) <$> entry2 a i j.
Proof.
  unfold entry2, mul. rewrite list_lookup_fmap.
  destruct (a !! i) as [r|]; [|done]. simpl. by rewrite list_lookup_fmap.
Qed.

Lemma test_target :
  test_x ≫= target
  = Some (map (λ k, formula (coord 10 (k / 10)) (coord 10 (k mod 10))) (seq 0 (10 * 10))).
Proof. rewrite test_x_grid. apply (target_grid 10). Qed.

Lemma test_y_actual_chunks :
  test_y_actual
  = Some (chunks 10 10
      (map (λ k, formula (coord 10 (k / 10)) (coord 10 (k mod 10))) (seq 0 (10 * 10)))).
Proof.
  unfold test_y_actual. cbv zeta. rewrite test_x_grid. cbn [mbind option_bind].
  rewrite (target_grid 10). cbn [mbind option_bind].
  apply view_Some. by rewrite length_map, length_seq.
Qed.

(** ** The data of the notebook *)

(** C8.  The targets are [(sin(x0) + cos(x1)) * (2 * pi)] of their input
    row [[x0; x1]], for the training targets [train_y] against [train_x] and
    for the true test values [test_y_actual] (read row by row) against
    [test_x] alike. *)
Theorem target_formula :
  ∃ (tx : list (list R)) (ty : list R) (te ya : list (list R)),
    train_x = Some tx ∧ train_y = Some ty ∧ test_x = Some te ∧ test_y_actual = Some ya
    ∧ Forall2 (λ (row : list R) (y : R),
        ∃ x0 x1, row = [x0; x1] ∧ y = ((sin x0 + cos x1) * (2 * PI))%R) tx ty
    ∧ Forall2 (λ (row : list R) (y : R),
        ∃ x0 x1, row = [x0; x1] ∧ y = ((sin x0 + cos x1) * (2 * PI))%R) te (concat ya).
Proof.
  eexists _, _, _, _.
  split; [apply train_x_grid|]. split; [apply train_y_grid|].
  split; [apply test_x_grid|]. split; [apply test_y_actual_chunks|].
  assert (Hrows : ∀ n, Forall2 (λ (row : list R) (y : R),
        ∃ x0 x1, row = [x0; x1] ∧ y = ((sin x0 + cos x1) * (2 * PI))%R) (grid n)
        (map (λ k, formula (coord n (k / n)) (coord n (k mod n))) (seq 0 (n * n)))).
  { intros n. unfold grid. apply Forall2_fmap, Forall_Forall2_diag, Forall_forall.
    intros k _. simpl. by eexists _, _. }
  split; [apply (Hrows 100)|].
  rewrite chunks_concat by (by rewrite length_map, length_seq). apply (Hrows 10).
Qed.

(** C5.  The training inputs are [100^2 = 10000] rows of two coordinates,
    the targets have one entry per input row, and every entry of both is
    finite (within the range of binary32). *)
Theorem training_data_invariants :
  ∃ (tx : list (list R)) (ty : list R),
    train_x = Some tx ∧ train_y = Some ty
    ∧ length tx = 100 ^ 2 ∧ Z.of_nat (length tx) = 10000%Z
    ∧ Forall (λ row, length row = 2) tx
    ∧ length ty = length tx
    ∧ Forall (Forall is_finite) tx
    ∧ Forall is_finite ty.
Proof.
  eexists _, _. split; [apply train_x_grid|]. split; [apply train_y_grid|].
  rewrite grid_length, length_map, length_seq.
  split; [done|]. split; [done|]. split; [|split; [done|split]].
  - unfold grid. rewrite Forall_fmap. apply Forall_forall. by intros k _.
  - eapply Forall_impl; [by apply (grid_rows_unit 100)|].
    intros row Hrow. eapply Forall_impl; [exact Hrow|]. apply unit_is_finite.
  - rewrite Forall_fmap. apply Forall_forall. intros k _. apply formula_is_finite.
Qed.

(** C4, as stated, fails: the test grid is not held out from the training
    grid.  Row 0 of both tensors is the point [(0, 0)]. *)
Lemma test_grid_not_held_out :
  ∃ (tx te : list (list R)),
    train_x = Some tx ∧ test_x = Some te
    ∧ te !! 0 = Some [0; 0]%R ∧ tx !! 0 = Some [0; 0]%R
    ∧ ¬ held_out te tx.
Proof.
  assert (Horigin : ∀ n, 0 < n → grid n !! 0 = Some [0; 0]%R).
  { intros n Hn. pose proof (grid_lookup_ij n 0 0 Hn Hn) as H0.
    by rewrite coord_first in H0. }
  eexists _, _. split; [apply train_x_grid|]. split; [apply test_x_grid|].
  split; [apply Horigin; lia|]. split; [apply Horigin; lia|].
  intros H. apply (H [0; 0]%R); apply list_elem_of_lookup; exists 0; apply Horigin; lia.
Qed.

(** C4, amended.  Every point of the 10x10 test grid is a point of the
    100x100 training grid: test row [i * 10 + j], the point [(i/9, j/9)], is
    training row [11 * i * 100 + 11 * j], the point [(11*i/99, 11*j/99)]. *)
Theorem test_grid_inside_training_grid :
  ∃ (tx te : list (list R)),
    train_x = Some tx ∧ test_x = Some te
    ∧ ∀ i j, i < 10 → j < 10 →
        ∃ p, te !! (i * 10 + j) = Some p ∧ tx !! (11 * i * 100 + 11 * j) = Some p.
Proof.
  eexists _, _. split; [apply train_x_grid|]. split; [apply test_x_grid|].
  intros i j Hi Hj. exists [coord 10 i; coord 10 j]. split.
  - by apply grid_lookup_ij.
  - rewrite grid_lookup_ij by lia.
    by rewrite (coord_refine 10 11 i), (coord_refine 10 11 j) by lia.
Qed.

(** C9.  Every coordinate of every training and test input lies in
    [[0, 1]], both tensors contain the corners [(0, 0)] and [(1, 1)], and so
    every coordinate lies within the grid bounds [[(0, 1)]] that [__init__]
    declares to the additive grid-interpolation kernel. *)
Theorem inputs_within_grid_bounds :
  ∃ (tx te : list (list R)),
    train_x = Some tx ∧ test_x = Some te
    ∧ Forall (Forall (λ v, (0 <= v <= 1)%R)) tx
    ∧ Forall (Forall (λ v, (0 <= v <= 1)%R)) te
    ∧ [0%R; 0%R] ∈ tx ∧ [1%R; 1%R] ∈ tx
    ∧ [0%R; 0%R] ∈ te ∧ [1%R; 1%R] ∈ te
    ∧ ∀ (ty : list R) (lik : likelihood_t),
        let bounds := declared_bounds (covar_module (__init__ tx ty lik)) in
        bounds = [(0, 1)%Z]
        ∧ Forall (Forall (within_bounds bounds)) tx
        ∧ Forall (Forall (within_bounds bounds)) te.
Proof.
  assert (Hends : ∀ n, 1 < n → [0%R; 0%R] ∈ grid n ∧ [1%R; 1%R] ∈ grid n).
  { intros n Hn. split; apply list_elem_of_lookup.
    - exists (0 * n + 0). rewrite grid_lookup_ij by lia. by rewrite coord_first.
    - exists ((n - 1) * n + (n - 1)). rewrite grid_lookup_ij by lia.
      by rewrite coord_last. }
  assert (Hin : ∀ n, n ≠ 1 →
    Forall (Forall (within_bounds [(0, 1)%Z])) (grid n)).
  { intros n Hn. eapply Forall_impl; [by apply grid_rows_unit|].
    intros row Hrow. eapply Forall_impl; [exact Hrow|].
    intros v Hv. apply Forall_cons_2; [exact Hv|constructor]. }
  eexists _, _. split; [apply train_x_grid|]. split; [apply test_x_grid|].
  split; [by apply grid_rows_unit|]. split; [by apply grid_rows_unit|].
  destruct (Hends 100) as [? ?]; [lia|]. destruct (Hends 10) as [? ?]; [lia|].
  do 4 (split; [done|]).
  intros ty lik. simpl. split; [done|]. split; by apply Hin.
Qed.

(** ** The model class *)


(** ** The range of the scaling factor

    Bounds on the exponential at four points, from [1 + x <= e^x] by
    repeated squaring; they place [e^x] against the binary32 range. *)

Lemma exp_squaring (a b x x' : R) :
  (x' = 2 * x)%R → (0 <= b)%R → (b <= exp x)%R → (a <= b * b)%R → (a <= exp x')%R.
Proof.
  intros -> Hb Hbx Ha. replace (2 * x)%R with (x + x)%R by lra. rewrite exp_plus.
  pose proof (Rmult_le_compat b (exp x) b (exp x) Hb Hb Hbx Hbx). lra.
Qed.

Ltac squaring a x' :=
  match goal with
  | H : (?b <= exp ?x)%R |- _ =>
    let H' := fresh in
    assert (H' : (a <= exp x')%R) by (apply (exp_squaring a b x x'); [lra|lra|exact H|lra]);
    clear H
  end.

(** [2 <= e^(52/75)]: twelve squarings of [1 + x <= e^x] at [x = 13/76800]. *)
Lemma exp_52_75_lower : (2 <= exp (52 / 75))%R.
Proof.
  pose proof (exp_ineq1_le (13 / 76800)%R).
  squaring 1.000338570319%R (13 / 38400)%R. squaring 1.000677255267%R (13 / 19200)%R.
  squaring 1.001354969208%R (13 / 9600)%R. squaring 1.002711774357%R (13 / 4800)%R.
  squaring 1.005430902434%R (13 / 2400)%R. squaring 1.010891299569%R (13 / 1200)%R.
  squaring 1.021901219544%R (13 / 600)%R. squaring 1.044282102505%R (13 / 300)%R.
  squaring 1.090525109612%R (13 / 150)%R. squaring 1.189245014694%R (13 / 75)%R.
  squaring 1.414303704974%R (26 / 75)%R. squaring 2.000254969903%R (52 / 75)%R.
  lra.
Qed.

(** [1/2 < e^(-103/150)]. *)
Lemma exp_103_150_upper : ((1 / 2) < exp (- (103 / 150)))%R.
Proof.
  pose proof (exp_ineq1_le (- (103 / 38400))%R).
  squaring 0.994642611355%R (- (103 / 19200))%R. squaring 0.989313924323%R (- (103 / 9600))%R.
  squaring 0.978742040859%R (- (103 / 4800))%R. squaring 0.957935982544%R (- (103 / 2400))%R.
  squaring 0.917641346652%R (- (103 / 1200))%R. squaring 0.842065641085%R (- (103 / 600))%R.
  squaring 0.709074543895%R (- (103 / 300))%R. squaring 0.502786708799%R (- (103 / 150))%R.
  lra.
Qed.

(** [1/2 < e^(-88/127)]. *)
Lemma exp_88_127_upper : ((1 / 2) < exp (- (88 / 127)))%R.
Proof.
  pose proof (exp_ineq1_le (- (11 / 65024))%R).
  squaring 0.999661692003%R (- (11 / 32512))%R. squaring 0.999323498458%R (- (11 / 16256))%R.
  squaring 0.998647454570%R (- (11 / 8128))%R. squaring 0.997296738519%R (- (11 / 4064))%R.
  squaring 0.994600784660%R (- (11 / 2032))%R. squaring 0.989230720846%R (- (11 / 1016))%R.
  squaring 0.978577419065%R (- (11 / 508))%R. squaring 0.957613765103%R (- (11 / 254))%R.
  squaring 0.917024123114%R (- (11 / 127))%R. squaring 0.840933242373%R (- (22 / 127))%R.
  squaring 0.707168718127%R (- (44 / 127))%R. squaring 0.500087595897%R (- (88 / 127))%R.
  lra.
Qed.

(** [2 <= e^(89/128)]. *)
Lemma exp_89_128_lower : (2 <= exp (89 / 128))%R.
Proof.
  pose proof (exp_ineq1_le (89 / 32768)%R).
  squaring 1.005439505912%R (89 / 16384)%R. squaring 1.010908600048%R (89 / 8192)%R.
  squaring 1.021936197651%R (89 / 4096)%R. squaring 1.044353592069%R (89 / 2048)%R.
  squaring 1.090674425267%R (89 / 1024)%R. squaring 1.189570701931%R (89 / 512)%R.
  squaring 1.415078454892%R (89 / 256)%R. squaring 2.002447033499%R (89 / 128)%R.
  lra.
Qed.

Lemma exp_pow (x : R) (n : nat) : (exp x ^ n = exp (INR n * x))%R.
Proof.
  induction n as [|n IH]; [by rewrite Rmult_0_l, exp_0|].
  rewrite S_INR, Rmult_plus_distr_r, Rmult_1_l, exp_plus, <- IH. simpl. lra.
Qed.

(** [e^(-104) <= 2^-150 < e^(-103)] and [e^88 < 2^127], [2^128 <= e^89]. *)
Lemma exp_minus_104 : (exp (-104) <= / 2 ^ 150)%R.
Proof.
  replace (-104)%R with (- (INR 150 * (52 / 75)))%R
    by (rewrite INR_IZR_INZ; change (Z.of_nat 150) with 150%Z; lra).
  rewrite exp_Ropp, <- exp_pow. apply Rinv_le_contravar; [apply pow_lt; lra|].
  apply pow_incr. pose proof exp_52_75_lower. lra.
Qed.

Lemma pow_lt_strict (a b : R) (n : nat) : (0 <= a < b)%R → (a ^ S n < b ^ S n)%R.
Proof.
  intros Hab. simpl.
  assert (Hn : (a ^ n <= b ^ n)%R) by (apply pow_incr; lra).
  assert (Hb : (0 < b ^ n)%R) by (apply pow_lt; lra).
  assert (Ha : (0 <= a ^ n)%R) by (apply pow_le; lra).
  nra.
Qed.

Lemma exp_minus_103 : (/ 2 ^ 150 < exp (-103))%R.
Proof.
  replace (-103)%R with (INR 150 * (- (103 / 150)))%R
    by (rewrite INR_IZR_INZ; change (Z.of_nat 150) with 150%Z; lra).
  rewrite <- exp_pow, <- pow_inv.
  apply (pow_lt_strict (/ 2) (exp (- (103 / 150))) 149).
  pose proof exp_103_150_upper. lra.
Qed.

Lemma exp_88 : (exp 88 < 2 ^ 127)%R.
Proof.
  assert (H : ((/ 2) ^ 127 < exp (Ropp 88))%R).
  { replace (Ropp 88) with (INR 127 * (- (88 / 127)))%R
      by (rewrite INR_IZR_INZ; change (Z.of_nat 127) with 127%Z; lra).
    rewrite <- exp_pow. apply (pow_lt_strict (/ 2) (exp (- (88 / 127))) 126).
    pose proof exp_88_127_upper. lra. }
  rewrite pow_inv, exp_Ropp in H.
  assert (H2 : (0 < 2 ^ 127)%R) by (apply pow_lt; lra).
  pose proof (exp_pos 88) as He.
  apply Rinv_lt_contravar in H; [|apply Rmult_lt_0_compat; by apply Rinv_0_lt_compat].
  by rewrite !Rinv_inv in H.
Qed.

Lemma exp_89 : (2 ^ 128 <= exp 89)%R.
Proof.
  replace 89%R with (INR 128 * (89 / 128))%R
    by (rewrite INR_IZR_INZ; change (Z.of_nat 128) with 128%Z; lra).
  rewrite <- exp_pow. apply pow_incr. pose proof exp_89_128_lower. lra.
Qed.

Lemma exp_le (x y : R) : (x <= y)%R → (exp x <= exp y)%R.
Proof.
  intros [Hlt| ->]; [|lra]. left. by apply exp_increasing.
Qed.

Lemma Rinv_pow2 (n : nat) : (0 < n)%nat → (0 < / 2 ^ n < 1)%R.
Proof.
  intros Hn.
  assert (H1 : (1 < 2 ^ n)%R) by (apply Rlt_pow_R1; [lra|lia]).
  assert (H2 : (0 < / 2 ^ n)%R) by (apply Rinv_0_lt_compat; lra).
  assert (H3 : (2 ^ n * / 2 ^ n = 1)%R) by (apply Rinv_r; lra).
  split; [done|]. nra.
Qed.

(** The range of [float32_exp]. *)
Lemma float32_exp_underflow (x : R) : (x <= -104)%R → float32_exp x = Number 0.
Proof.
  intros Hx. unfold float32_exp.
  pose proof (exp_le x (-104) Hx). pose proof exp_minus_104.
  destruct (Rle_dec (exp x) (/ 2 ^ 150)); [done|lra].
Qed.

Lemma float32_exp_finite (x : R) :
  (-103 <= x <= 88)%R → float32_exp x = Number (exp x).
Proof.
  intros [Hlo Hhi]. unfold float32_exp.
  pose proof (exp_le (-103) x Hlo). pose proof exp_minus_103.
  pose proof (exp_le x 88 Hhi). pose proof exp_88.
  destruct (Rle_dec (exp x) (/ 2 ^ 150)); [lra|].
  destruct (Rle_dec ((2 - / 2 ^ 24) * 2 ^ 127) (exp x)) as [Hov|]; [|done].
  exfalso. pose proof (Rinv_pow2 24 ltac:(lia)).
  assert (0 < 2 ^ 127)%R by (apply pow_lt; lra). nra.
Qed.

Lemma float32_exp_overflow (x : R) : (89 <= x)%R → float32_exp x = PlusInf.
Proof.
  intros Hx. unfold float32_exp.
  pose proof (exp_le 89 x Hx). pose proof exp_89.
  pose proof (Rinv_pow2 150 ltac:(lia)).
  assert (H128 : (1 <= 2 ^ 128)%R) by (apply pow_R1_Rle; lra).
  destruct (Rle_dec (exp x) (/ 2 ^ 150)); [lra|].
  destruct (Rle_dec ((2 - / 2 ^ 24) * 2 ^ 127) (exp x)) as [|Hno]; [done|].
  exfalso. apply Hno.
  pose proof (Rinv_pow2 24 ltac:(lia)).
  assert (0 < 2 ^ 127)%R by (apply pow_lt; lra).
  assert (H128' : (2 ^ 128 = 2 * 2 ^ 127)%R) by reflexivity.
  nra.
Qed.

Lemma float32_exp_sign (x : R) :
  float32_exp x = Number 0 ∨ is_positive (float32_exp x).
Proof.
  unfold float32_exp. destruct (Rle_dec (exp x) (/ 2 ^ 150)); [by left|right].
  destruct (Rle_dec ((2 - / 2 ^ 24) * 2 ^ 127) (exp x)); cbn [is_positive];
    [done|apply exp_pos].
Qed.

Lemma float32_exp_positive (x : R) :
  is_positive (float32_exp x) ↔ (/ 2 ^ 150 < exp x)%R.
Proof.
  unfold float32_exp.
  destruct (Rle_dec (exp x) (/ 2 ^ 150)) as [Hle|Hgt]; cbn [is_positive].
  - split; intros; lra.
  - destruct (Rle_dec ((2 - / 2 ^ 24) * 2 ^ 127) (exp x)); cbn [is_positive].
    + split; intros; [lra|done].
    + split; intros; [lra|apply exp_pos].
Qed.

(** Multiplying by a factor that is zero or positive never turns the sign
    of an entry round. *)
Lemma float32_mul_sign (c s : float32) :
  s = Number 0 ∨ is_positive s →
  (is_positive c → ¬ is_negative (float32_mul c s))
  ∧ (is_negative c → ¬ is_positive (float32_mul c s)).
Proof.
  intros [->|Hs].
  - destruct c as [v| | |]; simpl; repeat destruct (Rlt_dec _ _); simpl; split; intros; lra.
  - destruct c as [v| | |], s as [w| | |]; simpl in *;
      repeat destruct (Rlt_dec _ _); simpl; split; intros; try done; try lra; nra.
Qed.

(** C10 (amended).  For every real value of [log_outputscale], the factor
    [log_outputscale.exp()] that [forward] multiplies the covariance by is
    never negative and never NaN: it is 0.0 or strictly positive, and
    strictly positive exactly when [e^log_outputscale] is above [2^-150].
    It is 0.0 for [log_outputscale <= -104] and strictly positive for
    [log_outputscale >= -103]: the exponential itself up to 88, infinite
    from 89.  So the scaling never negates an entry of the
    covariance (a positive entry of [covar_module(x)] does not become
    negative, nor a negative one positive), but for [log_outputscale <= -104]
    it zeroes out every finite entry. *)
Theorem outputscale_never_negative
    (mean_call : mean_module_t → list (list R) → list R)
    (kernel_call : kernel → list (list R) → list (list float32))
    (self : GPRegressionModel) :
  (outputscale self = Number 0 ∨ is_positive (outputscale self))
  ∧ (is_positive (outputscale self) ↔ (/ 2 ^ 150 < exp (log_outputscale self))%R)
  ∧ ((log_outputscale self <= -104)%R → outputscale self = Number 0)
  ∧ ((-103 <= log_outputscale self)%R → is_positive (outputscale self))
  ∧ ((-103 <= log_outputscale self <= 88)%R
     → outputscale self = Number (exp (log_outputscale self)))
  ∧ ((89 <= log_outputscale self)%R → outputscale self = PlusInf)
  ∧ (∀ (x : list (list R)) (i j : nat),
       entry2 (covar (forward mean_call kernel_call self x)) i j
       = (λ c, float32_mul c (outputscale self))
           <$> entry2 (kernel_call (covar_module self) x) i j)
  ∧ (∀ c : float32,
       (is_positive c → ¬ is_negative (float32_mul c (outputscale self)))
       ∧ (is_negative c → ¬ is_positive (float32_mul c (outputscale self))))
  ∧ ((log_outputscale self <= -104)%R
     → ∀ v : R, float32_mul (Number v) (outputscale self) = Number 0).
Proof.
  unfold outputscale.
  split; [apply float32_exp_sign|]. split; [apply float32_exp_positive|].
  split; [apply float32_exp_underflow|].
  split.
  { intros Hl. apply float32_exp_positive.
    pose proof (exp_le _ _ Hl). pose proof exp_minus_103. lra. }
  split; [apply float32_exp_finite|].
  split; [apply float32_exp_overflow|]. split; [intros x i j; apply entry2_mul|].
  split.
  - intros c. apply float32_mul_sign, float32_exp_sign.
  - intros Hl v. rewrite (float32_exp_underflow _ Hl). simpl. f_equal. lra.
Qed.

(** The claim as it was stated fails: at [log_outputscale = -104] the factor
    is 0.0, not strictly positive, and [forward] turns the covariance
    [[1.0]] into [[0.0]]. *)
Lemma outputscale_underflows :
  outputscale (trained_model (-104)) = Number 0
  ∧ ¬ is_positive (outputscale (trained_model (-104)))
  ∧ covar (forward zero_mean unit_kernel (trained_model (-104)) [[0; 0]%R])
    = [[Number 0]].
Proof.
  assert (H : float32_exp (-104) = Number 0) by (apply float32_exp_underflow; lra).
  unfold outputscale, forward, trained_model. cbn [log_outputscale covar].
  rewrite H. split; [done|]. split; [simpl; lra|].
  unfold mul, unit_kernel. simpl. do 3 f_equal. lra.
Qed.

(** [log_outputscale] starts at 0, a factor of 1. *)
Lemma log_outputscale_initial (tx : list (list R)) (ty : list R) (lik : likelihood_t) :
  log_outputscale (__init__ tx ty lik) = 0%R
  ∧ outputscale (__init__ tx ty lik) = Number 1.
Proof.
  split; [done|]. unfold outputscale. simpl.
  rewrite float32_exp_finite by lra. by rewrite exp_0.
Qed.

(** ** The recorded output of the training cell *)

(** The stored lines are the losses [printed_losses], formatted by the
    [print] statement of the loop. *)
Example format_iter_11 : format_iter 10 20 (-66) = "Iter 11/20 - Loss: -0.066".
Proof. reflexivity. Qed.


Lemma printed_losses_length :
  length printed_losses = num_iter ∧ length recorded_stdout = num_iter.
Proof. split; reflexivity. Qed.


(** The formatted line determines the loss it shows. *)







(** ** The evaluation of cell 5 *)

(** C7.  When the predictive mean has one entry per test point, [delta_y] is,
    at every position [(i, j)] of the 10x10 grid, the absolute difference
    between the predicted mean at test row [i * 10 + j] (the mean of
    [likelihood(model(test_x))], which is entry [(i, j)] of [pred_labels])
    and the formula [(sin(x0) + cos(x1)) * (2 * pi)] at that row of [test_x]
    (entry [(i, j)] of [test_y_actual]). *)
Theorem absolute_error_surface
    (model_call : GPRegressionModel → list (list R) → GaussianRandomVariable)
    (likelihood_call : likelihood_t → GaussianRandomVariable → GaussianRandomVariable)
    (model : GPRegressionModel) (lik : likelihood_t)
    (te : list (list R)) (p : GaussianRandomVariable) :
  test_x = Some te →
  p = likelihood_call lik (model_call model te) →
  length (mean p) = 10 * 10 →
  ∃ labels actual delta,
    observed_pred model_call likelihood_call model lik = Some p
    ∧ pred_labels model_call likelihood_call model lik = Some labels
    ∧ test_y_actual = Some actual
    ∧ delta_y model_call likelihood_call model lik = Some delta
    ∧ ∀ i j, i < 10 → j < 10 →
        ∃ m x0 x1,
          mean p !! (i * 10 + j) = Some m
          ∧ te !! (i * 10 + j) = Some [x0; x1]
          ∧ entry2 labels i j = Some m
          ∧ entry2 actual i j = Some ((sin x0 + cos x1) * (2 * PI))%R
          ∧ entry2 delta i j = Some (Rabs (m - (sin x0 + cos x1) * (2 * PI)))%R.
Proof.
  intros Hte Hp Hlen.
  assert (Hte' : te = grid 10) by (rewrite test_x_grid in Hte; congruence).
  set (ys := map (λ k, formula (coord 10 (k / 10)) (coord 10 (k mod 10))) (seq 0 (10 * 10))).
  assert (Hys : length ys = 10 * 10) by (unfold ys; by rewrite length_map, length_seq).
  assert (Hobs : observed_pred model_call likelihood_call model lik = Some p).
  { unfold observed_pred. rewrite Hte. cbn [mbind option_bind]. by rewrite Hp. }
  assert (Hlab : pred_labels model_call likelihood_call model lik
                 = Some (chunks 10 10 (mean p))).
  { unfold pred_labels. cbv zeta. rewrite Hobs. cbn [mbind option_bind]. by apply view_Some. }
  assert (Hdelta : delta_y model_call likelihood_call model lik
    = Some (numpy_absolute (zip_with (zip_with Rminus) (chunks 10 10 (mean p)) (chunks 10 10 ys)))).
  { unfold delta_y. rewrite Hlab, test_y_actual_chunks. cbn [mbind option_bind].
    fold ys. rewrite (numpy_sub_same_shape 10 10) by (by apply chunks_shape). done. }
  eexists _, _, _. split; [done|]. split; [exact Hlab|].
  split; [exact test_y_actual_chunks|]. split; [exact Hdelta|].
  intros i j Hi Hj.
  assert (Hm : is_Some (mean p !! (i * 10 + j))) by (apply lookup_lt_is_Some; lia).
  destruct Hm as [m Hm].
  exists m, (coord 10 i), (coord 10 j).
  assert (Hlabels : entry2 (chunks 10 10 (mean p)) i j = Some m)
    by (by rewrite chunks_entry).
  assert (Hactual : entry2 (chunks 10 10 ys) i j = Some (formula (coord 10 i) (coord 10 j))).
  { rewrite chunks_entry by done. unfold ys.
    rewrite list_lookup_fmap, lookup_seq_lt by lia.
    cbn [fmap option_fmap option_map Nat.add].
    by destruct (grid_index 10 i j Hj) as [-> ->]. }
  split; [done|]. split; [rewrite Hte'; by apply grid_lookup_ij|].
  split; [done|]. split; [exact Hactual|].
  rewrite entry2_absolute, (entry2_zip_with Rminus _ _ i j m _ Hlabels Hactual). done.
Qed.

Lemma absolute_error_surface_witness :
  ∃ delta, delta_y zero_model same_distribution (__init__ [] [] GaussianLikelihood)
             GaussianLikelihood = Some delta
           ∧ entry2 delta 0 0 = Some (Rabs (0 - (sin 0 + cos 0) * (2 * PI)))%R.
Proof.
  destruct (absolute_error_surface zero_model same_distribution
              (__init__ [] [] GaussianLikelihood) GaussianLikelihood (grid 10)
              (zero_model (__init__ [] [] GaussianLikelihood) (grid 10)))
    as (labels & actual & delta & _ & _ & _ & Hdelta & Hentries).
  - exact test_x_grid.
  - reflexivity.
  - unfold zero_model. cbn [mean]. rewrite length_map. apply grid_length.
  - exists delta. split; [exact Hdelta|].
    destruct (Hentries 0 0) as (m & x0 & x1 & Hm & Hx & _ & _ & Hd); [lia..|].
    rewrite grid_lookup_ij in Hx by lia. rewrite !coord_first in Hx.
    assert (m = 0%R) as ->.
    { unfold zero_model in Hm. cbn [mean] in Hm.
      rewrite list_lookup_fmap, grid_lookup in Hm by lia.
      cbn [fmap option_fmap option_map] in Hm. by injection Hm as <-. }
    injection Hx as <- <-. exact Hd.
Defined.


(* ------------------------------------------------------------------ *)
(** ** More on the loops of cells 2 and 5                               *)
(* ------------------------------------------------------------------ *)

(** What a loop that ended without exception has kept of an invariant, and
    when a loop must raise. *)
Lemma for_from_preserve {St : Type} (P : nat → St → Prop) (body : nat → St → option St)
    (count : nat) :
  ∀ (start : nat) (s s' : St),
    P start s →
    (∀ i s s', start ≤ i < start + count → P i s → body i s = Some s' → P (S i) s') →
    for_from start count body s = Some s' → P (start + count) s'.
Proof.
  induction count as [|count IH]; intros start s s' Hs Hbody Hrun; simpl in Hrun.
  - injection Hrun as <-. by rewrite Nat.add_0_r.
  - destruct (body start s) as [s1|] eqn:E1; [|done]. simpl in Hrun.
    replace (start + S count) with (S start + count) by lia.
    apply (IH (S start) s1 s'); [apply (Hbody start s); [lia|done..]| |done].
    intros i s2 s3 Hi. apply Hbody. lia.
Qed.

Lemma for_from_fails {St : Type} (P : nat → St → Prop) (body : nat → St → option St)
    (count : nat) :
  ∀ (start i0 : nat) (s : St),
    P start s →
    (∀ i s s', start ≤ i < start + count → P i s → body i s = Some s' → P (S i) s') →
    start ≤ i0 < start + count →
    (∀ s, P i0 s → body i0 s = None) →
    for_from start count body s = None.
Proof.
  induction count as [|count IH]; intros start i0 s Hs Hbody Hi0 Hfail; [lia|].
  simpl. destruct (body start s) as [s1|] eqn:E1; [|done]. simpl.
  destruct (decide (i0 = start)) as [->|Hne]; [by rewrite Hfail in E1|].
  apply (IH (S start) i0 s1); [apply (Hbody start s); [lia|done..]| |lia|done].
  intros i s2 s3 Hi. apply Hbody. lia.
Qed.

Lemma setitem2_Some_inv (t t' : list (list R)) (r c : nat) (v : R) :
  setitem2 t r c v = Some t' →
  ∃ row, t !! r = Some row ∧ c < length row ∧ t' = <[r := <[c := v]> row]> t.
Proof.
  unfold setitem2. destruct (t !! r) as [row|]; [|done]. simpl.
  case_decide; [|done]. intros [= <-]. by exists row.
Qed.

(** One pass of the inner loop on any tensor: it writes row [i * n + j] and
    nothing else, or raises. *)
Lemma fill_point_inv (n i j : nat) (t t' : list (list R)) :
  (x0 ← float_div i (Z.of_nat n - 1);
   t ← setitem2 t (i * n + j) 0 x0;
   x1 ← float_div j (Z.of_nat n - 1);
   setitem2 t (i * n + j) 1 x1) = Some t' →
  ∃ row, t !! (i * n + j) = Some row ∧ 2 ≤ length row
         ∧ t' = <[i * n + j := <[1 := coord n j]> (<[0 := coord n i]> row)]> t.
Proof.
  unfold float_div. case_decide; [done|]. simpl.
  destruct (setitem2 t (i * n + j) 0 (INR i / IZR (Z.of_nat n - 1))) as [t1|] eqn:E1; [|done].
  simpl. intros E2.
  apply setitem2_Some_inv in E1 as (row & Hrow & Hlen & ->).
  apply setitem2_Some_inv in E2 as (row' & Hrow' & Hlen' & ->).
  rewrite list_lookup_insert_eq in Hrow' by (by eapply lookup_lt_Some).
  injection Hrow' as <-. rewrite length_insert in Hlen'.
  exists row. split; [done|]. split; [lia|]. by rewrite list_insert_insert_eq.
Qed.

Lemma fill_point_on (n i j : nat) (t0 t : list (list R)) :
  n ≠ 1 → i < n → j < n → fits n t0 → filled_on t0 n (i * n + j) t →
  ∃ t', (x0 ← float_div i (Z.of_nat n - 1);
         t ← setitem2 t (i * n + j) 0 x0;
         x1 ← float_div j (Z.of_nat n - 1);
         setitem2 t (i * n + j) 1 x1) = Some t'
        ∧ filled_on t0 n (i * n + j + 1) t'.
Proof.
  intros Hn Hi Hj Hfits [Hlen Ht].
  assert (Hm : i * n + j < n * n) by nia.
  destruct (Hfits _ Hm) as (row & Hrow0 & Hrowlen).
  assert (Hrow : t !! (i * n + j) = Some row).
  { rewrite Ht. by rewrite decide_False by lia. }
  assert (Hd : (Z.of_nat n - 1 ≠ 0)%Z) by lia.
  rewrite !float_div_Some by done. simpl.
  rewrite (setitem2_Some _ _ _ _ _ Hrow) by lia. simpl.
  erewrite setitem2_Some;
    [|apply list_lookup_insert_eq; by eapply lookup_lt_Some|rewrite length_insert; lia].
  eexists; split; [done|]. split; [by rewrite !length_insert|].
  intros k. rewrite list_insert_insert_eq.
  destruct (decide (k = i * n + j)) as [->|Hne].
  - rewrite list_lookup_insert_eq by (by eapply lookup_lt_Some).
    rewrite decide_True by lia. rewrite Hrow0. simpl. unfold written, coord.
    by destruct (grid_index n i j Hj) as [-> ->].
  - rewrite list_lookup_insert_ne by done. rewrite Ht.
    destruct (decide (k < i * n + j));
      [rewrite decide_True by lia|rewrite decide_False by lia]; done.
Qed.

Lemma fill_grid_on (n : nat) (t0 : list (list R)) :
  n ≠ 1 → fits n t0 → ∃ t', fill_grid n t0 = Some t' ∧ filled_on t0 n (n * n) t'.
Proof.
  intros Hn Hfits. unfold fill_grid.
  apply (for_range_invariant (λ i t, filled_on t0 n (i * n) t)).
  { split; [done|]. intros k. by rewrite decide_False by lia. }
  intros i t1 Hi Hrow.
  destruct (for_range_invariant (λ j t, filled_on t0 n (i * n + j) t)
    (λ j t, x0 ← float_div i (Z.of_nat n - 1);
            t ← setitem2 t (i * n + j) 0 x0;
            x1 ← float_div j (Z.of_nat n - 1);
            setitem2 t (i * n + j) 1 x1) n t1) as (t2 & Ht2 & Hf2).
  - by rewrite Nat.add_0_r.
  - intros j t' Hj Hf. destruct (fill_point_on n i j t0 t' Hn Hi Hj Hfits Hf) as (t'' & ? & ?).
    exists t''. split; [done|].
    by replace (i * n + S j) with (i * n + j + 1) by lia.
  - exists t2. split; [done|]. by replace (S i * n) with (i * n + n) by lia.
Qed.

(** A tensor fits, or it has a bad row among the rows the loops write. *)
Lemma fits_or_bad (n : nat) (t : list (list R)) :
  fits n t ∨ ∃ k, k < n * n ∧ bad_row t k.
Proof.
  unfold fits. generalize (n * n) as bound. intros bound.
  induction bound as [|bound [IH|(k & Hk & Hbad)]].
  - left. intros k Hk. lia.
  - destruct (t !! bound) as [row|] eqn:Erow.
    + destruct (decide (2 ≤ length row)) as [Hlen|Hlen].
      * left. intros k Hk. destruct (decide (k = bound)) as [->|]; [by exists row|].
        apply IH. lia.
      * right. exists bound. split; [lia|]. intros row' Hrow'.
        rewrite Erow in Hrow'. injection Hrow' as <-. lia.
    + right. exists bound. split; [lia|]. intros row' Hrow'. by rewrite Erow in Hrow'.
  - right. exists k. split; [lia|done].
Qed.

Lemma fill_point_agree (n i j : nat) (t0 t t' : list (list R)) :
  agree_from t0 (i * n + j) t →
  (x0 ← float_div i (Z.of_nat n - 1);
   t ← setitem2 t (i * n + j) 0 x0;
   x1 ← float_div j (Z.of_nat n - 1);
   setitem2 t (i * n + j) 1 x1) = Some t' →
  agree_from t0 (i * n + S j) t'.
Proof.
  intros Hagree (row & _ & _ & ->)%fill_point_inv k Hk.
  rewrite list_lookup_insert_ne by lia. apply Hagree. lia.
Qed.

Lemma fill_point_bad (n i j : nat) (t0 t : list (list R)) :
  bad_row t0 (i * n + j) → agree_from t0 (i * n + j) t →
  (x0 ← float_div i (Z.of_nat n - 1);
   t ← setitem2 t (i * n + j) 0 x0;
   x1 ← float_div j (Z.of_nat n - 1);
   setitem2 t (i * n + j) 1 x1) = None.
Proof.
  intros Hbad Hagree.
  match goal with |- ?m = None => destruct m as [t'|] eqn:E end; [|done].
  apply fill_point_inv in E as (row & Hrow & Hlen & _).
  rewrite Hagree in Hrow by lia. apply Hbad in Hrow. lia.
Qed.

Lemma fill_grid_bad (n k : nat) (t : list (list R)) :
  k < n * n → bad_row t k → fill_grid n t = None.
Proof.
  intros Hk Hbad. assert (Hn : 0 < n) by nia.
  pose proof (Nat.div_mod_eq k n) as Hdm.
  destruct (grid_index_range n k Hk) as [Hi0 Hj0].
  set (i0 := k / n) in *. set (j0 := k mod n) in *.
  assert (Hk' : k = i0 * n + j0) by lia. rewrite Hk' in Hbad.
  set (inner := λ i j (t : list (list R)),
         x0 ← float_div i (Z.of_nat n - 1);
         t ← setitem2 t (i * n + j) 0 x0;
         x1 ← float_div j (Z.of_nat n - 1);
         setitem2 t (i * n + j) 1 x1).
  assert (Hinner : ∀ i t1 t2, agree_from t (i * n) t1 →
            for_range n (inner i) t1 = Some t2 → agree_from t (S i * n) t2).
  { intros i t1 t2 Hagree Hrun.
    replace (S i * n) with (i * n + (0 + n)) by lia.
    apply (for_from_preserve (λ j s, agree_from t (i * n + j) s) (inner i) n 0 t1 t2);
      [by rewrite Nat.add_0_r| |done].
    intros j s s' _. apply fill_point_agree. }
  unfold fill_grid. fold inner. unfold for_range at 1.
  apply (for_from_fails (λ i s, agree_from t (i * n) s) _ n 0 i0).
  - by intros k' _.
  - intros i s s' _. apply Hinner.
  - lia.
  - intros s Hagree. unfold for_range.
    apply (for_from_fails (λ j s, agree_from t (i0 * n + j) s) (inner i0) n 0 j0).
    + by rewrite Nat.add_0_r.
    + intros j s1 s2 _. apply fill_point_agree.
    + lia.
    + intros s1. by apply fill_point_bad.
Qed.

(** X1.  The loops of cells 2 and 5 on any tensor that has rows
    [0 .. n*n - 1] with at least two columns, for any [n] other than 1: they
    end without an exception, the tensor keeps its size, row [i * n + j]
    gets [i / (n-1)] in column 0 and [j / (n-1)] in column 1, and every other
    entry (further columns, further rows) is left as it was. *)
Theorem fill_grid_writes_two_columns (n : nat) (t : list (list R)) :
  n ≠ 1 → fits n t →
  ∃ t', fill_grid n t = Some t'
    ∧ length t' = length t
    ∧ (∀ i j row, i < n → j < n → t !! (i * n + j) = Some row →
         ∃ row', t' !! (i * n + j) = Some row'
           ∧ length row' = length row
           ∧ row' !! 0 = Some (INR i / IZR (Z.of_nat n - 1))%R
           ∧ row' !! 1 = Some (INR j / IZR (Z.of_nat n - 1))%R
           ∧ ∀ c, 2 ≤ c → row' !! c = row !! c)
    ∧ (∀ k, n * n ≤ k → t' !! k = t !! k).
Proof.
  intros Hn Hfits. destruct (fill_grid_on n t Hn Hfits) as (t' & Hrun & Hlen & Ht').
  exists t'. split; [done|]. split; [done|]. split.
  - intros i j row Hi Hj Hrow.
    assert (Hm : i * n + j < n * n) by nia.
    destruct (Hfits _ Hm) as (row0 & Hrow0 & Hlen0).
    rewrite Hrow in Hrow0. injection Hrow0 as <-.
    exists (written n (i * n + j) row). split.
    { rewrite Ht', decide_True by done. by rewrite Hrow. }
    unfold written. destruct (grid_index n i j Hj) as [-> ->].
    split; [by rewrite !length_insert|]. split; [|split].
    + rewrite list_lookup_insert_ne by done. apply list_lookup_insert_eq. lia.
    + apply list_lookup_insert_eq. rewrite length_insert. lia.
    + intros c Hc. by rewrite !list_lookup_insert_ne by lia.
  - intros k Hk. rewrite Ht'. by rewrite decide_False by lia.
Qed.

Lemma fill_grid_writes_two_columns_witness :
  ∃ t', fill_grid 2 [[7; 7; 7]; [7; 7; 7]; [7; 7; 7]; [7; 7; 7]; [7; 7; 7]]%R = Some t'
        ∧ t' !! 4 = Some [7; 7; 7]%R
        ∧ ∃ row', t' !! (1 * 2 + 0) = Some row' ∧ row' !! 2 = Some 7%R.
Proof.
  destruct (fill_grid_writes_two_columns 2
              [[7; 7; 7]; [7; 7; 7]; [7; 7; 7]; [7; 7; 7]; [7; 7; 7]]%R)
    as (t' & Hrun & _ & Hrows & Hrest).
  - lia.
  - intros k Hk. exists [7; 7; 7]%R. split; [|simpl; lia].
    do 4 (destruct k as [|k]; [reflexivity|]). simpl in Hk. lia.
  - exists t'. split; [exact Hrun|]. split; [by rewrite Hrest by (simpl; lia)|].
    destruct (Hrows 1 0 [7; 7; 7]%R) as (row' & Hrow' & _ & _ & _ & Hframe);
      [lia|lia|reflexivity|].
    exists row'. split; [exact Hrow'|]. by rewrite Hframe by lia.
Defined.

(** X2.  When the loops raise.  With [n = 1] the first division
    [float(0) / (n-1)] raises ZeroDivisionError, whatever the tensor.  With
    any other [n] the loops end without an exception exactly when the tensor
    has rows [0 .. n*n - 1] with at least two columns each; otherwise an
    index is out of range.  With [n = 0] nothing runs. *)
Theorem fill_grid_raises (t : list (list R)) :
  fill_grid 1 t = None
  ∧ fill_grid 0 t = Some t
  ∧ ∀ n, n ≠ 1 → (is_Some (fill_grid n t) ↔ fits n t).
Proof.
  split; [reflexivity|]. split; [reflexivity|].
  intros n Hn. split.
  - intros Hsome. destruct (fits_or_bad n t) as [Hfits|(k & Hk & Hbad)]; [done|].
    rewrite (fill_grid_bad n k t Hk Hbad) in Hsome. by destruct Hsome.
  - intros Hfits. destruct (fill_grid_on n t Hn Hfits) as (t' & -> & _). by eexists.
Qed.

Example fill_grid_short_tensor : fill_grid 2 (zeros 3 2) = None.
Proof.
  apply (fill_grid_bad 2 3); [lia|]. intros row Hrow. discriminate Hrow.
Qed.

Example fill_grid_one_column : fill_grid 2 (zeros 4 1) = None.
Proof.
  apply (fill_grid_bad 2 0); [lia|]. intros row [= <-]. simpl. lia.
Qed.

Lemma fill_grid_zeros_inv (n : nat) (t : list (list R)) :
  fill_grid n (zeros (n ^ 2) 2) = Some t → n ≠ 1 ∧ t = grid n.
Proof.
  intros Hrun. assert (Hn : n ≠ 1) by (by intros ->).
  rewrite fill_grid_spec in Hrun by done. by injection Hrun as <-.
Qed.

Lemma coord_inj (n i j : nat) : n ≠ 1 → coord n i = coord n j → i = j.
Proof.
  intros Hn. unfold coord. intros Heq.
  assert (Hd : IZR (Z.of_nat n - 1) ≠ 0%R) by (apply not_0_IZR; lia).
  apply INR_eq. apply (Rmult_eq_reg_r (/ IZR (Z.of_nat n - 1))); [done|].
  by apply Rinv_neq_0_compat.
Qed.

Lemma coord_step (n i : nat) : 1 < n → coord n (S i) = (coord n i + / INR (n - 1))%R.
Proof.
  intros Hn. unfold coord. rewrite S_INR, (INR_IZR_INZ (n - 1)).
  replace (Z.of_nat (n - 1)) with (Z.of_nat n - 1)%Z by lia.
  assert (IZR (Z.of_nat n - 1) ≠ 0%R) by (apply not_0_IZR; lia).
  by field.
Qed.

Lemma grid_NoDup (n : nat) : n ≠ 1 → NoDup (grid n).
Proof.
  intros Hn. unfold grid. apply NoDup_fmap_2_strong; [|apply NoDup_seq].
  intros k1 k2 Hk1%elem_of_seq Hk2%elem_of_seq. unfold grid_point. intros [= Hdiv Hmod].
  apply coord_inj in Hdiv, Hmod; [|done..].
  rewrite (Nat.div_mod_eq k1 n), (Nat.div_mod_eq k2 n). by rewrite Hdiv, Hmod.
Qed.

(** X3.  The loops never write the same point twice: the rows of the tensor
    they leave (starting from [torch.zeros(pow(n, 2), 2)]) are pairwise
    distinct. *)
Theorem grid_rows_distinct (n : nat) (t : list (list R)) :
  fill_grid n (zeros (n ^ 2) 2) = Some t → NoDup t.
Proof. intros [Hn ->]%fill_grid_zeros_inv. by apply grid_NoDup. Qed.

Lemma grid_rows_distinct_witness : NoDup [[0; 0]; [0; 1]; [1; 0]; [1; 1]]%R.
Proof. apply (grid_rows_distinct 2). exact fill_grid_2. Defined.

(** X4.  "Each coordinate varies from 0 to 1 in n steps": in the tensor the
    loops leave, row 0 is [(0, 0)], the last row is [(1, 1)], the next row
    has column 1 larger by [1 / (n-1)], and the row [n] places further has
    column 0 larger by [1 / (n-1)]. *)
Theorem grid_rows_evenly_spaced (n : nat) (t : list (list R)) :
  1 < n → fill_grid n (zeros (n ^ 2) 2) = Some t →
  t !! 0 = Some [0; 0]%R
  ∧ t !! (n * n - 1) = Some [1; 1]%R
  ∧ ∀ i j, i < n → j < n →
      ∃ a b, t !! (i * n + j) = Some [a; b]
        ∧ (S j < n → t !! (i * n + S j) = Some [a; (b + / INR (n - 1))%R])
        ∧ (S i < n → t !! (S i * n + j) = Some [(a + / INR (n - 1))%R; b]).
Proof.
  intros Hn [_ ->]%fill_grid_zeros_inv. split; [|split].
  - pose proof (grid_lookup_ij n 0 0) as H0. rewrite coord_first in H0. apply H0; lia.
  - replace (n * n - 1) with ((n - 1) * n + (n - 1)) by nia.
    rewrite grid_lookup_ij by lia. by rewrite coord_last.
  - intros i j Hi Hj. exists (coord n i), (coord n j).
    split; [by apply grid_lookup_ij|]. split; intros Hnext.
    + rewrite grid_lookup_ij by done. by rewrite coord_step.
    + rewrite grid_lookup_ij by done. by rewrite coord_step.
Qed.

Lemma grid_rows_evenly_spaced_witness :
  ∃ t, fill_grid 3 (zeros (3 ^ 2) 2) = Some t
       ∧ t !! 0 = Some [0; 0]%R ∧ t !! 8 = Some [1; 1]%R.
Proof.
  exists (grid 3).
  assert (Hrun : fill_grid 3 (zeros (3 ^ 2) 2) = Some (grid 3)) by (by apply fill_grid_spec).
  split; [exact Hrun|].
  destruct (grid_rows_evenly_spaced 3 (grid 3)) as (H0 & Hlast & _); [lia|exact Hrun|].
  split; [exact H0|exact Hlast].
Defined.

(* ------------------------------------------------------------------ *)
(** ** More on the target expression                                    *)
(* ------------------------------------------------------------------ *)

Lemma column_Some_inv (c : nat) (x : list (list R)) (col : list R) :
  column c x = Some col → Forall2 (λ (row : list R) (v : R), row !! c = Some v) x col.
Proof. unfold column. by rewrite mapM_Some. Qed.

Lemma column_is_Some (c : nat) (x : list (list R)) :
  is_Some (column c x) ↔ Forall (λ row : list R, c < length row) x.
Proof.
  unfold column. rewrite mapM_is_Some. apply Forall_proper; [|done].
  intros row. simpl. apply lookup_lt_is_Some.
Qed.

(** The expression on any tensor: what it is when it does not raise. *)
Lemma target_Some_inv (x : list (list R)) (y : list R) :
  target x = Some y →
  Forall2 (λ (row : list R) (v : R),
             ∃ x0 x1, row !! 0 = Some x0 ∧ row !! 1 = Some x1 ∧ v = formula x0 x1) x y.
Proof.
  unfold target.
  destruct (column 0 x) as [c0|] eqn:E0; [|done].
  destruct (column 1 x) as [c1|] eqn:E1; [|done]. simpl.
  apply column_Some_inv in E0, E1.
  assert (Hlen : length (tensor_sin c0) = length (tensor_cos c1)).
  { unfold tensor_sin, tensor_cos. rewrite !length_map.
    by rewrite <- (Forall2_length _ _ _ E0), <- (Forall2_length _ _ _ E1). }
  unfold tensor_add. rewrite broadcast_same_length by done. simpl. intros [= <-].
  unfold tensor_scale, tensor_sin, tensor_cos.
  clear Hlen. revert c0 c1 E0 E1. induction x as [|row x IH]; intros c0 c1 E0 E1.
  - apply Forall2_nil_inv_l in E0 as ->. apply Forall2_nil_inv_l in E1 as ->. constructor.
  - apply Forall2_cons_inv_l in E0 as (v0 & c0' & Hv0 & E0 & ->).
    apply Forall2_cons_inv_l in E1 as (v1 & c1' & Hv1 & E1 & ->).
    simpl. constructor; [by exists v0, v1|by apply IH].
Qed.

Lemma target_is_Some (x : list (list R)) :
  is_Some (target x) ↔ Forall (λ row : list R, 2 ≤ length row) x.
Proof.
  split.
  - intros [y Hy]. unfold target in Hy.
    destruct (column 0 x) as [c0|] eqn:E0; [|done].
    destruct (column 1 x) as [c1|] eqn:E1; [|done].
    assert (H1 : is_Some (column 1 x)) by (by rewrite E1).
    by apply column_is_Some in H1.
  - intros Hrows.
    assert (H0 : is_Some (column 0 x)).
    { apply column_is_Some. eapply Forall_impl; [exact Hrows|]. simpl. lia. }
    assert (H1 : is_Some (column 1 x)) by (by apply column_is_Some).
    destruct H0 as [c0 E0], H1 as [c1 E1]. unfold target. rewrite E0, E1. simpl.
    apply column_Some_inv in E0 as E0', E1 as E1'.
    unfold tensor_add. rewrite broadcast_same_length; [by eexists|].
    unfold tensor_sin, tensor_cos. rewrite !length_map.
    by rewrite <- (Forall2_length _ _ _ E0'), <- (Forall2_length _ _ _ E1').
Qed.

(** X5.  The target expression of cells 2 and 5 on any input tensor with at
    least one row: it raises (a column index is out of range) exactly when
    some row has fewer than two entries; otherwise it gives one value per
    row, and the value of a row is [(sin(x0) + cos(x1)) * (2 * pi)] of the
    row's first two entries.  Further columns are ignored. *)
Theorem target_of_any_tensor (x : list (list R)) :
  x ≠ [] →
  (is_Some (target x) ↔ Forall (λ row : list R, 2 ≤ length row) x)
  ∧ ∀ y, target x = Some y →
      length y = length x
      ∧ ∀ k row, x !! k = Some row →
          ∃ x0 x1, row !! 0 = Some x0 ∧ row !! 1 = Some x1
                   ∧ y !! k = Some ((sin x0 + cos x1) * (2 * PI))%R.
Proof.
  intros _. split; [apply target_is_Some|].
  intros y Hy%target_Some_inv. split; [symmetry; by eapply Forall2_length|].
  intros k row Hrow.
  destruct (Forall2_lookup_l _ _ _ _ _ Hy Hrow) as (v & Hv & x0 & x1 & H0 & H1 & ->).
  by exists x0, x1.
Qed.

Lemma target_of_any_tensor_witness :
  is_Some (target [[0; 0; 5]; [1; 2; 5]]%R)
  ∧ target [[0; 0]; [1]]%R = None.
Proof.
  split.
  - apply (target_of_any_tensor [[0; 0; 5]; [1; 2; 5]]%R); [done|].
    repeat constructor; simpl; lia.
  - destruct (target [[0; 0]; [1]]%R) as [y|] eqn:E; [|done].
    assert (H : is_Some (target [[0; 0]; [1]]%R)) by (by rewrite E).
    apply (target_of_any_tensor [[0; 0]; [1]]%R) in H; [|done].
    apply Forall_cons_1 in H as [_ H]. apply Forall_cons_1 in H as [H _].
    simpl in H. lia.
Defined.

(** X6.  The targets decompose additively over the two input dimensions, as
    the introduction of the notebook says: with [f = 2 * pi * sin] and
    [g = 2 * pi * cos], the target of every row is [f(x0) + g(x1)]. *)
Theorem target_decomposes_additively :
  ∃ f g : R → R,
    (∀ a, f a = 2 * PI * sin a)%R ∧ (∀ b, g b = 2 * PI * cos b)%R
    ∧ ∀ (x : list (list R)) (y : list R), target x = Some y →
        Forall2 (λ (row : list R) (v : R),
                   ∃ x0 x1, row !! 0 = Some x0 ∧ row !! 1 = Some x1
                            ∧ v = (f x0 + g x1)%R) x y.
Proof.
  exists (λ a, 2 * PI * sin a)%R, (λ b, 2 * PI * cos b)%R.
  split; [done|]. split; [done|].
  intros x y Hy%target_Some_inv. eapply Forall2_impl; [exact Hy|].
  intros row v (x0 & x1 & H0 & H1 & ->). exists x0, x1.
  split; [done|]. split; [done|]. unfold formula. lra.
Qed.

Example target_short_row : target [[1; 2]; [3]]%R = None.
Proof.
  destruct (target [[1; 2]; [3]]%R) as [y|] eqn:E; [|done].
  assert (H : is_Some (target [[1; 2]; [3]]%R)) by (by rewrite E).
  apply target_is_Some in H. apply Forall_cons_1 in H as [_ H].
  apply Forall_cons_1 in H as [H _]. simpl in H. lia.
Qed.

(** X7.  The true test values are training targets: entry [(i, j)] of
    [test_y_actual], the formula at [(i/9, j/9)], is entry
    [11 * i * 100 + 11 * j] of [train_y]. *)
Theorem test_targets_are_training_targets :
  ∃ (ty : list R) (ya : list (list R)),
    train_y = Some ty ∧ test_y_actual = Some ya
    ∧ ∀ i j, i < 10 → j < 10 →
        ∃ v, entry2 ya i j = Some v
             ∧ ty !! (11 * i * 100 + 11 * j) = Some v
             ∧ v = ((sin (INR i / 9) + cos (INR j / 9)) * (2 * PI))%R.
Proof.
  eexists _, _. split; [apply train_y_grid|]. split; [apply test_y_actual_chunks|].
  intros i j Hi Hj. exists (formula (coord 10 i) (coord 10 j)). split; [|split].
  - rewrite chunks_entry by done.
    rewrite list_lookup_fmap, lookup_seq_lt by lia.
    cbn [fmap option_fmap option_map Nat.add].
    by destruct (grid_index 10 i j Hj) as [-> ->].
  - rewrite list_lookup_fmap, lookup_seq_lt by lia.
    cbn [fmap option_fmap option_map Nat.add].
    assert (H11 : 11 * j < 100) by lia.
    destruct (grid_index 100 (11 * i) (11 * j) H11) as [-> ->].
    by rewrite (coord_refine 10 11 i), (coord_refine 10 11 j) by lia.
  - unfold formula, coord. by change (Z.of_nat 10 - 1)%Z with 9%Z.
Qed.

(* ------------------------------------------------------------------ *)
(** ** More on the evaluation of cell 5                                 *)
(* ------------------------------------------------------------------ *)

Lemma view_is_Some (rows cols : nat) (a : list R) (m : list (list R)) :
  view rows cols a = Some m → length a = rows * cols ∧ m = chunks rows cols a.
Proof. unfold view. case_decide; [|done]. by intros [= <-]. Qed.

Lemma view_None (rows cols : nat) (a : list R) :
  length a ≠ rows * cols → view rows cols a = None.
Proof. intros Ha. unfold view. by rewrite decide_False. Qed.

Lemma shape_difference (rows cols : nat) (a b : list (list R)) :
  shape rows cols a → shape rows cols b →
  shape rows cols (numpy_absolute (zip_with (zip_with Rminus) a b)).
Proof.
  intros [Ha Hra] [Hb Hrb]. unfold numpy_absolute. split.
  - rewrite length_map, length_zip_with. lia.
  - rewrite Forall_fmap. clear Ha Hb. revert b Hrb.
    induction Hra as [|r a Hr Hra IH]; intros b Hrb; [constructor|].
    destruct Hrb as [|r' b Hr' Hrb]; [constructor|]. simpl.
    constructor; [|by apply IH]. simpl. rewrite length_map, length_zip_with. lia.
Qed.

Lemma numpy_absolute_nonneg (a : list (list R)) :
  Forall (Forall (λ v, (0 <= v)%R)) (numpy_absolute a).
Proof.
  unfold numpy_absolute. rewrite Forall_fmap. apply Forall_forall. intros row _. simpl.
  rewrite Forall_fmap. apply Forall_forall. intros v _. simpl. apply Rabs_pos.
Qed.

(** X8.  The evaluation raises when the predictive mean does not have one
    entry per test point: [view(n, n)] fails, so there are no [pred_labels]
    and no [delta_y]; the true test values do not depend on the model and are
    still computed. *)
Theorem evaluation_needs_100_predictions
    (model_call : GPRegressionModel → list (list R) → GaussianRandomVariable)
    (likelihood_call : likelihood_t → GaussianRandomVariable → GaussianRandomVariable)
    (model : GPRegressionModel) (lik : likelihood_t) (te : list (list R)) :
  test_x = Some te →
  length (mean (likelihood_call lik (model_call model te))) ≠ 10 * 10 →
  pred_labels model_call likelihood_call model lik = None
  ∧ delta_y model_call likelihood_call model lik = None
  ∧ is_Some test_y_actual.
Proof.
  intros Hte Hlen.
  assert (Hlab : pred_labels model_call likelihood_call model lik = None).
  { unfold pred_labels, observed_pred. cbv zeta. rewrite Hte.
    cbn [mbind option_bind]. by apply view_None. }
  split; [done|]. split.
  - unfold delta_y. by rewrite Hlab.
  - rewrite test_y_actual_chunks. by eexists.
Qed.

Lemma evaluation_needs_100_predictions_witness :
  delta_y empty_model same_distribution (__init__ [] [] GaussianLikelihood) GaussianLikelihood
  = None.
Proof.
  destruct (evaluation_needs_100_predictions empty_model same_distribution
              (__init__ [] [] GaussianLikelihood) GaussianLikelihood (grid 10))
    as (_ & Hdelta & _).
  - exact test_x_grid.
  - simpl. lia.
  - exact Hdelta.
Defined.

(** X9.  Whenever the evaluation gives an error surface, the predictive mean
    had exactly 100 entries, and predicted labels, true values and error
    surface are all 10 by 10; every error is non-negative, and it is zero
    exactly where the predicted label equals the true value. *)
Theorem error_surface_shape
    (model_call : GPRegressionModel → list (list R) → GaussianRandomVariable)
    (likelihood_call : likelihood_t → GaussianRandomVariable → GaussianRandomVariable)
    (model : GPRegressionModel) (lik : likelihood_t) (delta : list (list R)) :
  delta_y model_call likelihood_call model lik = Some delta →
  ∃ p labels actual,
    observed_pred model_call likelihood_call model lik = Some p
    ∧ length (mean p) = 100
    ∧ pred_labels model_call likelihood_call model lik = Some labels
    ∧ test_y_actual = Some actual
    ∧ shape 10 10 labels ∧ shape 10 10 actual ∧ shape 10 10 delta
    ∧ Forall (Forall (λ v, (0 <= v)%R)) delta
    ∧ ∀ i j a b, entry2 labels i j = Some a → entry2 actual i j = Some b →
        entry2 delta i j = Some (Rabs (a - b)) ∧ (Rabs (a - b) = 0%R ↔ a = b).
Proof.
  unfold delta_y. intros Hdelta.
  destruct (pred_labels model_call likelihood_call model lik) as [labels|] eqn:Elab; [|done].
  rewrite test_y_actual_chunks in Hdelta |- *. cbn [mbind option_bind] in Hdelta.
  unfold pred_labels in Elab. cbv zeta in Elab.
  destruct (observed_pred model_call likelihood_call model lik) as [p|] eqn:Eobs; [|done].
  cbn [mbind option_bind] in Elab. apply view_is_Some in Elab as [Hlen ->].
  set (ys := map (λ k, formula (coord 10 (k / 10)) (coord 10 (k mod 10))) (seq 0 (10 * 10)))
    in *.
  assert (Hys : length ys = 10 * 10) by (unfold ys; by rewrite length_map, length_seq).
  pose proof (chunks_shape 10 10 (mean p) Hlen) as Hshape_l.
  pose proof (chunks_shape 10 10 ys Hys) as Hshape_a.
  rewrite (numpy_sub_same_shape 10 10) in Hdelta by done.
  cbn [mbind option_bind] in Hdelta.
  apply (inj Some) in Hdelta. subst delta.
  exists p, (chunks 10 10 (mean p)), (chunks 10 10 ys).
  split; [reflexivity|]. split; [exact Hlen|]. split; [reflexivity|]. split; [reflexivity|].
  split; [exact Hshape_l|]. split; [exact Hshape_a|].
  split; [apply shape_difference; assumption|].
  split; [apply numpy_absolute_nonneg|].
  intros i j a b Ha Hb. split.
  - by rewrite entry2_absolute, (entry2_zip_with Rminus _ _ i j a b Ha Hb).
  - split; intros Hab.
    + apply Rminus_diag_uniq. destruct (Req_dec (a - b) 0) as [Heq|Hne]; [exact Heq|].
      exfalso. exact (Rabs_no_R0 _ Hne Hab).
    + subst b. rewrite Rminus_diag. apply Rabs_R0.
Qed.

Lemma error_surface_shape_witness :
  ∃ delta, delta_y zero_model same_distribution (__init__ [] [] GaussianLikelihood)
             GaussianLikelihood = Some delta
           ∧ shape 10 10 delta.
Proof.
  assert (Hlab : pred_labels zero_model same_distribution (__init__ [] [] GaussianLikelihood)
                   GaussianLikelihood
                 = Some (chunks 10 10 (map (λ _, 0%R) (grid 10)))).
  { unfold pred_labels, observed_pred. cbv zeta. rewrite test_x_grid.
    cbn [mbind option_bind]. apply view_Some.
    unfold same_distribution, zero_model. cbn [mean]. rewrite length_map. apply grid_length. }
  assert (Hsome : is_Some (delta_y zero_model same_distribution
                             (__init__ [] [] GaussianLikelihood) GaussianLikelihood)).
  { unfold delta_y. rewrite Hlab, test_y_actual_chunks. cbn [mbind option_bind].
    rewrite (numpy_sub_same_shape 10 10); [by eexists|apply chunks_shape..].
    - rewrite length_map. apply grid_length.
    - by rewrite length_map, length_seq. }
  destruct Hsome as [delta Hdelta]. exists delta. split; [exact Hdelta|].
  destruct (error_surface_shape zero_model same_distribution
              (__init__ [] [] GaussianLikelihood) GaussianLikelihood delta Hdelta)
    as (p & labels & actual & _ & _ & _ & _ & _ & _ & Hshape & _).
  exact Hshape.
Defined.

(* ------------------------------------------------------------------ *)
(** ** More on the model class                                          *)
(* ------------------------------------------------------------------ *)

Lemma float32_mul_one (c : float32) : float32_mul c (Number 1) = c.
Proof.
  destruct c as [v| | |]; simpl; [f_equal; lra| | |done];
    repeat destruct (Rlt_dec _ _); try done; lra.
Qed.

Lemma mul_one (c : list (list float32)) : mul c (Number 1) = c.
Proof.
  unfold mul. rewrite <- (list_fmap_id c) at 2. apply list_fmap_ext. intros _ row _.
  rewrite <- (list_fmap_id row) at 2. apply list_fmap_ext. intros _ v _.
  apply float32_mul_one.
Qed.

(** X10.  A freshly constructed model does not scale: [log_outputscale] is
    0, so [forward] returns the constant mean's value on [x] and the value of
    the additive grid-interpolation kernel on [x] itself as covariance. *)
Theorem forward_of_new_model
    (mean_call : mean_module_t → list (list R) → list R)
    (kernel_call : kernel → list (list R) → list (list float32))
    (tx : list (list R)) (ty : list R) (lik : likelihood_t) (x : list (list R)) :
  forward mean_call kernel_call (__init__ tx ty lik) x
  = {| mean := mean_call ConstantMean x;
       covar := kernel_call (AdditiveGridInterpolationKernel RBFKernel 400 [(0, 1)%Z] 2) x |}.
Proof.
  unfold forward, __init__. cbn [mean_module covar_module log_outputscale].
  rewrite float32_exp_finite by lra. by rewrite exp_0, mul_one.
Qed.

(* ================================================================== *)
(** * Theorems: script layer                                            *)
(* ================================================================== *)

Section ScriptProperties.

Variables Obj Exn LibState : Type.
Variable lib : call Obj Exn → LibState → outcome Exn Obj * LibState.
Variable truthy : Obj → bool.

#[local] Existing Instance py_ret.
#[local] Existing Instance py_bind.

Local Abbreviation segment := (list (call Obj Exn * outcome Exn Obj)).
Local Abbreviation code := (py Obj Exn LibState).

#[local] Arguments invoke : simpl never.

(** ** Runs in which every call returns *)

Lemma all_returned_app (t1 t2 : segment) :
  all_returned (t1 ++ t2) = all_returned t1 && all_returned t2.
Proof. apply forallb_app. Qed.

Lemma all_returned_app_true (t1 t2 : segment) :
  all_returned (t1 ++ t2) = true → all_returned t1 = true ∧ all_returned t2 = true.
Proof. rewrite all_returned_app. apply andb_prop. Qed.

Lemma returns_ret {A : Type} (a : A) (Q : A → segment → Prop) :
  Q a [] → returns (mret a : code A) Q.
Proof.
  intros HQ w. exists []. split; [by rewrite app_nil_r|]. intros _. by exists a.
Qed.

Lemma returns_invoke (f : string) (a : list (arg Obj Exn)) :
  returns (invoke lib f a) (λ o t, t = [(Call f a, Returned o)]).
Proof.
  intros w. eexists. split; [reflexivity|]. unfold invoke. simpl.
  destruct (lib (Call f a) (lib_state w)) as [[o|e] s]; simpl; [|done].
  intros _. by exists o.
Qed.

Lemma returns_bind {A B : Type} (m : code A) (k : A → code B)
    (Q1 : A → segment → Prop) (Q2 : A → B → segment → Prop) :
  returns m Q1 → (∀ a, returns (k a) (Q2 a)) →
  returns (m ≫= k) (λ b t, ∃ a t1 t2, t = t1 ++ t2 ∧ Q1 a t1 ∧ Q2 a b t2).
Proof.
  intros Hm Hk w. unfold mbind, py_bind.
  destruct (Hm w) as (t1 & Hlog1 & H1).
  destruct (m w) as [[a|e] w1]; cbn [fst snd] in *.
  - destruct (Hk a w1) as (t2 & Hlog2 & H2). exists (t1 ++ t2). split.
    + by rewrite Hlog2, Hlog1, app_assoc.
    + intros [Ha1 Ha2]%all_returned_app_true.
      destruct (H1 Ha1) as (a' & [= <-] & HQ1). destruct (H2 Ha2) as (b & Hb & HQ2).
      exists b. split; [done|]. by exists a, t1, t2.
  - exists t1. split; [done|]. intros Ha. by destruct (H1 Ha) as (a & ? & _).
Qed.

Lemma returns_weaken {A : Type} (m : code A) (Q Q' : A → segment → Prop) :
  returns m Q → (∀ a t, Q a t → Q' a t) → returns m Q'.
Proof.
  intros Hm HQ w. destruct (Hm w) as (t & Hlog & H). exists t. split; [done|].
  intros Ha. destruct (H Ha) as (a & ? & ?). exists a. auto.
Qed.

Lemma returns_loop_from (body : nat → code ()) (Q : nat → segment → Prop) (count : nat) :
  (∀ i, returns (body i) (λ _ t, Q i t)) →
  ∀ start, returns (loop_from start count body)
    (λ _ t, ∃ passes : list segment,
       t = concat passes ∧ length passes = count
       ∧ ∀ i pass, passes !! i = Some pass → Q (start + i) pass).
Proof.
  intros Hbody. induction count as [|count IH]; intros start.
  - apply returns_ret. exists []. by repeat split.
  - simpl. eapply returns_weaken;
      [apply returns_bind; [apply Hbody|intros u; apply (IH (S start))]|].
    intros u t (u' & t1 & t2 & -> & H1 & passes & -> & Hlen & Hp).
    exists (t1 :: passes). repeat split; [simpl; lia|].
    intros [|i] pass; simpl.
    + intros [= <-]. by rewrite Nat.add_0_r.
    + intros Hi. replace (start + S i) with (S start + i) by lia. by apply Hp.
Qed.

Lemma returns_loop_range (body : nat → code ()) (Q : nat → segment → Prop) (n : nat) :
  (∀ i, returns (body i) (λ _ t, Q i t)) →
  returns (loop_range n body)
    (λ _ t, ∃ passes : list segment,
       t = concat passes ∧ length passes = n
       ∧ ∀ i pass, passes !! i = Some pass → Q i pass).
Proof. intros Hbody. by apply (returns_loop_from body Q n Hbody 0). Qed.

(** A [with] block in which nothing raises: [__enter__], the body,
    [__exit__] with no exception. *)
Lemma returns_with (mgr : Obj) (body : code ()) (Q : segment → Prop) :
  returns body (λ _ t, Q t) →
  returns (with_ lib truthy mgr body)
    (λ _ t, ∃ r1 tb r2,
       t = (Call "__enter__" [Ob mgr], Returned r1) :: tb
           ++ [(Call "__exit__" [Ob mgr; PyNone], Returned r2)]
       ∧ Q tb).
Proof.
  intros Hbody w. unfold with_.
  destruct (returns_invoke "__enter__" [Ob mgr] w) as (t1 & Hlog1 & H1).
  destruct (invoke lib "__enter__" [Ob mgr] w) as [[r1|e] w1]; cbn [fst snd] in *.
  - destruct (Hbody w1) as (tb & Hlogb & Hb).
    destruct (body w1) as [[[]|e] w2]; cbn [fst snd] in *.
    + destruct (returns_invoke "__exit__" [Ob mgr; PyNone] w2) as (t3 & Hlog3 & H3).
      destruct (invoke lib "__exit__" [Ob mgr; PyNone] w2) as [[r2|e] w3]; cbn [fst snd] in *.
      all: exists (t1 ++ tb ++ t3).
      all: (split; [by rewrite Hlog3, Hlogb, Hlog1, <- !app_assoc|]).
      all: intros [Ha1 [Hab Ha3]%all_returned_app_true]%all_returned_app_true.
      * destruct (H1 Ha1) as (? & [= <-] & ->). destruct (H3 Ha3) as (? & [= <-] & ->).
        destruct (Hb Hab) as (_ & _ & HQ). exists (). split; [done|]. by exists r1, tb, r2.
      * by destruct (H3 Ha3) as (? & ? & _).
    + destruct (returns_invoke "__exit__" [Ob mgr; Exc e] w2) as (t3 & Hlog3 & _).
      exists (t1 ++ tb ++ t3). split.
      * destruct (invoke lib "__exit__" [Ob mgr; Exc e] w2) as [[r2|e'] w3]; cbn [fst snd] in *;
          [destruct (truthy r2)|]; cbn [fst snd]; by rewrite Hlog3, Hlogb, Hlog1, <- !app_assoc.
      * intros [_ [Hab _]%all_returned_app_true]%all_returned_app_true.
        by destruct (Hb Hab) as (? & ? & _).
  - exists t1. split; [done|]. intros Ha. by destruct (H1 Ha) as (a & ? & _).
Qed.

(** A straight line of calls, each bound to a name. *)
Ltac returns_calls :=
  repeat first
    [ eapply returns_bind; [apply returns_invoke|intros ?]
    | apply returns_invoke
    | apply (returns_ret () (λ _ t, t = [])); reflexivity ].

Lemma training_iteration_returns (optimizer model mll train_x train_y : Obj) (i : nat) :
  returns (training_iteration lib optimizer model mll train_x train_y i)
    (λ _ t, iteration_log optimizer model mll train_x train_y i t).
Proof.
  unfold training_iteration, method, call_object, getattr, getitem.
  eapply returns_weaken; [returns_calls|].
  intros u t H. cbv beta in H.
  repeat match goal with
         | H : ∃ _, _ |- _ => destruct H as [? H]
         | H : _ ∧ _ |- _ => destruct H as [? H]
         end.
  subst. unfold iteration_log. do 10 eexists. simpl.
  rewrite Nat2Z.inj_add. reflexivity.
Qed.

Lemma cell4_returns (likelihood model train_x train_y : Obj) :
  returns (cell4 lib truthy likelihood model train_x train_y)
    (λ _ t, training_log likelihood model train_x train_y t).
Proof.
  unfold cell4, method.
  eapply returns_weaken.
  - do 6 (eapply returns_bind; [apply returns_invoke|intros ?]).
    apply returns_with, returns_loop_range. intros i. apply training_iteration_returns.
  - intros u t H. cbv beta in H.
    repeat match goal with
           | H : ∃ _, _ |- _ => destruct H as [? H]
           | H : _ ∧ _ |- _ => destruct H as [? H]
           end.
    subst. unfold training_log. do 9 eexists. split; [|split; [eassumption|eassumption]].
    simpl. reflexivity.
Qed.

(** C2.  [num_iter] is 20, and in every run of cell 4 in which no call
    raises, the log is [training_log]: the Adam optimizer is built once, with
    [lr = 0.2], before the loop; the loop makes exactly 20 passes; and each
    pass calls, in this order, [optimizer.zero_grad()], [model(train_x)],
    [mll(output, train_y)] and its negation, [loss.backward()], the
    formatting and [print] of the loss, and [optimizer.step()]. *)
Theorem training_loop_order (likelihood model train_x train_y : Obj)
    (w : world Obj Exn LibState) :
  num_iter = 20
  ∧ ∃ t, log (cell4 lib truthy likelihood model train_x train_y w).2 = log w ++ t
         ∧ (all_returned t = true →
            (cell4 lib truthy likelihood model train_x train_y w).1 = Returned ()
            ∧ training_log likelihood model train_x train_y t).
Proof.
  split; [done|].
  destruct (cell4_returns likelihood model train_x train_y w) as (t & Hlog & H).
  exists t. split; [done|]. intros Ha. by destruct (H Ha) as ([] & ? & ?).
Qed.

(** ** What the training cell shows *)







(** ** Code without handlers *)

Lemma unwinds_ret {A : Type} (a : A) : unwinds (mret a : code A).
Proof. intros w. exists []. split; [by rewrite app_nil_r|done]. Qed.

Lemma unwinds_invoke (f : string) (a : list (arg Obj Exn)) : unwinds (invoke lib f a).
Proof.
  intros w. eexists. split; [reflexivity|]. unfold invoke. cbn [fst snd].
  destruct (lib (Call f a) (lib_state w)) as [[o|e] s]; cbn [fst snd]; [done|].
  by exists [], (Call f a).
Qed.

Lemma unwinds_bind {A B : Type} (m : code A) (k : A → code B) :
  unwinds m → (∀ a, unwinds (k a)) → unwinds (m ≫= k).
Proof.
  intros Hm Hk w. unfold mbind, py_bind.
  destruct (Hm w) as (t1 & Hlog1 & H1).
  destruct (m w) as [[a|e] w1]; cbn [fst snd] in *; [|by exists t1].
  destruct (Hk a w1) as (t2 & Hlog2 & H2). exists (t1 ++ t2).
  split; [by rewrite Hlog2, Hlog1, app_assoc|].
  destruct (k a w1).1 as [b|e]; simpl in *.
  - rewrite all_returned_app. by rewrite H1, H2.
  - destruct H2 as (t0 & c & -> & H0). exists (t1 ++ t0), c.
    split; [by rewrite app_assoc|]. rewrite all_returned_app. by rewrite H1, H0.
Qed.

Lemma unwinds_loop_from (body : nat → code ()) (count : nat) :
  (∀ i, unwinds (body i)) → ∀ start, unwinds (loop_from start count body).
Proof.
  intros Hbody. induction count as [|count IH]; intros start; simpl.
  - apply unwinds_ret.
  - apply unwinds_bind; [apply Hbody|intros _; apply IH].
Qed.

Lemma unwinds_loop_range (body : nat → code ()) (n : nat) :
  (∀ i, unwinds (body i)) → unwinds (loop_range n body).
Proof. intros Hbody. by apply unwinds_loop_from. Qed.

Lemma unwound_propagated {A : Type} (r : outcome Exn A) (t : segment) :
  unwound r t → propagated r t.
Proof.
  destruct r as [a|e]; simpl; [done|].
  intros (t0 & c & -> & H0). exists t0, c, e, []. auto.
Qed.

Lemma unhandled_unwinds {A : Type} (m : code A) : unwinds m → unhandled m.
Proof.
  intros Hm w. destruct (Hm w) as (t & Hlog & H). exists t.
  split; [done|]. by apply unwound_propagated.
Qed.

Lemma unhandled_bind {A B : Type} (m : code A) (k : A → code B) :
  unhandled m → (∀ a, unhandled (k a)) → unhandled (m ≫= k).
Proof.
  intros Hm Hk w. unfold mbind, py_bind.
  destruct (Hm w) as (t1 & Hlog1 & H1).
  destruct (m w) as [[a|e] w1]; cbn [fst snd] in *; [|by exists t1].
  destruct (Hk a w1) as (t2 & Hlog2 & H2). exists (t1 ++ t2).
  split; [by rewrite Hlog2, Hlog1, app_assoc|].
  destruct (k a w1).1 as [b|e]; simpl in *.
  - rewrite all_returned_app. by rewrite H1, H2.
  - destruct H2 as (t0 & c & e0 & t3 & -> & H0 & Hrest). exists (t1 ++ t0), c, e0, t3.
    split; [by rewrite app_assoc|]. split; [|done].
    rewrite all_returned_app. by rewrite H1, H0.
Qed.

(** A [with] block around code without handlers: after an exception in the
    body only [__exit__] is called, and the exception goes on unless
    [__exit__] raises one of its own. *)
Lemma unhandled_with (mgr : Obj) (body : code ()) :
  no_suppress lib truthy → unwinds body → unhandled (with_ lib truthy mgr body).
Proof.
  intros Hex Hbody w. unfold with_.
  destruct (unwinds_invoke "__enter__" [Ob mgr] w) as (t1 & Hlog1 & H1).
  destruct (invoke lib "__enter__" [Ob mgr] w) as [[r1|e] w1]; cbn [fst snd] in *.
  2: { exists t1. split; [done|]. by apply (unwound_propagated (Raised e)). }
  destruct (Hbody w1) as (tb & Hlogb & Hb).
  destruct (body w1) as [[[]|e] w2]; cbn [fst snd] in *.
  - destruct (unwinds_invoke "__exit__" [Ob mgr; PyNone] w2) as (t3 & Hlog3 & H3).
    exists (t1 ++ tb ++ t3).
    destruct (invoke lib "__exit__" [Ob mgr; PyNone] w2) as [[r2|e] w3]; cbn [fst snd] in *.
    all: (split; [by rewrite Hlog3, Hlogb, Hlog1, <- !app_assoc|]).
    + unfold propagated, unwound in *. rewrite !all_returned_app. by rewrite H1, Hb, H3.
    + unfold propagated, unwound in *.
      destruct H3 as (t0 & c & -> & H0). exists (t1 ++ tb ++ t0), c, e, [].
      split; [by rewrite <- !app_assoc|]. split; [|auto].
      rewrite !all_returned_app. by rewrite H1, Hb, H0.
  - destruct Hb as (t0 & c & -> & H0).
    pose proof (Hex (Call "__exit__" [Ob mgr; Exc e]) (lib_state w2) eq_refl) as Hfalse.
    set (x := (lib (Call "__exit__" [Ob mgr; Exc e]) (lib_state w2)).1) in *.
    exists (t1 ++ (t0 ++ [(c, Raised e)]) ++ [(Call "__exit__" [Ob mgr; Exc e], x)]).
    assert (Hshape : ∀ e', e' = match x with Raised e'' => e'' | Returned _ => e end →
      propagated (Raised e' : outcome Exn ())
        (t1 ++ (t0 ++ [(c, Raised e)]) ++ [(Call "__exit__" [Ob mgr; Exc e], x)])).
    { intros e' He'. exists (t1 ++ t0), c, e, [(Call "__exit__" [Ob mgr; Exc e], x)].
      split; [by rewrite <- !app_assoc|]. split; [rewrite all_returned_app; by rewrite H1, H0|].
      right. exists (Call "__exit__" [Ob mgr; Exc e]), x. by repeat split. }
    unfold invoke. cbn [fst snd]. fold x.
    destruct x as [r2|e']; cbn [fst snd].
    + rewrite Hfalse. cbn [fst snd]. split; [by rewrite Hlogb, Hlog1, <- !app_assoc|].
      by apply Hshape.
    + split; [by rewrite Hlogb, Hlog1, <- !app_assoc|]. by apply Hshape.
Qed.

(** Straight-line code and loops of calls have no handler. *)
Ltac unwinds_calls :=
  repeat first
    [ apply unwinds_invoke
    | apply unwinds_ret
    | apply unwinds_loop_range; intros ?
    | apply unwinds_bind; [|intros ?] ].

Lemma unwinds_target_expression (x : Obj) : unwinds (target_expression lib x).
Proof. unfold target_expression, method, getattr, getitem. unwinds_calls. Qed.

Lemma unwinds_cell2 : unwinds (cell2 lib).
Proof.
  unfold cell2, method, getitem, setitem.
  unwinds_calls; apply unwinds_target_expression.
Qed.

Lemma unwinds_init_body (self train_x train_y likelihood : Obj) :
  unwinds (init_body lib self train_x train_y likelihood).
Proof. unfold init_body, method, getattr, setattr. unwinds_calls. Qed.

Lemma unwinds_forward_body (self x : Obj) : unwinds (forward_body lib self x).
Proof. unfold forward_body, method, call_object, getattr. unwinds_calls. Qed.

Lemma unwinds_cell3 (train_x train_y : Obj) : unwinds (cell3 lib train_x train_y).
Proof.
  unfold cell3, method, getattr.
  do 6 (apply unwinds_bind; [apply unwinds_invoke|intros ?]).
  apply unwinds_bind; [apply unwinds_init_body|intros ?]. unwinds_calls.
Qed.

Lemma unwinds_training_iteration (optimizer model mll train_x train_y : Obj) (i : nat) :
  unwinds (training_iteration lib optimizer model mll train_x train_y i).
Proof. unfold training_iteration, method, call_object, getattr, getitem. unwinds_calls. Qed.

Lemma unhandled_cell4 (likelihood model train_x train_y : Obj) :
  no_suppress lib truthy → unhandled (cell4 lib truthy likelihood model train_x train_y).
Proof.
  intros Hex. unfold cell4, method.
  do 6 (apply unhandled_bind; [apply unhandled_unwinds, unwinds_invoke|intros ?]).
  apply unhandled_with; [done|]. apply unwinds_loop_range. intros i.
  apply unwinds_training_iteration.
Qed.

Lemma unwinds_plot (y_labels : Obj) (title : string) : unwinds (plot lib y_labels title).
Proof. unfold plot, ax_plot, method. unwinds_calls. Qed.

Lemma unwinds_cell5 (likelihood model : Obj) : unwinds (cell5 lib likelihood model).
Proof.
  unfold cell5, method, call_object, getattr, getitem, setitem.
  unwinds_calls; first [apply unwinds_target_expression|apply unwinds_plot].
Qed.

Lemma unhandled_notebook : no_suppress lib truthy → unhandled (notebook lib truthy).
Proof.
  intros Hex. unfold notebook.
  apply unhandled_bind; [apply unhandled_unwinds, unwinds_cell2|intros [train_x train_y]].
  apply unhandled_bind; [apply unhandled_unwinds, unwinds_cell3|intros [likelihood model]].
  apply unhandled_bind; [by apply unhandled_cell4|intros _].
  apply unhandled_unwinds, unwinds_cell5.
Qed.

(** C6.  The notebook has no handler of its own.  For a library whose
    context managers do not swallow exceptions, every run of the cells adds a
    segment [t] to the log such that: if a call raised, the notebook ends in
    an exception; no call follows the first call that raised, except the
    [__exit__] of the enclosing [with] block; and the exception the notebook
    ends in is the one that call raised (or the one [__exit__] raised in
    turn).  If the notebook returned, no call raised.  The same holds of
    [forward], which the library calls back: it ends at the first call that
    raises, with that exception. *)
Theorem exceptions_propagate (Hex : no_suppress lib truthy) (w : world Obj Exn LibState) :
  (∃ t, log (notebook lib truthy w).2 = log w ++ t
        ∧ propagated (notebook lib truthy w).1 t
        ∧ (all_returned t = false → ∃ e, (notebook lib truthy w).1 = Raised e)
        ∧ (is_returned (notebook lib truthy w).1 = true → all_returned t = true))
  ∧ (∀ self x : Obj, unwinds (forward_body lib self x)).
Proof.
  split; [|apply unwinds_forward_body].
  destruct (unhandled_notebook Hex w) as (t & Hlog & H). exists t.
  split; [done|]. split; [done|].
  destruct (notebook lib truthy w).1 as [o|e]; simpl in *.
  - split; [congruence|done].
  - split; [by exists e|done].
Qed.

(* ------------------------------------------------------------------ *)
(** ** Runs that raise                                                  *)
(* ------------------------------------------------------------------ *)

Lemma traces_ret {A : Type} (a : A) (QR : A → segment → Prop) (QE : Exn → segment → Prop) :
  QR a [] → traces (mret a : code A) QR QE.
Proof. intros HQ w. exists []. split; [by rewrite app_nil_r|done]. Qed.

Lemma traces_invoke (f : string) (a : list (arg Obj Exn)) :
  traces (invoke lib f a)
    (λ o t, t = [(Call f a, Returned o)]) (λ e t, t = [(Call f a, Raised e)]).
Proof.
  intros w. eexists. split; [reflexivity|]. unfold invoke. cbn [fst snd].
  by destruct (lib (Call f a) (lib_state w)) as [[o|e] s].
Qed.

Lemma traces_bind {A B : Type} (m : code A) (k : A → code B)
    (QR1 : A → segment → Prop) (QE1 : Exn → segment → Prop)
    (QR2 : A → B → segment → Prop) (QE2 : A → Exn → segment → Prop) :
  traces m QR1 QE1 → (∀ a, traces (k a) (QR2 a) (QE2 a)) →
  traces (m ≫= k)
    (λ b t, ∃ a t1 t2, t = t1 ++ t2 ∧ QR1 a t1 ∧ QR2 a b t2)
    (λ e t, QE1 e t ∨ ∃ a t1 t2, t = t1 ++ t2 ∧ QR1 a t1 ∧ QE2 a e t2).
Proof.
  intros Hm Hk w. unfold mbind, py_bind.
  destruct (Hm w) as (t1 & Hlog1 & H1).
  destruct (m w) as [[a|e] w1]; cbn [fst snd] in *.
  - destruct (Hk a w1) as (t2 & Hlog2 & H2). exists (t1 ++ t2).
    split; [by rewrite Hlog2, Hlog1, app_assoc|].
    destruct (k a w1).1 as [b|e]; [by exists a, t1, t2|right; by exists a, t1, t2].
  - exists t1. split; [done|]. by left.
Qed.

Lemma traces_weaken {A : Type} (m : code A)
    (QR QR' : A → segment → Prop) (QE QE' : Exn → segment → Prop) :
  traces m QR QE → (∀ a t, QR a t → QR' a t) → (∀ e t, QE e t → QE' e t) →
  traces m QR' QE'.
Proof.
  intros Hm HR HE w. destruct (Hm w) as (t & Hlog & H). exists t. split; [done|].
  destruct (m w).1; auto.
Qed.

(** A loop that raises has completed the passes before the one that raised. *)
Lemma traces_loop_from (body : nat → code ())
    (QR : nat → segment → Prop) (QE : nat → Exn → segment → Prop) (count : nat) :
  (∀ i, traces (body i) (λ _ t, QR i t) (QE i)) →
  ∀ start, traces (loop_from start count body)
    (λ _ t, ∃ passes : list segment,
       t = concat passes ∧ length passes = count
       ∧ ∀ i pass, passes !! i = Some pass → QR (start + i) pass)
    (λ e t, ∃ (passes : list segment) (last : segment),
       t = concat passes ++ last ∧ length passes < count
       ∧ (∀ i pass, passes !! i = Some pass → QR (start + i) pass)
       ∧ QE (start + length passes) e last).
Proof.
  intros Hbody. induction count as [|count IH]; intros start.
  - apply traces_ret. exists []. by repeat split.
  - simpl. eapply traces_weaken;
      [apply traces_bind; [apply Hbody|intros u; apply (IH (S start))]|..].
    + intros u t (u' & t1 & t2 & -> & H1 & passes & -> & Hlen & Hp).
      exists (t1 :: passes). repeat split; [simpl; lia|].
      intros [|i] pass; simpl.
      * intros [= <-]. by rewrite Nat.add_0_r.
      * intros Hi. replace (start + S i) with (S start + i) by lia. by apply Hp.
    + intros e t [He|(u & t1 & t2 & -> & H1 & passes & last & -> & Hlen & Hp & He)].
      * exists [], t. split; [done|]. split; [simpl; lia|]. split; [done|].
        simpl. by rewrite Nat.add_0_r.
      * exists (t1 :: passes), last. split; [simpl; by rewrite <- app_assoc|].
        split; [simpl; lia|]. split.
        -- intros [|i] pass; simpl.
           ++ intros [= <-]. by rewrite Nat.add_0_r.
           ++ intros Hi. replace (start + S i) with (S start + i) by lia. by apply Hp.
        -- simpl. by replace (start + S (length passes)) with (S start + length passes) by lia.
Qed.

Lemma traces_loop_range (body : nat → code ())
    (QR : nat → segment → Prop) (QE : nat → Exn → segment → Prop) (n : nat) :
  (∀ i, traces (body i) (λ _ t, QR i t) (QE i)) →
  traces (loop_range n body)
    (λ _ t, ∃ passes : list segment,
       t = concat passes ∧ length passes = n
       ∧ ∀ i pass, passes !! i = Some pass → QR i pass)
    (λ e t, ∃ (passes : list segment) (last : segment),
       t = concat passes ++ last ∧ length passes < n
       ∧ (∀ i pass, passes !! i = Some pass → QR i pass)
       ∧ QE (length passes) e last).
Proof. intros Hbody. by apply (traces_loop_from body QR QE n Hbody 0). Qed.

(** Segments that end in the call that raised. *)
Lemma broken_one (c : call Obj Exn) (e : Exn) : broken e [(c, Raised e)].
Proof. by exists [], c. Qed.

Lemma broken_cons (c : call Obj Exn) (o : Obj) (e : Exn) (t : segment) :
  broken e t → broken e ((c, Returned o) :: t).
Proof. intros (t0 & c' & -> & H0). by exists ((c, Returned o) :: t0), c'. Qed.

Lemma broken_app (e : Exn) (t1 t2 : segment) :
  all_returned t1 = true → broken e t2 → broken e (t1 ++ t2).
Proof.
  intros H1 (t0 & c & -> & H0). exists (t1 ++ t0), c. split; [by rewrite app_assoc|].
  rewrite all_returned_app. by rewrite H1, H0.
Qed.

(** Counting calls. *)
Lemma completed_app (f : string) (t1 t2 : segment) :
  completed f (t1 ++ t2) = completed f t1 + completed f t2.
Proof. unfold completed. by rewrite List.filter_app, length_app. Qed.

Lemma count_calls_app (f : string) (t1 t2 : segment) :
  count_calls f (t1 ++ t2) = count_calls f t1 + count_calls f t2.
Proof. unfold count_calls. by rewrite List.filter_app, length_app. Qed.

Lemma completed_concat (f : string) (c : nat) (passes : list segment) :
  (∀ i pass, passes !! i = Some pass → completed f pass = c) →
  completed f (concat passes) = length passes * c.
Proof.
  induction passes as [|p passes IH]; intros Hp; [done|].
  simpl. rewrite completed_app, (Hp 0 p eq_refl), IH; [lia|].
  intros i pass Hi. by apply (Hp (S i)).
Qed.

Lemma count_calls_concat (f : string) (c : nat) (passes : list segment) :
  (∀ i pass, passes !! i = Some pass → count_calls f pass = c) →
  count_calls f (concat passes) = length passes * c.
Proof.
  induction passes as [|p passes IH]; intros Hp; [done|].
  simpl. rewrite count_calls_app, (Hp 0 p eq_refl), IH; [lia|].
  intros i pass Hi. by apply (Hp (S i)).
Qed.

Lemma length_concat_uniform (c : nat) (passes : list segment) :
  (∀ i pass, passes !! i = Some pass → length pass = c) →
  length (concat passes) = length passes * c.
Proof.
  induction passes as [|p passes IH]; intros Hp; [done|].
  simpl. rewrite length_app, (Hp 0 p eq_refl), IH; [lia|].
  intros i pass Hi. by apply (Hp (S i)).
Qed.

Lemma all_returned_concat (passes : list segment) :
  (∀ i pass, passes !! i = Some pass → all_returned pass = true) →
  all_returned (concat passes) = true.
Proof.
  induction passes as [|p passes IH]; intros Hp; [done|].
  simpl. rewrite all_returned_app, (Hp 0 p eq_refl), IH; [done|].
  intros i pass Hi. by apply (Hp (S i)).
Qed.

(** A straight line of calls: its log when it returns, and when it raises. *)
Ltac traces_calls :=
  repeat first
    [ eapply traces_bind; [apply traces_invoke|intros ?]
    | apply traces_invoke
    | apply (traces_ret () (λ _ t, t = []) (λ _ _, False)); reflexivity ].

Ltac open_log H :=
  cbv beta in H;
  repeat match goal with
         | H : ∃ _, _ |- _ => destruct H as [? H]
         | H : _ ∧ _ |- _ => destruct H as [? H]
         | H : _ ∨ _ |- _ => destruct H as [H|H]
         | H : False |- _ => destruct H
         end;
  subst.

(** X12.  [ax_plot(f, ax, y_labels, title)]: it shows [y_labels] on [ax],
    titles [ax], and draws on figure [f] the colorbar of the image that
    [imshow] returned, in this order; it stops at the first of the three
    calls that raises, with that exception, and returns only when all three
    returned. *)
Theorem ax_plot_calls (f ax y_labels : Obj) (title : string) (w : world Obj Exn LibState) :
  ∃ t, log (ax_plot lib f ax y_labels title w).2 = log w ++ t
       ∧ ax_plot_log f ax y_labels title (ax_plot lib f ax y_labels title w).1 t.
Proof.
  assert (H : traces (ax_plot lib f ax y_labels title)
                (λ u t, ax_plot_log f ax y_labels title (Returned u) t)
                (λ e t, ax_plot_log f ax y_labels title (Raised e) t)).
  { unfold ax_plot, method. eapply traces_weaken; [traces_calls|..].
    - intros u t Ht. open_log Ht. by eexists _, _, _.
    - intros e t Ht. open_log Ht; simpl; eauto. }
  destruct (H w) as (t & Hlog & Ht). exists t. split; [done|].
  by destruct (ax_plot lib f ax y_labels title w).1.
Qed.

(** One pass of the training loop, for each way it ends. *)
Lemma training_iteration_traces (optimizer model mll train_x train_y : Obj) (i : nat) :
  traces (training_iteration lib optimizer model mll train_x train_y i)
    (λ _ t, iteration_log optimizer model mll train_x train_y i t)
    (λ e t, broken_pass e t).
Proof.
  unfold training_iteration, method, call_object, getattr, getitem.
  eapply traces_weaken; [traces_calls|..].
  - intros u t Ht. open_log Ht. unfold iteration_log. do 10 eexists. simpl.
    rewrite Nat2Z.inj_add. reflexivity.
  - intros e t Ht. open_log Ht.
    all: split; [simpl; repeat apply broken_cons; apply broken_one|].
    all: split; [eexists; reflexivity|reflexivity].
Qed.

Lemma iteration_log_counts (optimizer model mll train_x train_y : Obj) (i : nat)
    (t : segment) :
  iteration_log optimizer model mll train_x train_y i t →
  all_returned t = true ∧ completed "step" t = 1 ∧ length t = 10.
Proof. intros Ht. unfold iteration_log in Ht. open_log Ht. by repeat split. Qed.

(** X13.  The training loop when a call raises.  Every run of the loop adds
    a segment to the log; if the loop returned, all 20 optimizer steps
    completed; if it raised [e], it had completed the passes before the one
    that raised (fewer than 20, each a whole pass in the order of the loop
    body), the failing pass made the first calls of a pass in order up to the
    call that raised [e], no call followed, and the optimizer completed as
    many steps as there were whole passes. *)
Theorem training_loop_failure (optimizer model mll train_x train_y : Obj)
    (w : world Obj Exn LibState) :
  ∃ t,
    log (loop_range num_iter
           (training_iteration lib optimizer model mll train_x train_y) w).2
    = log w ++ t
    ∧ match (loop_range num_iter
               (training_iteration lib optimizer model mll train_x train_y) w).1 with
      | Returned _ => all_returned t = true ∧ completed "step" t = 20
      | Raised e =>
        ∃ (passes : list segment) (last : segment),
          t = concat passes ++ last
          ∧ length passes < 20
          ∧ (∀ i pass, passes !! i = Some pass →
               iteration_log optimizer model mll train_x train_y i pass)
          ∧ broken_pass e last
          ∧ completed "step" t = length passes
      end.
Proof.
  destruct (traces_loop_range _ _ _ num_iter
              (training_iteration_traces optimizer model mll train_x train_y) w)
    as (t & Hlog & Ht).
  exists t. split; [done|].
  destruct (loop_range num_iter _ w).1 as [u|e].
  - destruct Ht as (passes & -> & Hlen & Hp). split.
    + apply all_returned_concat. intros i pass Hi.
      by destruct (iteration_log_counts _ _ _ _ _ _ _ (Hp i pass Hi)).
    + rewrite (completed_concat "step" 1); [unfold num_iter in Hlen; lia|].
      intros i pass Hi. by destruct (iteration_log_counts _ _ _ _ _ _ _ (Hp i pass Hi)) as (_ & ? & _).
  - destruct Ht as (passes & last & -> & Hlen & Hp & Hlast).
    exists passes, last. split; [done|]. split; [exact Hlen|]. split; [done|].
    split; [done|]. rewrite completed_app, (completed_concat "step" 1).
    + destruct Hlast as (_ & _ & ->). lia.
    + intros i pass Hi. by destruct (iteration_log_counts _ _ _ _ _ _ _ (Hp i pass Hi)) as (_ & ? & _).
Qed.

(** X14.  [forward(self, x)] as calls: it reads and calls the mean module,
    reads and calls the covariance module, takes [exp] of the parameter it
    reads, multiplies the covariance by it and builds the
    [GaussianRandomVariable] from the mean and the scaled covariance, which
    is its value; it stops at the first call that raises, with that
    exception. *)
Theorem forward_calls (self x : Obj) (w : world Obj Exn LibState) :
  ∃ t, log (forward_body lib self x w).2 = log w ++ t
       ∧ match (forward_body lib self x w).1 with
         | Returned d => forward_log self x d t
         | Raised e => broken e t ∧ names t `prefix_of` forward_names
         end.
Proof.
  assert (H : traces (forward_body lib self x)
                (λ d t, forward_log self x d t)
                (λ e t, broken e t ∧ names t `prefix_of` forward_names)).
  { unfold forward_body, method, call_object, getattr.
    eapply traces_weaken; [traces_calls|..].
    - intros d t Ht. open_log Ht. unfold forward_log. by do 7 eexists.
    - intros e t Ht. open_log Ht.
      all: split; [simpl; repeat apply broken_cons; apply broken_one|].
      all: eexists; reflexivity. }
  exact (H w).
Qed.

(** X15.  [__init__] as calls.  In every run its first call is the
    constructor of the base class, on [self] and the three arguments.  When
    no call raises it then sets [mean_module], [base_covar_module] and
    [covar_module] in this order, builds the additive kernel over the object
    it reads back from [self.base_covar_module] (with [grid_size=400],
    [grid_bounds=[(0, 1)]], [n_components=2]), and registers the parameter
    of [torch.Tensor([0])] as [log_outputscale] last.  It stops at the first
    call that raises. *)
Theorem init_calls (self train_x train_y likelihood : Obj) (w : world Obj Exn LibState) :
  ∃ t, log (init_body lib self train_x train_y likelihood w).2 = log w ++ t
       ∧ (∃ r t', t = (Call "ExactGP.__init__"
                         [Ob self; Ob train_x; Ob train_y; Ob likelihood], r) :: t')
       ∧ match (init_body lib self train_x train_y likelihood w).1 with
         | Returned _ => init_log self train_x train_y likelihood t
         | Raised e => broken e t ∧ names t `prefix_of` init_names
         end.
Proof.
  assert (H : traces (init_body lib self train_x train_y likelihood)
                (λ _ t, init_log self train_x train_y likelihood t)
                (λ e t, (broken e t ∧ names t `prefix_of` init_names)
                        ∧ ∃ r t', t = (Call "ExactGP.__init__"
                                         [Ob self; Ob train_x; Ob train_y; Ob likelihood], r)
                                      :: t')).
  { unfold init_body, method, getattr, setattr.
    eapply traces_weaken; [traces_calls|..].
    - intros u t Ht. open_log Ht. unfold init_log. by do 11 eexists.
    - intros e t Ht. open_log Ht.
      all: split; [split; [simpl; repeat apply broken_cons; apply broken_one
                          |eexists; reflexivity]
                  |by eexists _, _]. }
  destruct (H w) as (t & Hlog & Ht). exists t. split; [done|].
  destruct (init_body lib self train_x train_y likelihood w).1 as [u|e].
  - split; [|done]. unfold init_log in Ht. open_log Ht. by eexists _, _.
  - destruct Ht as [? ?]. by split.
Qed.

(* ------------------------------------------------------------------ *)
(** ** What a cell never calls                                          *)
(* ------------------------------------------------------------------ *)

Lemma calls_only_app (P : string → bool) (t1 t2 : segment) :
  calls_only P (t1 ++ t2) = calls_only P t1 && calls_only P t2.
Proof. unfold calls_only, names. by rewrite map_app, forallb_app. Qed.

Lemma calls_only_count (P : string → bool) (f : string) (t : segment) :
  calls_only P t = true → P f = false →
  count_calls f t = 0 ∧ completed f t = 0.
Proof.
  unfold calls_only, names, count_calls, completed. intros Ht Hf.
  induction t as [|[c r] t IH]; [done|].
  simpl in Ht. apply andb_prop in Ht as [Hc Ht]. destruct (IH Ht) as [IH1 IH2].
  simpl. destruct (String.eqb (callee c) f) eqn:E.
  - apply String.eqb_eq in E. congruence.
  - by simpl.
Qed.

Lemma only_calls_ret {A : Type} (P : string → bool) (a : A) : only_calls P (mret a : code A).
Proof. intros w. exists []. split; [by rewrite app_nil_r|done]. Qed.

Lemma only_calls_invoke (P : string → bool) (f : string) (a : list (arg Obj Exn)) :
  P f = true → only_calls P (invoke lib f a).
Proof.
  intros Hf w. eexists. split; [reflexivity|].
  unfold calls_only, names. simpl. by rewrite Hf.
Qed.

Lemma only_calls_bind {A B : Type} (P : string → bool) (m : code A) (k : A → code B) :
  only_calls P m → (∀ a, only_calls P (k a)) → only_calls P (m ≫= k).
Proof.
  intros Hm Hk w. unfold mbind, py_bind.
  destruct (Hm w) as (t1 & Hlog1 & H1).
  destruct (m w) as [[a|e] w1]; cbn [fst snd] in *; [|by exists t1].
  destruct (Hk a w1) as (t2 & Hlog2 & H2). exists (t1 ++ t2).
  split; [by rewrite Hlog2, Hlog1, app_assoc|].
  rewrite calls_only_app. by rewrite H1, H2.
Qed.

Lemma only_calls_loop_from (P : string → bool) (body : nat → code ()) (count : nat) :
  (∀ i, only_calls P (body i)) → ∀ start, only_calls P (loop_from start count body).
Proof.
  intros Hbody. induction count as [|count IH]; intros start; simpl.
  - apply only_calls_ret.
  - apply only_calls_bind; [apply Hbody|intros _; apply IH].
Qed.

Lemma only_calls_loop_range (P : string → bool) (body : nat → code ()) (n : nat) :
  (∀ i, only_calls P (body i)) → only_calls P (loop_range n body).
Proof. intros Hbody. by apply only_calls_loop_from. Qed.

Lemma only_calls_with (P : string → bool) (mgr : Obj) (body : code ()) :
  P "__enter__" = true → P "__exit__" = true → only_calls P body →
  only_calls P (with_ lib truthy mgr body).
Proof.
  intros Henter Hexit Hbody w. unfold with_.
  destruct (only_calls_invoke P "__enter__" [Ob mgr] Henter w) as (t1 & Hlog1 & H1).
  destruct (invoke lib "__enter__" [Ob mgr] w) as [[r1|e] w1]; cbn [fst snd] in *;
    [|by exists t1].
  destruct (Hbody w1) as (tb & Hlogb & Hb).
  destruct (body w1) as [[[]|e] w2]; cbn [fst snd] in *.
  - destruct (only_calls_invoke P "__exit__" [Ob mgr; PyNone] Hexit w2) as (t3 & Hlog3 & H3).
    exists (t1 ++ tb ++ t3).
    split; [|rewrite !calls_only_app; by rewrite H1, Hb, H3].
    destruct (invoke lib "__exit__" [Ob mgr; PyNone] w2) as [[r2|e] w3]; cbn [fst snd] in *;
      by rewrite Hlog3, Hlogb, Hlog1, <- !app_assoc.
  - destruct (only_calls_invoke P "__exit__" [Ob mgr; Exc e] Hexit w2) as (t3 & Hlog3 & H3).
    exists (t1 ++ tb ++ t3).
    split; [|rewrite !calls_only_app; by rewrite H1, Hb, H3].
    destruct (invoke lib "__exit__" [Ob mgr; Exc e] w2) as [[r2|e'] w3]; cbn [fst snd] in *;
      [destruct (truthy r2)|]; cbn [fst snd]; by rewrite Hlog3, Hlogb, Hlog1, <- !app_assoc.
Qed.

Ltac only_calls_of_cell :=
  repeat first
    [ apply only_calls_invoke; reflexivity
    | apply only_calls_ret
    | apply only_calls_loop_range; intros ?
    | apply only_calls_with; [reflexivity|reflexivity|]
    | apply only_calls_bind; [|intros ?] ].

Lemma only_calls_target_expression (P : string → bool) (x : Obj) :
  P "getattr" = true → P "__getitem__" = true → P "torch.sin" = true →
  P "torch.cos" = true → P "__add__" = true → P "__mul__" = true →
  only_calls P (target_expression lib x).
Proof.
  intros. unfold target_expression, method, getattr, getitem.
  repeat first [apply only_calls_invoke; assumption | apply only_calls_bind; [|intros ?]].
Qed.

Lemma cell5_never_trains (likelihood model : Obj) :
  only_calls not_a_training_call (cell5 lib likelihood model).
Proof.
  unfold cell5, plot, ax_plot, method, call_object, getattr, getitem, setitem.
  do 5 (apply only_calls_bind; [apply only_calls_invoke; reflexivity|intros ?]).
  apply only_calls_bind; [only_calls_of_cell|intros ?].
  do 7 (apply only_calls_bind; [apply only_calls_invoke; reflexivity|intros ?]).
  apply only_calls_bind; [by apply only_calls_target_expression|intros ?].
  only_calls_of_cell.
Qed.

Lemma cell4_never_evaluates (likelihood model train_x train_y : Obj) :
  only_calls not_eval (cell4 lib truthy likelihood model train_x train_y).
Proof.
  unfold cell4, method.
  do 6 (apply only_calls_bind; [apply only_calls_invoke; reflexivity|intros ?]).
  apply only_calls_with; [reflexivity..|]. apply only_calls_loop_range. intros i.
  unfold training_iteration, method, call_object, getattr, getitem. only_calls_of_cell.
Qed.

(** X16.  Training and evaluation keep apart.  In no run does the
    evaluation cell call [zero_grad], [backward], [step] or [train], set an
    attribute or register a parameter; and in no run does the training cell
    call [eval]. *)
Theorem evaluation_never_trains (likelihood model train_x train_y : Obj)
    (w : world Obj Exn LibState) :
  (∃ t, log (cell5 lib likelihood model w).2 = log w ++ t
        ∧ count_calls "zero_grad" t = 0 ∧ count_calls "backward" t = 0
        ∧ count_calls "step" t = 0 ∧ count_calls "train" t = 0
        ∧ count_calls "setattr" t = 0 ∧ count_calls "register_parameter" t = 0)
  ∧ (∃ t, log (cell4 lib truthy likelihood model train_x train_y w).2 = log w ++ t
          ∧ count_calls "eval" t = 0).
Proof.
  split.
  - destruct (cell5_never_trains likelihood model w) as (t & Hlog & Ht).
    exists t. split; [done|].
    repeat split; by apply (calls_only_count not_a_training_call).
  - destruct (cell4_never_evaluates likelihood model train_x train_y w) as (t & Hlog & Ht).
    exists t. split; [done|]. by apply (calls_only_count not_eval).
Qed.

(* ------------------------------------------------------------------ *)
(** ** The [with] block of cell 4                                       *)
(* ------------------------------------------------------------------ *)

Lemma with_block_shape (mgr : Obj) (body : code ()) :
  only_calls not_a_block_call body →
  ∀ w, ∃ t, log (with_ lib truthy mgr body w).2 = log w ++ t
            ∧ ((∃ e, t = [(Call "__enter__" [Ob mgr], Raised e)])
               ∨ ∃ r tb a x,
                   t = (Call "__enter__" [Ob mgr], Returned r) :: tb
                       ++ [(Call "__exit__" [Ob mgr; a], x)]
                   ∧ calls_only not_a_block_call tb = true).
Proof.
  intros Hbody w. unfold with_.
  destruct (traces_invoke "__enter__" [Ob mgr] w) as (t1 & Hlog1 & H1).
  destruct (invoke lib "__enter__" [Ob mgr] w) as [[r1|e] w1]; cbn [fst snd] in *; subst t1.
  2: { eexists. split; [done|]. left. by exists e. }
  destruct (Hbody w1) as (tb & Hlogb & Hb).
  destruct (body w1) as [[[]|e] w2]; cbn [fst snd] in *.
  - exists ([(Call "__enter__" [Ob mgr], Returned r1)] ++ tb
            ++ [(Call "__exit__" [Ob mgr; PyNone],
                 (lib (Call "__exit__" [Ob mgr; PyNone]) (lib_state w2)).1)]).
    split; [|right; by eexists _, _, _, _].
    unfold invoke. cbn [fst snd].
    destruct (lib (Call "__exit__" [Ob mgr; PyNone]) (lib_state w2)).1; cbn [fst snd];
      by rewrite Hlogb, Hlog1, <- !app_assoc.
  - exists ([(Call "__enter__" [Ob mgr], Returned r1)] ++ tb
            ++ [(Call "__exit__" [Ob mgr; Exc e],
                 (lib (Call "__exit__" [Ob mgr; Exc e]) (lib_state w2)).1)]).
    split; [|right; by eexists _, _, _, _].
    unfold invoke. cbn [fst snd].
    destruct (lib (Call "__exit__" [Ob mgr; Exc e]) (lib_state w2)).1 as [r2|e'];
      [destruct (truthy r2)|]; cbn [fst snd]; by rewrite Hlogb, Hlog1, <- !app_assoc.
Qed.

Lemma block_shape_prefix (t1 t2 : segment) :
  calls_only not_a_block_call t1 = true →
  entered_and_left t2 ∨ never_entered t2 →
  entered_and_left (t1 ++ t2) ∨ never_entered (t1 ++ t2).
Proof.
  intros H1 [(t0 & mgr & r & tb & a & x & -> & H0 & Hb)
            |[H2|(t0 & mgr & e & -> & H0)]].
  - left. exists (t1 ++ t0), mgr, r, tb, a, x. split; [by rewrite <- app_assoc|].
    split; [|done]. rewrite calls_only_app. by rewrite H1, H0.
  - right. left. rewrite calls_only_app. by rewrite H1, H2.
  - right. right. exists (t1 ++ t0), mgr, e. split; [by rewrite <- app_assoc|].
    rewrite calls_only_app. by rewrite H1, H0.
Qed.

Lemma block_shape_bind {A B : Type} (m : code A) (k : A → code B) :
  only_calls not_a_block_call m →
  (∀ a w, ∃ t, log (k a w).2 = log w ++ t ∧ (entered_and_left t ∨ never_entered t)) →
  ∀ w, ∃ t, log ((m ≫= k) w).2 = log w ++ t ∧ (entered_and_left t ∨ never_entered t).
Proof.
  intros Hm Hk w. unfold mbind, py_bind.
  destruct (Hm w) as (t1 & Hlog1 & H1).
  destruct (m w) as [[a|e] w1]; cbn [fst snd] in *.
  - destruct (Hk a w1) as (t2 & Hlog2 & H2). exists (t1 ++ t2).
    split; [by rewrite Hlog2, Hlog1, app_assoc|]. by apply block_shape_prefix.
  - exists t1. split; [done|]. right. by left.
Qed.

Lemma block_shape_counts (t : segment) :
  entered_and_left t ∨ never_entered t →
  count_calls "__exit__" t = completed "__enter__" t ∧ completed "__enter__" t ≤ 1.
Proof.
  assert (Hnone : ∀ t' : segment, calls_only not_a_block_call t' = true →
            count_calls "__exit__" t' = 0 ∧ completed "__enter__" t' = 0).
  { intros t' Ht'. split; by apply (calls_only_count not_a_block_call). }
  intros [(t0 & mgr & r & tb & a & x & -> & [H0 H0']%Hnone & [Hb Hb']%Hnone)
         |[[H H']%Hnone|(t0 & mgr & e & -> & [H0 H0']%Hnone)]].
  - rewrite count_calls_app, completed_app, H0, H0'.
    change ((?c, ?r) :: tb ++ ?l) with ([(c, r)] ++ tb ++ l).
    rewrite !count_calls_app, !completed_app, Hb, Hb'. simpl.
    unfold count_calls, completed. destruct x; simpl; lia.
  - lia.
  - rewrite count_calls_app, completed_app, H0, H0'.
    unfold count_calls, completed. simpl. lia.
Qed.

(** X17.  The [with] block of the training cell always leaves what it
    entered.  Every run of cell 4 either never enters the block (a set-up
    call or [__enter__] raised: no [__exit__] is called), or enters it once
    and ends in the one [__exit__] call of the manager it entered, whether
    the loop returned or raised.  So [__exit__] is called exactly as often
    as [__enter__] returned, at most once. *)
Theorem with_block_always_exits (likelihood model train_x train_y : Obj)
    (w : world Obj Exn LibState) :
  ∃ t, log (cell4 lib truthy likelihood model train_x train_y w).2 = log w ++ t
       ∧ (entered_and_left t ∨ never_entered t)
       ∧ count_calls "__exit__" t = completed "__enter__" t
       ∧ completed "__enter__" t ≤ 1.
Proof.
  assert (H : ∀ w, ∃ t,
            log (cell4 lib truthy likelihood model train_x train_y w).2 = log w ++ t
            ∧ (entered_and_left t ∨ never_entered t)).
  { unfold cell4, method.
    apply block_shape_bind; [apply only_calls_invoke; reflexivity|intros r1].
    apply block_shape_bind; [apply only_calls_invoke; reflexivity|intros r2].
    apply block_shape_bind; [apply only_calls_invoke; reflexivity|intros params].
    apply block_shape_bind; [apply only_calls_invoke; reflexivity|intros optimizer].
    apply block_shape_bind; [apply only_calls_invoke; reflexivity|intros mll].
    apply block_shape_bind; [apply only_calls_invoke; reflexivity|intros mgr].
    intros w'.
    destruct (with_block_shape mgr
                (loop_range num_iter
                   (training_iteration lib optimizer model mll train_x train_y)))
      with (w := w') as (t & Hlog & Ht).
    - apply only_calls_loop_range. intros i.
      unfold training_iteration, method, call_object, getattr, getitem. only_calls_of_cell.
    - exists t. split; [done|].
      destruct Ht as [[e ->]|(r & tb & a' & x & -> & Hb)].
      + right. right. by exists [], mgr, e.
      + left. by exists [], mgr, r, tb, a', x. }
  destruct (H w) as (t & Hlog & Ht). exists t. split; [done|]. split; [done|].
  by apply block_shape_counts.
Qed.

(* ------------------------------------------------------------------ *)
(** ** The logs of cells 2, 3 and 5 and of the notebook                 *)
(* ------------------------------------------------------------------ *)

Ltac open_returned H :=
  cbv beta in H;
  repeat match goal with
         | H : ∃ _, _ |- _ => destruct H as [? H]
         | H : _ ∧ _ |- _ => destruct H as [? H]
         end;
  subst.

Lemma target_expression_returns (x : Obj) :
  returns (target_expression lib x) (λ y t, target_log x y t).
Proof.
  unfold target_expression, method, getattr, getitem.
  eapply returns_weaken; [returns_calls|].
  intros y t Ht. open_returned Ht. unfold target_log. by do 7 eexists.
Qed.

Lemma plot_returns (y_labels : Obj) (title : string) :
  returns (plot lib y_labels title) (λ _ t, plot_log y_labels title t).
Proof.
  unfold plot, ax_plot, method.
  eapply returns_weaken; [returns_calls|].
  intros u t Ht. open_returned Ht. unfold plot_log. by do 6 eexists.
Qed.

Lemma init_body_returns (self train_x train_y likelihood : Obj) :
  returns (init_body lib self train_x train_y likelihood)
    (λ _ t, init_log self train_x train_y likelihood t).
Proof.
  unfold init_body, method, getattr, setattr.
  eapply returns_weaken; [returns_calls|].
  intros u t Ht. open_returned Ht. unfold init_log. by do 11 eexists.
Qed.

Lemma train_point_returns (train_x : Obj) (i j : nat) :
  returns (row ← getitem lib train_x (Int (Z.of_nat (i * 100 + j)));
           setitem lib row (Int 0) (Flt (INR i / IZR (Z.of_nat 100 - 1)));;
           row ← getitem lib train_x (Int (Z.of_nat (i * 100 + j)));
           setitem lib row (Int 1) (Flt (INR j / IZR (Z.of_nat 100 - 1)));;
           mret ())
    (λ _ t, train_point_log train_x i j t).
Proof.
  unfold getitem, setitem. eapply returns_weaken; [returns_calls|].
  intros u t Ht. open_returned Ht. unfold train_point_log. by do 4 eexists.
Qed.

Lemma test_point_returns (test_x : Obj) (i j : nat) :
  returns (d ← getattr lib test_x "data";
           row ← getitem lib d (Int (Z.of_nat (i * 10 + j)));
           setitem lib row (Int 0) (Flt (INR i / IZR (Z.of_nat 10 - 1)));;
           d ← getattr lib test_x "data";
           row ← getitem lib d (Int (Z.of_nat (i * 10 + j)));
           setitem lib row (Int 1) (Flt (INR j / IZR (Z.of_nat 10 - 1)));;
           mret ())
    (λ _ t, test_point_log test_x i j t).
Proof.
  unfold getattr, getitem, setitem. eapply returns_weaken; [returns_calls|].
  intros u t Ht. open_returned Ht. unfold test_point_log. by do 6 eexists.
Qed.

Lemma cell2_returns :
  returns (cell2 lib) (λ p t, cell2_log p.1 p.2 t).
Proof.
  unfold cell2, method. cbv zeta.
  eapply returns_weaken.
  - eapply returns_bind; [apply returns_invoke|intros x0].
    eapply returns_bind.
    { apply (returns_loop_range _ (λ i t, ∃ points : list segment,
               t = concat points ∧ length points = 100
               ∧ ∀ j p, points !! j = Some p → train_point_log x0 i j p)).
      intros i. apply (returns_loop_range _ (λ j t, train_point_log x0 i j t)).
      intros j. apply train_point_returns. }
    intros u.
    eapply returns_bind; [apply returns_invoke|intros v].
    eapply returns_bind; [apply returns_invoke|intros tx].
    eapply returns_bind; [apply target_expression_returns|intros y].
    eapply returns_bind; [apply returns_invoke|intros v'].
    eapply returns_bind; [apply returns_invoke|intros ty].
    apply (returns_ret (tx, ty) (λ p t, p = (tx, ty) ∧ t = [])). done.
  - intros p t Ht. cbv beta in Ht.
    destruct Ht as (x0 & t1 & t2 & -> & -> & u & t3 & t4 & -> & Hloop & Ht).
    destruct Hloop as (passes & -> & Hlen & Hpasses).
    open_returned Ht. cbn [fst snd].
    unfold cell2_log. eexists x0, passes, _, _, _, _.
    split; [|split; [done|split; [done|eassumption]]].
    change (Z.of_nat (100 ^ 2)) with 10000%Z. reflexivity.
Qed.

Lemma cell3_returns (train_x train_y : Obj) :
  returns (cell3 lib train_x train_y) (λ p t, cell3_log train_x train_y p.1 p.2 t).
Proof.
  unfold cell3, method, getattr.
  eapply returns_weaken.
  - eapply returns_bind; [apply returns_invoke|intros cls].
    eapply returns_bind; [apply returns_invoke|intros l].
    eapply returns_bind; [apply returns_invoke|intros likelihood].
    eapply returns_bind; [apply returns_invoke|intros tx].
    eapply returns_bind; [apply returns_invoke|intros ty].
    eapply returns_bind; [apply returns_invoke|intros self].
    eapply returns_bind; [apply init_body_returns|intros u].
    eapply returns_bind; [apply returns_invoke|intros model].
    apply (returns_ret (likelihood, model) (λ p t, p = (likelihood, model) ∧ t = [])).
    done.
  - intros p t Ht. open_returned Ht. cbn [fst snd].
    unfold cell3_log. do 6 eexists. split; [|eassumption]. reflexivity.
Qed.

Lemma cell5_returns (likelihood model : Obj) :
  returns (cell5 lib likelihood model) (λ d t, evaluation_log likelihood model d t).
Proof.
  unfold cell5, method, getattr, call_object. cbv zeta.
  eapply returns_weaken.
  - eapply returns_bind; [apply returns_invoke|intros r1].
    eapply returns_bind; [apply returns_invoke|intros r2].
    eapply returns_bind; [apply returns_invoke|intros z].
    eapply returns_bind; [apply returns_invoke|intros v].
    eapply returns_bind; [apply returns_invoke|intros test_x].
    eapply returns_bind.
    { apply (returns_loop_range _ (λ i t, ∃ points : list segment,
               t = concat points ∧ length points = 10
               ∧ ∀ j p, points !! j = Some p → test_point_log test_x i j p)).
      intros i. apply (returns_loop_range _ (λ j t, test_point_log test_x i j t)).
      intros j. apply test_point_returns. }
    intros u.
    eapply returns_bind; [apply returns_invoke|intros out].
    eapply returns_bind; [apply returns_invoke|intros observed_pred].
    eapply returns_bind; [apply returns_invoke|intros m1].
    eapply returns_bind; [apply returns_invoke|intros m2].
    eapply returns_bind; [apply returns_invoke|intros m3].
    eapply returns_bind; [apply returns_invoke|intros m4].
    eapply returns_bind; [apply returns_invoke|intros pred_labels].
    eapply returns_bind; [apply target_expression_returns|intros y].
    eapply returns_bind; [apply returns_invoke|intros y1].
    eapply returns_bind; [apply returns_invoke|intros y2].
    eapply returns_bind; [apply returns_invoke|intros test_y_actual].
    eapply returns_bind; [apply returns_invoke|intros diff].
    eapply returns_bind; [apply returns_invoke|intros delta_y].
    eapply returns_bind; [apply plot_returns|intros u1].
    eapply returns_bind; [apply plot_returns|intros u2].
    eapply returns_bind; [apply plot_returns|intros u3].
    apply (returns_ret delta_y (λ d t, d = delta_y ∧ t = [])). done.
  - intros d t Ht. cbv beta in Ht.
    destruct Ht as (r1 & t1 & ta & -> & -> & Ht).
    destruct Ht as (r2 & t1 & tb & -> & -> & Ht).
    destruct Ht as (z & t1 & tc & -> & -> & Ht).
    destruct Ht as (v & t1 & td & -> & -> & Ht).
    destruct Ht as (test_x & t1 & te & -> & -> & Ht).
    destruct Ht as (u & t1 & tf & -> & Hloop & Ht).
    destruct Hloop as (passes & -> & Hlen & Hpasses).
    open_returned Ht.
    unfold evaluation_log.
    eexists r1, r2, z, v, test_x, passes. do 16 eexists.
    split; [|split; [done|split; [done|]]].
    2: { split; [eassumption|]. split; [eassumption|]. split; eassumption. }
    change (Z.of_nat (10 ^ 2)) with 100%Z. change (Z.of_nat 10) with 10%Z.
    rewrite ?app_nil_r. reflexivity.
Qed.

Lemma train_point_counts (x0 : Obj) (i j : nat) (p : segment) :
  train_point_log x0 i j p →
  count_calls "__setitem__" p = 2 ∧ count_calls "cuda" p = 0.
Proof. intros (row & r1 & row' & r2 & ->). split; reflexivity. Qed.

Lemma test_point_counts (x : Obj) (i j : nat) (p : segment) :
  test_point_log x i j p →
  count_calls "__setitem__" p = 2 ∧ count_calls "cuda" p = 0.
Proof. intros (d & row & r1 & d' & row' & r2 & ->). split; reflexivity. Qed.

Lemma target_log_counts (x y : Obj) (t : segment) :
  target_log x y t → count_calls "__setitem__" t = 0 ∧ count_calls "cuda" t = 0.
Proof. intros (d & c0 & s & d' & c1 & c & sum & ->). split; reflexivity. Qed.

Lemma plot_log_counts (y : Obj) (title : string) (t : segment) :
  plot_log y title t → count_calls "__setitem__" t = 0 ∧ count_calls "cuda" t = 0.
Proof. intros (fa & f & ax & im & r1 & r2 & ->). split; reflexivity. Qed.

(** The passes of a pair of nested loops over [n] by [n] points, each point
    with [c] calls of [f]: [n * (n * c)] calls of [f]. *)
Lemma nested_counts (f : string) (c n : nat) (Q : nat → nat → segment → Prop)
    (passes : list segment) :
  (∀ i j p, Q i j p → count_calls f p = c) →
  length passes = n →
  (∀ i pass, passes !! i = Some pass →
     ∃ points : list segment,
       pass = concat points ∧ length points = n
       ∧ ∀ j p, points !! j = Some p → Q i j p) →
  count_calls f (concat passes) = n * (n * c).
Proof.
  intros HQ Hlen Hpasses.
  rewrite (count_calls_concat f (n * c) passes), Hlen; [done|].
  intros i pass Hi. destruct (Hpasses i pass Hi) as (points & -> & Hn & Hpoints).
  rewrite (count_calls_concat f c points), Hn; [done|].
  intros j p Hj. apply (HQ i j). by apply Hpoints.
Qed.

(** X18.  Cell 2 as calls, when no call raises: [torch.zeros(n ** 2, 2)],
    then for every [i] and every [j] in order the two item writes of point
    [(i, j)], then [Variable(...).cuda()], the target expression on the
    result and [Variable(...).cuda()] again.  All 20000 item writes come
    before the first [cuda] call: the training inputs are filled in on the
    host and moved afterwards. *)
Theorem training_inputs_filled_before_cuda :
  returns (cell2 lib) (λ p t,
    cell2_log p.1 p.2 t
    ∧ ∃ t1 t2, t = t1 ++ t2
        ∧ Z.of_nat (count_calls "__setitem__" t1) = 20000%Z
        ∧ count_calls "cuda" t1 = 0
        ∧ count_calls "__setitem__" t2 = 0).
Proof.
  eapply returns_weaken; [apply cell2_returns|].
  intros [train_x train_y] t Hlog. split; [exact Hlog|].
  cbn [fst snd] in Hlog.
  destruct Hlog as (x0 & passes & v & y & v' & ty_log & -> & Hlen & Hpasses & Hty).
  eexists (_ ++ concat passes), _. split; [by rewrite <- app_assoc|].
  destruct (target_log_counts _ _ _ Hty) as [Hty1 Hty2].
  rewrite !count_calls_app.
  rewrite (nested_counts "__setitem__" 2 100 (train_point_log x0) passes); [|
    intros i j p Hp; apply (train_point_counts _ _ _ _ Hp)|done|done].
  rewrite (nested_counts "cuda" 0 100 (train_point_log x0) passes); [|
    intros i j p Hp; apply (train_point_counts _ _ _ _ Hp)|done|done].
  rewrite Hty1. split; [|split]; reflexivity.
Qed.

(** X19.  Cell 5 as calls, when no call raises: [model.eval()] and
    [likelihood.eval()] first, then the test tensor, the predictions
    [likelihood(model(test_x))], their mean as a 10 by 10 array, the target
    expression on [test_x] as a 10 by 10 array, [numpy.absolute] of the
    difference, which is the value [delta_y], and the three figures in the
    order predicted, actual, error.  Unlike cell 2 the test tensor is moved
    with [cuda] before it is filled: the 200 item writes go through [.data]
    after the one [cuda] call. *)
Theorem test_inputs_filled_after_cuda (likelihood model : Obj) :
  returns (cell5 lib likelihood model) (λ delta_y t,
    evaluation_log likelihood model delta_y t
    ∧ ∃ t1 t2, t = t1 ++ t2
        ∧ count_calls "__setitem__" t1 = 0
        ∧ count_calls "cuda" t1 = 1
        ∧ count_calls "__setitem__" t2 = 200
        ∧ count_calls "cuda" t2 = 0).
Proof.
  eapply returns_weaken; [apply cell5_returns|].
  intros delta_y t Hlog. split; [exact Hlog|].
  destruct Hlog as (r1 & r2 & z & v & test_x & passes & out & observed_pred & m1 & m2
    & m3 & m4 & pred_labels & y & ty_log & y1 & y2 & test_y_actual & diff
    & plot1 & plot2 & plot3 & -> & Hlen & Hpasses & Hty & Hp1 & Hp2 & Hp3).
  eexists _, _. split; [reflexivity|].
  destruct (target_log_counts _ _ _ Hty) as [Hty1 Hty2].
  destruct (plot_log_counts _ _ _ Hp1) as [H11 H12].
  destruct (plot_log_counts _ _ _ Hp2) as [H21 H22].
  destruct (plot_log_counts _ _ _ Hp3) as [H31 H32].
  rewrite !count_calls_app.
  rewrite (nested_counts "__setitem__" 2 10 (test_point_log test_x) passes); [|
    intros i j p Hp; apply (test_point_counts _ _ _ _ Hp)|done|done].
  rewrite (nested_counts "cuda" 0 10 (test_point_log test_x) passes); [|
    intros i j p Hp; apply (test_point_counts _ _ _ _ Hp)|done|done].
  rewrite Hty1, Hty2, H11, H12, H21, H22, H31, H32.
  split; [|split; [|split]]; reflexivity.
Qed.

(** X20.  The cells as one run, when no call raises.  The log is the log of
    cell 2, then of cell 3, then of cell 4, then of cell 5, and the objects
    pass from one to the next: the model of cell 3 is built on the [.data]
    of the tensors of cell 2, cell 4 trains that model and likelihood on
    those tensors, and cell 5 evaluates the same two objects; the value of
    the run is the error surface of cell 5. *)
Theorem notebook_cells_in_order :
  returns (notebook lib truthy) (λ delta_y t,
    ∃ train_x train_y likelihood model t2 t3 t4 t5,
      t = t2 ++ t3 ++ t4 ++ t5
      ∧ cell2_log train_x train_y t2
      ∧ cell3_log train_x train_y likelihood model t3
      ∧ training_log likelihood model train_x train_y t4
      ∧ evaluation_log likelihood model delta_y t5).
Proof.
  unfold notebook.
  eapply returns_weaken.
  - eapply (returns_bind _ _ _ (λ p delta_y t,
      ∃ likelihood model t3 t4 t5,
        t = t3 ++ t4 ++ t5
        ∧ cell3_log p.1 p.2 likelihood model t3
        ∧ training_log likelihood model p.1 p.2 t4
        ∧ evaluation_log likelihood model delta_y t5)); [apply cell2_returns|].
    intros [train_x train_y]. cbn [fst snd].
    eapply returns_weaken.
    + eapply (returns_bind _ _ _ (λ q delta_y t,
        ∃ t4 t5, t = t4 ++ t5
          ∧ training_log q.1 q.2 train_x train_y t4
          ∧ evaluation_log q.1 q.2 delta_y t5)); [apply cell3_returns|].
      intros [likelihood model]. cbn [fst snd].
      eapply returns_weaken.
      * eapply returns_bind; [apply cell4_returns|intros u]. apply cell5_returns.
      * intros delta_y t (u & t4 & t5 & -> & H4 & H5). by exists t4, t5.
    + intros delta_y t ([likelihood model] & t3 & tc & -> & H3 & t4 & t5 & -> & H4 & H5).
      by exists likelihood, model, t3, t4, t5.
  - intros delta_y t ([train_x train_y] & t2 & tb & -> & H2 & Ht).
    destruct Ht as (likelihood & model & t3 & t4 & t5 & -> & H3 & H4 & H5).
    by exists train_x, train_y, likelihood, model, t2, t3, t4, t5.
Qed.

End ScriptProperties.

(** ** The cells run on concrete libraries *)

Lemma training_loop_order_witness :
  all_returned (log (cell4 fresh_lib never_true 1 2 3 4 (World 5 [])).2) = true
  ∧ (cell4 fresh_lib never_true 1 2 3 4 (World 5 [])).1 = Returned ()
  ∧ training_log 1 2 3 4 (log (cell4 fresh_lib never_true 1 2 3 4 (World 5 [])).2).
Proof.
  destruct (training_loop_order nat string nat fresh_lib never_true 1 2 3 4 (World 5 []))
    as (_ & t & Hlog & H).
  change (log (World 5 []) ++ t) with t in Hlog. rewrite Hlog.
  assert (Ha : all_returned t = true) by (rewrite <- Hlog; vm_compute; reflexivity).
  split; [exact Ha|]. exact (H Ha).
Defined.


Lemma exceptions_propagate_witness :
  (notebook no_cuda_lib never_true (World 0 [])).1 = Raised "CUDA unavailable"
  ∧ ∃ t, log (notebook no_cuda_lib never_true (World 0 [])).2 = t
         ∧ propagated (notebook no_cuda_lib never_true (World 0 [])).1 t.
Proof.
  split; [lazy; reflexivity|].
  assert (Hex : no_suppress no_cuda_lib never_true).
  { intros c s _. by destruct (no_cuda_lib c s).1. }
  destruct (exceptions_propagate nat string nat no_cuda_lib never_true Hex (World 0 []))
    as ((t & Hlog & H & _) & _).
  exists t. split; [exact Hlog|exact H].
Defined.

(** The assumption on [__exit__] is needed: a context manager that returns a
    true value swallows the exception of [loss.backward()], and cell 4
    returns although a call raised. *)
Example suppressing_exit_swallows :
  (cell4 failing_backward_lib always_true 1 2 3 4 (World 0 [])).1 = Returned ()
  ∧ all_returned (log (cell4 failing_backward_lib always_true 1 2 3 4 (World 0 [])).2)
    = false
  ∧ (cell4 failing_backward_lib never_true 1 2 3 4 (World 0 [])).1
    = Raised "out of memory".
Proof. vm_compute. done. Qed.

(** Runs of the other cells: on [fresh_lib] no call of cell 5 raises and
    the cell returns; with a failing [loss.backward()] the training loop
    raises in its first pass, after five calls, and no optimizer step
    completed. *)
Example evaluation_run_returns :
  all_returned (log (cell5 fresh_lib 1 2 (World 3 [])).2) = true
  ∧ is_returned (cell5 fresh_lib 1 2 (World 3 [])).1 = true.
Proof. split; lazy; reflexivity. Qed.

Example training_loop_fails_at_backward :
  (loop_range num_iter (training_iteration failing_backward_lib 1 2 3 4 5) (World 6 [])).1
  = Raised "out of memory"
  ∧ names (log (loop_range num_iter
                  (training_iteration failing_backward_lib 1 2 3 4 5) (World 6 [])).2)
    = ["zero_grad"; "__call__"; "__call__"; "__neg__"; "backward"]
  ∧ completed "step" (log (loop_range num_iter
                  (training_iteration failing_backward_lib 1 2 3 4 5) (World 6 [])).2) = 0.
Proof. split; [|split]; lazy; reflexivity. Qed.
